(** * Video service: a shallow embedding of the job pipeline

    The development follows the three modules of [video-service/app]:
    [routes.py] (upload, status, download), [processor.py] (the worker's
    processing routine and the event publisher) and [celery_app.py] (the
    queue task wrapping the processing routine).

    Python code becomes functions in a state-and-exception monad over a
    [World] that holds the database, the Redis cache, the files on disk and
    the ordered trace of the effects that left the process (commits, cache
    deletions, queue messages, published events). *)

From Stdlib Require Import Ascii String ZArith List Bool Lia.
From stdpp Require Import base option list gmap strings pretty.

Open Scope string_scope.
Open Scope Z_scope.

(** ** Python strings

    A Python [str] is held as the bytes of its UTF-8 encoding. [str.split]
    on a slash, [str.rfind] of a dot and slicing act on these bytes as on
    the code points (no byte of a longer sequence is a slash or a dot).
    [str.lower] is exact wherever its result is compared with an ASCII
    string: the letters A to Z become a to z, and U+212A KELVIN SIGN (bytes
    226, 132, 170), the one other code point whose lower case is an ASCII
    letter alone, becomes k; the lower case of any other code point keeps a
    code point outside ASCII, and the code point is left as it is. *)

Module PyStr.

Definition lower_char (c : ascii) : ascii :=
  let n := nat_of_ascii c in
  if (Nat.leb 65 n && Nat.leb n 90)%bool then ascii_of_nat (n + 32) else c.

Fixpoint lower (s : string) : string :=
  match s with
  | EmptyString => EmptyString
  | String "226" (String "132" (String "170" s')) => String "k" (lower s')
  | String c s' => String (lower_char c) (lower s')
  end.

(** [s.split(sep)] for a one-character separator. *)
Fixpoint split (sep : ascii) (s : string) : list string :=
  match s with
  | EmptyString => [EmptyString]
  | String c s' =>
      if Ascii.eqb c sep then EmptyString :: split sep s'
      else match split sep s' with
           | [] => [String c EmptyString]
           | w :: ws => String c w :: ws
           end
  end.

(** [s.rfind(c)], with [None] for Python's -1. *)
Fixpoint rfind (c : ascii) (s : string) : option nat :=
  match s with
  | EmptyString => None
  | String a s' =>
      match rfind c s' with
      | Some i => Some (S i)
      | None => if Ascii.eqb a c then Some 0%nat else None
      end
  end.

(** [s[i:]] *)
Fixpoint drop (i : nat) (s : string) : string :=
  match i, s with
  | O, _ => s
  | S i', String _ s' => drop i' s'
  | S _, EmptyString => EmptyString
  end.

Fixpoint has_char (c : ascii) (s : string) : bool :=
  match s with
  | EmptyString => false
  | String a s' => Ascii.eqb a c || has_char c s'
  end.

(** [s.startswith(c)] for one character. *)
Definition startswith_char (c : ascii) (s : string) : bool :=
  match s with
  | String a _ => Ascii.eqb a c
  | EmptyString => false
  end.

(** [sep.join(l)] *)
Fixpoint join (sep : string) (l : list string) : string :=
  match l with
  | [] => ""
  | [x] => x
  | x :: rest => x ++ sep ++ join sep rest
  end.

End PyStr.

(** ** pathlib.PurePosixPath

    A path is its root (the empty string, one slash or two slashes) and the
    list of its components; parsing drops empty components and single
    dots, and keeps double dots. *)

Module Pathlib.

Record PurePath : Type := mkPath { root : string; parts : list string }.

#[global] Instance PurePath_eq_dec : EqDecision PurePath.
Proof. solve_decision. Defined.

#[global] Instance PurePath_countable : Countable PurePath.
Proof.
  refine (inj_countable' (fun p => (root p, parts p))
                         (fun t => mkPath (fst t) (snd t)) _).
  intros [r ps]; reflexivity.
Defined.

Definition keep_component (c : string) : bool :=
  negb (String.eqb c "") && negb (String.eqb c ".").

(** The root of a POSIX path: exactly two leading slashes are kept as
    they are, any other number of them is one slash. *)
Definition splitroot (s : string) : string :=
  match s with
  | String "/" (String "/" (String "/" _)) => "/"
  | String "/" (String "/" _) => "//"
  | String "/" _ => "/"
  | _ => ""
  end.

(** [Path(s)] *)
Definition Path (s : string) : PurePath :=
  {| root := splitroot s;
     parts := List.filter keep_component (PyStr.split "/" s) |}.

(** [p / s] : a rooted right operand replaces the left one. *)
Definition joinpath (p : PurePath) (s : string) : PurePath :=
  let q := Path s in
  if String.eqb (root q) "" then {| root := root p; parts := parts p ++ parts q |}
  else q.

(** [p.name] *)
Definition name (p : PurePath) : string := List.last (parts p) "".

(** The suffix of a file name (CPython up to 3.13):
    [i = name.rfind('.'); name[i:] if 0 < i < len(name) - 1 else ''] *)
Definition name_suffix (n : string) : string :=
  match PyStr.rfind "." n with
  | Some i =>
      if (Nat.ltb 0 i && Nat.ltb i (String.length n - 1))%bool
      then PyStr.drop i n else ""
  | None => ""
  end.

(** [p.suffix] *)
Definition suffix (p : PurePath) : string := name_suffix (name p).

(** [p.stem] *)
Definition stem (p : PurePath) : string :=
  let n := name p in
  match PyStr.rfind "." n with
  | Some i =>
      if (Nat.ltb 0 i && Nat.ltb i (String.length n - 1))%bool
      then String.substring 0 i n else n
  | None => n
  end.

(** [str(p)] *)
Definition to_str (p : PurePath) : string :=
  match root p, parts p with
  | "", [] => "."
  | r, ps => r ++ PyStr.join "/" ps
  end.

End Pathlib.

(** [os.path.join(a, b)] of posixpath, for two arguments. *)
Definition os_path_join (a b : string) : string :=
  if PyStr.startswith_char "/" b then b
  else if (String.eqb a "" || String.eqb (PyStr.drop (String.length a - 1) a) "/")%bool
       then a ++ b
       else a ++ "/" ++ b.

(** ** The world of the service *)

(** Rows of [shared.models]: the columns the service reads and writes.
    A video's primary key is its key in the table. *)
Record User : Type := mkUser { user_id : Z; username : string }.

Record Video : Type := mkVideo {
  filename : string;
  video_user_id : Z;
  status : string
}.

(** Modelled from the spec: [shared/models.py] is not part of the sources;
    the column default of [Video.status], which [Video(filename=...,
    user_id=...)] relies on, is the state in which a job is created. *)
Definition Video_status_default : string := "queued".

Record Database : Type := mkDatabase {
  users : list User;
  videos : gmap Z Video;
  video_seq : Z          (* next value of the primary-key sequence *)
}.

(** One element of the status response: [{"id", "filename", "status"}]. *)
Record Summary : Type := mkSummary {
  s_id : Z; s_filename : string; s_status : string
}.

(** A Redis entry written by [setex]: time to live and the JSON value,
    kept as the list it encodes. *)
Record CacheEntry : Type := mkCacheEntry { ttl : Z; cached_value : list Summary }.

(** What a stored file holds: bytes that are no archive, or a zip archive
    with its entries in archive order. *)
#[local] Unset Elimination Schemes.
Inductive Blob : Type :=
| Raw (data : string)
| ZipArchive (entries : list (string * Blob)).
#[local] Set Elimination Schemes.

(** The JSON body of a published event. *)
Record EventBody : Type := mkEventBody {
  ev_video_id : Z; ev_user_id : Z; ev_error : option string
}.

(** Effects that leave the process, in the order they happen. *)
Inductive Effect : Type :=
| EvFileWrite (p : Pathlib.PurePath)
| EvUnlink (p : Pathlib.PurePath)
| EvCommit (id : Z) (row : Video)
| EvCacheSet (key : string)
| EvCacheDelete (key : string)
| EvEnqueue (video_id : Z)
| EvConvert (input output : string)
| EvPublish (routing_key : string) (body : EventBody)
| EvRetry (video_id : Z) (countdown : Z).

Record World : Type := mkWorld {
  db : Database;
  cache : gmap string CacheEntry;
  fs : gmap Pathlib.PurePath Blob;
  trace : list Effect
}.

(** Why the file system refuses [open(p, "wb")]: a directory on the way
    is missing, the path is a directory, a component on the way is a file,
    the process may not write there. *)
Inductive OpenError : Type :=
| NoSuchDirectory
| IsDirectory
| NotADirectory
| NotPermitted.

(** How a member of an uploaded archive reads: fully; not at all, because
    it is encrypted, compressed by a method zipfile does not have, or has a
    bad header (all three raised by [ZipFile.open]); or with a checksum
    that does not match, which zipfile reports in the read that reaches the
    end of the member, after [copied], the bytes of the earlier reads,
    went to the destination. *)
Inductive MemberState : Type :=
| Readable
| Encrypted
| UnsupportedMethod
| BadHeader
| BadChecksum (copied : string).

(** The collaborators the service cannot control: whether the database,
    Redis and RabbitMQ (as task queue, as event exchange) answer, what
    the codec does with this attempt ([inl msg]: it raises and
    [str(e) = msg]; [inr data]: it writes [data]), whether the file system
    lets a path be opened for writing, and how the members of the uploaded
    archive read. *)
Record Env : Type := mkEnvironment {
  db_up : bool;
  cache_up : bool;
  queue_up : bool;
  bus_up : bool;
  ffmpeg_outcome : string + string;
  open_error : Pathlib.PurePath -> option OpenError;
  member_state : string -> MemberState
}.

(** An environment whose file system refuses no write and whose archive
    members read fully. *)
Definition mkEnv (db cache queue bus : bool) (codec : string + string) : Env :=
  {| db_up := db; cache_up := cache; queue_up := queue; bus_up := bus;
     ffmpeg_outcome := codec;
     open_error := fun _ => None;
     member_state := fun _ => Readable |}.

Inductive Exn : Type :=
| HTTPException (status_code : Z) (detail : string)
| BadZipFile
| KeyError
| FileNotFoundError
| AttributeError
| OperationalError
| RedisError
| AMQPError
| FFmpegError (msg : string)
| Retry (exc : Exn) (countdown : Z)
| IsADirectoryError
| NotADirectoryError
| PermissionError
| ValueError
| RuntimeError
| NotImplementedError.

Definition exn_of_open_error (e : OpenError) : Exn :=
  match e with
  | NoSuchDirectory => FileNotFoundError
  | IsDirectory => IsADirectoryError
  | NotADirectory => NotADirectoryError
  | NotPermitted => PermissionError
  end.

(** [str(e)] for the exceptions whose text the service uses. *)
Definition str_of_exn (e : Exn) : string :=
  match e with
  | FFmpegError msg => msg
  | HTTPException _ detail => detail
  | _ => ""
  end.

(** ** State and exceptions *)

Definition M (A : Type) : Type := World -> (Exn + A) * World.

#[global] Instance M_ret : MRet M := fun A a w => (inr a, w).

#[global] Instance M_bind : MBind M := fun A B f m w =>
  match m w with
  | (inr a, w') => f a w'
  | (inl e, w') => (inl e, w')
  end.

Definition raise {A} (e : Exn) : M A := fun w => (inl e, w).

(** [try: m  except Exception as e: h e] *)
Definition try_except {A} (m : M A) (h : Exn -> M A) : M A := fun w =>
  match m w with
  | (inl e, w') => h e w'
  | r => r
  end.

(** [try: m  except <class>: h], for the class recognised by [sel]. *)
Definition try_except_only {A} (sel : Exn -> bool) (m : M A) (h : M A) : M A :=
  fun w =>
    match m w with
    | (inl e, w') => if sel e then h w' else (inl e, w')
    | r => r
    end.

(** [try: m  finally: f] *)
Definition try_finally {A} (m : M A) (f : M unit) : M A := fun w =>
  match m w with
  | (r, w') =>
      match f w' with
      | (inl e, w'') => (inl e, w'')
      | (inr _, w'') => (r, w'')
      end
  end.

Definition emit (e : Effect) : M unit := fun w =>
  (inr tt, {| db := db w; cache := cache w; fs := fs w; trace := trace w ++ [e] |}).

Definition set_db (d : Database) : M unit := fun w =>
  (inr tt, {| db := d; cache := cache w; fs := fs w; trace := trace w |}).

Definition set_cache (c : gmap string CacheEntry) : M unit := fun w =>
  (inr tt, {| db := db w; cache := c; fs := fs w; trace := trace w |}).

Definition set_fs (f : gmap Pathlib.PurePath Blob) : M unit := fun w =>
  (inr tt, {| db := db w; cache := cache w; fs := f; trace := trace w |}).

Definition get_world : M World := fun w => (inr w, w).

(** ** Collaborators: database session, Redis, zipfile, storage, codec, broker *)

Section Service.

Variable env : Env.

(** Every statement sent to the database raises when it is unreachable. *)
Definition db_execute {A} (q : Database -> A) : M A := fun w =>
  if db_up env then (inr (q (db w)), w) else (inl OperationalError, w).

(** [db.query(User).filter(User.username == name).first()] *)
Definition query_user_by_name (name : string) : M (option User) :=
  db_execute (fun d => List.find (fun u => String.eqb (username u) name) (users d)).

(** [db.query(Video).filter(Video.id == id).first()] *)
Definition query_video (id : Z) : M (option Video) :=
  db_execute (fun d => videos d !! id).

(** [db.query(Video).filter(Video.user_id == uid).all()] *)
Definition query_videos_of (uid : Z) : M (list (Z * Video)) :=
  db_execute (fun d =>
    List.filter (fun r => Z.eqb (video_user_id (snd r)) uid) (map_to_list (videos d))).

(** The relationship [video.user]. *)
Definition video_user (v : Video) : M (option User) :=
  db_execute (fun d => List.find (fun u => Z.eqb (user_id u) (video_user_id v)) (users d)).

(** [db.add(video); db.commit(); db.refresh(video)]: the row is stored
    under the next key of the sequence. *)
Definition add_commit_refresh (v : Video) : M Z :=
  d ← db_execute (fun d => d);
  let id := video_seq d in
  set_db {| users := users d; videos := <[id := v]> (videos d); video_seq := id + 1 |};;
  emit (EvCommit id v);;
  mret id.

(** [video.status = s; db.commit()] on the row loaded under [id]. *)
Definition commit_status (id : Z) (v : Video) (s : string) : M Video :=
  d ← db_execute (fun d => d);
  let v' := {| filename := filename v; video_user_id := video_user_id v; status := s |} in
  set_db {| users := users d; videos := <[id := v']> (videos d); video_seq := video_seq d |};;
  emit (EvCommit id v');;
  mret v'.

Definition redis_get (key : string) : M (option CacheEntry) := fun w =>
  if cache_up env then (inr (cache w !! key), w) else (inl RedisError, w).

Definition redis_setex (key : string) (seconds : Z) (value : list Summary) : M unit :=
  fun w =>
    if cache_up env
    then (set_cache (<[key := mkCacheEntry seconds value]> (cache w));;
          emit (EvCacheSet key)) w
    else (inl RedisError, w).

Definition redis_delete (key : string) : M unit := fun w =>
  if cache_up env
  then (set_cache (delete key (cache w));; emit (EvCacheDelete key)) w
  else (inl RedisError, w).

(** The effect of a write that went through. *)
Definition store_file (p : Pathlib.PurePath) (data : Blob) : M unit := fun w =>
  (set_fs (<[p := data]> (fs w));; emit (EvFileWrite p)) w.

(** What [open(p, "wb")] raises, if anything: [ValueError] for a null
    byte in the path; [IsADirectoryError] for a path without component
    (the current directory, the root) and for the two directories the
    service creates when it is loaded; for every other path the file
    system decides. *)
Definition open_refusal (p : Pathlib.PurePath) : option Exn :=
  if existsb (PyStr.has_char "000") (Pathlib.parts p) then Some ValueError
  else if (bool_decide (Pathlib.parts p = [])
           || bool_decide (p = Pathlib.Path "uploads")
           || bool_decide (p = Pathlib.Path "processed"))%bool
  then Some IsADirectoryError
  else exn_of_open_error <$> open_error env p.

(** [with open(p, "wb") as f: f.write(data)] *)
Definition write_file (p : Pathlib.PurePath) (data : Blob) : M unit :=
  match open_refusal p with
  | Some e => raise e
  | None => store_file p data
  end.

Definition path_exists (p : Pathlib.PurePath) : M bool := fun w =>
  (inr (bool_decide (is_Some (fs w !! p))), w).

Definition unlink (p : Pathlib.PurePath) : M unit := fun w =>
  match fs w !! p with
  | Some _ => (set_fs (delete p (fs w));; emit (EvUnlink p)) w
  | None => (inl FileNotFoundError, w)
  end.

(** [zipfile.ZipFile(p, "r")]: the entries of the archive stored at [p]. *)
Definition ZipFile (p : Pathlib.PurePath) : M (list (string * Blob)) := fun w =>
  match fs w !! p with
  | Some (ZipArchive entries) => (inr entries, w)
  | Some (Raw _) => (inl BadZipFile, w)
  | None => (inl FileNotFoundError, w)
  end.

(** [zipfile.ZipFile(p, "w")] and [zipf.write]: the archive is created in
    the directory in which the file it packs was just found. *)
Definition ZipFile_write (p : Pathlib.PurePath) (entries : list (string * Blob)) : M unit :=
  store_file p (ZipArchive entries).

(** [zip_ref.namelist()] *)
Definition namelist (entries : list (string * Blob)) : list string :=
  List.map fst entries.

(** The data zipfile yields for a name: it resolves a name through its
    name table, in which a later entry of the same name replaces an
    earlier one. *)
Definition zip_entry (entries : list (string * Blob)) (member : string) : option Blob :=
  snd <$> List.find (fun e => String.eqb (fst e) member) (List.rev entries).

(** What [zip_ref.open(member)] raises, if anything. *)
Definition member_refusal (member : string) : option Exn :=
  match member_state env member with
  | Encrypted => Some RuntimeError
  | UnsupportedMethod => Some NotImplementedError
  | BadHeader => Some BadZipFile
  | Readable | BadChecksum _ => None
  end.

(** What reading the member to its end raises, if anything. *)
Definition copy_refusal (member : string) : option Exn :=
  match member_state env member with
  | BadChecksum _ => Some BadZipFile
  | _ => None
  end.

(** What [shutil.copyfileobj(source, dest)] brings to the destination. *)
Definition copied_part (member : string) (source : Blob) : Blob :=
  match member_state env member with
  | BadChecksum copied => Raw copied
  | _ => source
  end.

(** [zip_ref.open(member)] *)
Definition zip_open (entries : list (string * Blob)) (member : string) : M Blob :=
  match member_refusal member with
  | Some e => raise e
  | None =>
      match zip_entry entries member with
      | Some data => mret data
      | None => raise KeyError
      end
  end.

(** The last read of [shutil.copyfileobj(source, dest)], in which the
    checksum is compared. *)
Definition copy_end (member : string) : M unit :=
  match copy_refusal member with
  | Some e => raise e
  | None => mret tt
  end.

(** [ffmpeg.input(input).output(output).run()] *)
Definition ffmpeg_run (input output : string) : M unit :=
  emit (EvConvert input output);;
  match ffmpeg_outcome env with
  | inl msg => raise (FFmpegError msg)
  | inr data => store_file (Pathlib.Path output) (Raw data)
  end.

(** Connecting to RabbitMQ and [basic_publish] on the topic exchange. *)
Definition basic_publish (routing_key : string) (body : EventBody) : M unit :=
  if bus_up env then emit (EvPublish routing_key body) else raise AMQPError.

(** [process_video_task.delay(id)]: the task message on the queue. *)
Definition delay (id : Z) : M unit :=
  if queue_up env then emit (EvEnqueue id) else raise AMQPError.

End Service.

(** ** routes.py *)

Module Routes.

Import Pathlib.

Definition UPLOAD_DIR : PurePath := Path "uploads".
Definition PROCESSED_DIR : PurePath := Path "processed".
Definition ALLOWED_VIDEO_EXTENSIONS : gset string :=
  {[ ".mp4"; ".mov"; ".mkv"; ".avi"; ".webm" ]}.
Definition STATUS_CACHE_TTL_SECONDS : Z := 120.

Record UploadFile : Type := mkUploadFile { uf_filename : string; uf_content : Blob }.

(** [{"video_id": ..., "status": ...}] *)
Record UploadResponse : Type := mkUploadResponse { video_id : Z; upload_status : string }.

(** [FileResponse(path, media_type=..., filename=...)] *)
Record FileResponse : Type := mkFileResponse {
  fr_path : string; fr_media_type : string; fr_filename : string
}.

Definition _status_cache_key (username : string) : string :=
  "videos:status:" ++ username.

(** [Path(m).suffix.lower() in ALLOWED_VIDEO_EXTENSIONS] *)
Definition allowed_suffix (p : PurePath) : bool :=
  bool_decide (PyStr.lower (suffix p) ∈ ALLOWED_VIDEO_EXTENSIONS).

(** [target_path = UPLOAD_DIR / Path(member).name] *)
Definition extraction_target (member : string) : PurePath :=
  joinpath UPLOAD_DIR (name (Path member)).

Definition is_BadZipFile (e : Exn) : bool :=
  match e with BadZipFile => true | _ => false end.

Section WithEnv.

Variable env : Env.

Definition _get_cached_status (username : string) : M (option (list Summary)) :=
  try_except
    (cached ← redis_get env (_status_cache_key username);
     match cached with
     | Some entry => mret (Some (cached_value entry))
     | None => mret None
     end)
    (fun _ => mret None).

Definition _set_cached_status (username : string) (data : list Summary) : M unit :=
  try_except
    (redis_setex env (_status_cache_key username) STATUS_CACHE_TTL_SECONDS data)
    (fun _ => mret tt).

Definition _invalidate_status_cache (username : string) : M unit :=
  try_except
    (redis_delete env (_status_cache_key username))
    (fun _ => mret tt).

(** The archive branch of [upload_video]: the body of the [with] block. *)
Definition extract_first_video (tmp_path : PurePath) : M string :=
  zip_ref ← ZipFile tmp_path;
  let members := List.filter (fun m => allowed_suffix (Path m)) (namelist zip_ref) in
  match members with
  | [] =>
      raise (HTTPException 400
               "Zip must contain a video file (.mp4, .mov, .mkv, .avi, .webm)")
  | member :: _ =>
      let target_path := extraction_target member in
      source ← zip_open env zip_ref member;
      write_file env target_path (copied_part env member source);;
      copy_end env member;;
      mret (name target_path)
  end.

(** The validation block of [upload_video]: the name under which the
    source is kept, or the rejection. *)
Definition validate_upload (original_filename : string) (tmp_path : PurePath) : M string :=
  if String.eqb (PyStr.lower (suffix tmp_path)) ".zip" then
    try_finally
      (try_except_only is_BadZipFile
         (extract_first_video tmp_path)
         (raise (HTTPException 400 "Invalid zip file")))
      (present ← path_exists tmp_path;
       if present : bool then unlink tmp_path else mret tt)
  else if negb (allowed_suffix tmp_path) then
    raise (HTTPException 400 "Unsupported video format")
  else mret original_filename.

(** The last block of [upload_video]: the row, the cache, the queue,
    the response. *)
Definition persist_and_enqueue (user : User) (final_filename current_user : string)
  : M UploadResponse :=
  id ← add_commit_refresh env
         {| filename := final_filename;
            video_user_id := user_id user;
            status := Video_status_default |};
  _invalidate_status_cache current_user;;
  delay env id;;
  mret {| video_id := id; upload_status := "queued" |}.

Definition upload_video (file : UploadFile) (current_user : string) : M UploadResponse :=
  user ← query_user_by_name env current_user;
  match user with
  | None => raise (HTTPException 404 "User not found")
  | Some user =>
      let original_filename := uf_filename file in
      let tmp_path := joinpath UPLOAD_DIR original_filename in
      write_file env tmp_path (uf_content file);;
      final_filename ← validate_upload original_filename tmp_path;
      persist_and_enqueue user final_filename current_user
  end.

Definition get_status (current_user : string) : M (list Summary) :=
  cached ← _get_cached_status current_user;
  match cached with
  | Some response => mret response
  | None =>
      user ← query_user_by_name env current_user;
      match user with
      | None => raise AttributeError
      | Some user =>
          rows ← query_videos_of env (user_id user);
          let response :=
            List.map (fun r => mkSummary (fst r) (filename (snd r)) (status (snd r))) rows in
          _set_cached_status current_user response;;
          mret response
      end
  end.

(** [not video or video.user.username != current_user
     or video.status != "completed"], evaluated left to right. *)
Definition not_downloadable (video : option Video) (current_user : string) : M bool :=
  match video with
  | None => mret true
  | Some v =>
      owner ← video_user env v;
      match owner with
      | None => raise AttributeError
      | Some u =>
          mret (negb (String.eqb (username u) current_user)
                || negb (String.eqb (status v) "completed"))
      end
  end.

Definition download_video (id : Z) (current_user : string) : M FileResponse :=
  video ← query_video env id;
  reject ← not_downloadable video current_user;
  match video, (reject : bool) with
  | Some v, false =>
      let converted_path := joinpath PROCESSED_DIR (pretty id ++ "_converted.mp4") in
      w ← get_world;
      match fs w !! converted_path with
      | None => raise (HTTPException 404 "Converted file missing")
      | Some converted =>
          let base_name := stem (Path (filename v)) in
          let zip_path := joinpath PROCESSED_DIR (pretty id ++ ".zip") in
          ZipFile_write zip_path [(base_name ++ "_converted.mp4", converted)];;
          mret {| fr_path := to_str zip_path;
                  fr_media_type := "application/zip";
                  fr_filename := base_name ++ "_converted.zip" |}
      end
  | _, _ => raise (HTTPException 404 "Video not found or not ready")
  end.

End WithEnv.

End Routes.

(** ** processor.py *)

Module Processor.

Definition UPLOAD_DIR : string := "uploads".
Definition PROCESSED_DIR : string := "processed".

Section WithEnv.

Variable env : Env.

(** [username = video.user.username if video and video.user else None],
    then the deletion when the name is not empty, all under one [try]. *)
Definition _invalidate_status_cache (video : Video) : M unit :=
  try_except
    (owner ← video_user env video;
     match owner with
     | Some u =>
         if negb (String.eqb (username u) "")
         then redis_delete env ("videos:status:" ++ username u)
         else mret tt
     | None => mret tt
     end)
    (fun _ => mret tt).

Definition publish_video_event (event_type : string) (data : EventBody) : M unit :=
  try_except (basic_publish env event_type data) (fun _ => mret tt).

Definition process_video (video_id : Z) : M unit :=
  video ← query_video env video_id;
  match video with
  | None => mret tt
  | Some video =>
      try_except
        (let input_path := os_path_join UPLOAD_DIR (filename video) in
         let output_path :=
           os_path_join PROCESSED_DIR (pretty video_id ++ "_converted.mp4") in
         ffmpeg_run env input_path output_path;;
         video ← commit_status env video_id video "completed";
         _invalidate_status_cache video;;
         publish_video_event "video.completed"
           {| ev_video_id := video_id;
              ev_user_id := video_user_id video;
              ev_error := None |})
        (fun e =>
           video ← commit_status env video_id video "error";
           _invalidate_status_cache video;;
           publish_video_event "video.error"
             {| ev_video_id := video_id;
                ev_user_id := video_user_id video;
                ev_error := Some (str_of_exn e) |})
  end.

End WithEnv.

End Processor.

(** ** celery_app.py *)

Module CeleryApp.

(** [{"status": "completed", "video_id": video_id}] *)
Record TaskResult : Type := mkTaskResult { task_status : string; task_video_id : Z }.

(** Celery's [Task.max_retries]; the task declares none, so the library
    default applies. *)
Definition max_retries : nat := 3.

(** [self.retry(exc=e, countdown=c)] of a bound task whose request has
    been retried [retries] times: the message is sent again with the
    countdown and [Retry] is raised, or [exc] is raised once the ceiling
    is passed. *)
Definition self_retry {A} (retries : nat) (video_id : Z) (exc : Exn) (countdown : Z) : M A :=
  if Nat.ltb max_retries (S retries) then raise exc
  else emit (EvRetry video_id countdown);; raise (Retry exc countdown).

Definition process_video_task (env : Env) (retries : nat) (video_id : Z) : M TaskResult :=
  try_except
    (Processor.process_video env video_id;;
     mret {| task_status := "completed"; task_video_id := video_id |})
    (fun e => self_retry retries video_id e 60).

End CeleryApp.

(** ** Reading the trace *)

Module Trace.

(** The states committed for job [id], in order. *)
Definition committed_states (id : Z) (t : list Effect) : list string :=
  omap (fun e => match e with
                 | EvCommit i row => if Z.eqb i id then Some (status row) else None
                 | _ => None
                 end) t.

Definition conversions (t : list Effect) : list (string * string) :=
  omap (fun e => match e with EvConvert i o => Some (i, o) | _ => None end) t.

Definition published (t : list Effect) : list (string * EventBody) :=
  omap (fun e => match e with EvPublish k b => Some (k, b) | _ => None end) t.

Definition retries_scheduled (t : list Effect) : list (Z * Z) :=
  omap (fun e => match e with EvRetry i c => Some (i, c) | _ => None end) t.

Definition enqueued (t : list Effect) : list Z :=
  omap (fun e => match e with EvEnqueue i => Some i | _ => None end) t.

Definition files_written (t : list Effect) : list Pathlib.PurePath :=
  omap (fun e => match e with EvFileWrite p => Some p | _ => None end) t.

(** Effects on the files of the service only. *)
Definition file_effect (e : Effect) : bool :=
  match e with
  | EvFileWrite _ | EvUnlink _ => true
  | _ => false
  end.

Definition cache_deletions (t : list Effect) : list string :=
  omap (fun e => match e with EvCacheDelete k => Some k | _ => None end) t.

End Trace.

(** ** The state machine of section 4.2 of the specification *)

Module StateMachine.

Definition terminal (s : string) : bool :=
  String.eqb s "completed" || String.eqb s "error".

(** The edges of the transition table. *)
Definition edge (from to : string) : bool :=
  (String.eqb from "queued" && String.eqb to "processing")
  || (String.eqb from "processing" && String.eqb to "completed")
  || (String.eqb from "processing" && String.eqb to "error")
  || (String.eqb from "processing" && String.eqb to "queued").

(** A history of states starts in [queued] and moves along edges only. *)
Fixpoint along_edges (h : list string) : bool :=
  match h with
  | a :: ((b :: _) as rest) => edge a b && along_edges rest
  | _ => true
  end.

Definition follows_machine (h : list string) : bool :=
  match h with
  | [] => true
  | s :: _ => String.eqb s "queued" && along_edges h
  end.

(** The number of terminal states a history passes through. *)
Definition terminal_visits (h : list string) : nat :=
  length (List.filter terminal h).

End StateMachine.

(** ** Vocabulary of the statements *)

(** The state a run of [process_video] commits, given the codec's verdict. *)
Definition outcome_status (env : Env) : string :=
  match ffmpeg_outcome env with inl _ => "error" | inr _ => "completed" end.

(** The event such a run hands to the publisher. *)
Definition outcome_event (env : Env) (id : Z) (v : Video) : string * EventBody :=
  match ffmpeg_outcome env with
  | inl msg => ("video.error", mkEventBody id (video_user_id v) (Some msg))
  | inr _ => ("video.completed", mkEventBody id (video_user_id v) None)
  end.

Definition with_status (v : Video) (s : string) : Video :=
  {| filename := filename v; video_user_id := video_user_id v; status := s |}.

(** An operation is a no-op success on a world when it returns a value and
    leaves the world (rows, cache, files and trace) exactly as it was. *)
Definition noop_success {A} (m : M A) (w : World) : Prop :=
  exists a, m w = (inr a, w).

(** The owner of a job, as the relationship [video.user] resolves it. *)
Definition owner_of (d : Database) (v : Video) : option User :=
  List.find (fun u => Z.eqb (user_id u) (video_user_id v)) (users d).

(** The three causes for which a download is refused. *)
Inductive DownloadRefused (w : World) (id : Z) (caller : string) : Prop :=
| job_absent :
    videos (db w) !! id = None ->
    DownloadRefused w id caller
| job_of_another_principal (v : Video) (u : User) :
    videos (db w) !! id = Some v ->
    owner_of (db w) v = Some u ->
    username u <> caller ->
    DownloadRefused w id caller
| job_not_completed (v : Video) (u : User) :
    videos (db w) !! id = Some v ->
    owner_of (db w) v = Some u ->
    status v <> "completed" ->
    DownloadRefused w id caller.

Definition not_found_rejection : Exn :=
  HTTPException 404 "Video not found or not ready".

Definition cache_down (env : Env) : Env :=
  {| db_up := db_up env; cache_up := false; queue_up := queue_up env;
     bus_up := bus_up env; ffmpeg_outcome := ffmpeg_outcome env;
     open_error := open_error env; member_state := member_state env |}.

Definition cache_answers (env : Env) : Env :=
  {| db_up := db_up env; cache_up := true; queue_up := queue_up env;
     bus_up := bus_up env; ffmpeg_outcome := ffmpeg_outcome env;
     open_error := open_error env; member_state := member_state env |}.

Definition bus_down (env : Env) : Env :=
  {| db_up := db_up env; cache_up := cache_up env; queue_up := queue_up env;
     bus_up := false; ffmpeg_outcome := ffmpeg_outcome env;
     open_error := open_error env; member_state := member_state env |}.

Definition bus_answers (env : Env) : Env :=
  {| db_up := db_up env; cache_up := cache_up env; queue_up := queue_up env;
     bus_up := true; ffmpeg_outcome := ffmpeg_outcome env;
     open_error := open_error env; member_state := member_state env |}.

(** The status of a principal read from the Job Store alone: what
    [get_status] does after a miss, without the cache. *)
Definition status_from_store (env : Env) (current_user : string) : M (list Summary) :=
  user ← query_user_by_name env current_user;
  match user with
  | None => raise AttributeError
  | Some user =>
      rows ← query_videos_of env (user_id user);
      mret (List.map (fun r => mkSummary (fst r) (filename (snd r)) (status (snd r))) rows)
  end.

(** A path component that names an entry of a directory: not empty, not a
    dot or a double dot, without slash. *)
Definition plain_component (n : string) : bool :=
  negb (String.eqb n "") && negb (String.eqb n ".") && negb (String.eqb n "..")
  && negb (PyStr.has_char "/" n).

(** [p] is an entry of the directory [dir] itself: the components of [dir]
    followed by one plain component. *)
Definition directly_inside (dir p : Pathlib.PurePath) : bool :=
  match List.rev (Pathlib.parts p) with
  | n :: rest =>
      plain_component n
      && String.eqb (Pathlib.root p) (Pathlib.root dir)
      && bool_decide (List.rev rest = Pathlib.parts dir)
  | [] => false
  end.

(** Where [upload_video] first stores the upload. *)
Definition tmp_path_of (file : Routes.UploadFile) : Pathlib.PurePath :=
  Pathlib.joinpath Routes.UPLOAD_DIR (Routes.uf_filename file).

(** The upload is named as an archive. *)
Definition names_archive (file : Routes.UploadFile) : bool :=
  String.eqb (PyStr.lower (Pathlib.suffix (tmp_path_of file))) ".zip".

(** The first name of the archive, in archive order, whose extension is in
    the allow-list. *)
Definition first_video_member (entries : list (string * Blob)) : option string :=
  List.head (List.filter (fun m => Routes.allowed_suffix (Pathlib.Path m)) (namelist entries)).

(** The first entry of the archive, in archive order, whose name has an
    extension in the allow-list. *)
Definition first_video_entry (entries : list (string * Blob)) : option (string * Blob) :=
  List.find (fun e => Routes.allowed_suffix (Pathlib.Path (fst e))) entries.

(** How many entries of the archive carry the name. *)
Definition name_count (entries : list (string * Blob)) (member : string) : nat :=
  length (List.filter (fun e => String.eqb (fst e) member) entries).

(** No entry of the list carries the name. *)
Definition name_absent (member : string) (entries : list (string * Blob)) : bool :=
  forallb (fun e => negb (String.eqb (fst e) member)) entries.

(** The submission was refused as invalid: a response of status 400. *)
Definition is_validation_error {A} (r : Exn + A) : bool :=
  match r with
  | inl (HTTPException code _) => Z.eqb code 400
  | _ => false
  end.

(** The members an upload holds: the entries of an archive, none for any
    other content. *)
Definition members_of (content : Blob) : list (string * Blob) :=
  match content with
  | ZipArchive entries => entries
  | Raw _ => []
  end.




(** The path can be opened for writing. *)
Definition writable (env : Env) (p : Pathlib.PurePath) : Prop :=
  open_refusal env p = None.

(** The causes for which [upload_video] raises a validation error, once
    the upload is stored. *)
Inductive Rejection (env : Env) (file : Routes.UploadFile) : Prop :=
| unreadable_archive (data : string) :
    names_archive file = true ->
    Routes.uf_content file = Raw data ->
    Rejection env file
| archive_without_video (entries : list (string * Blob)) :
    names_archive file = true ->
    Routes.uf_content file = ZipArchive entries ->
    first_video_member entries = None ->
    Rejection env file
| member_with_bad_header (entries : list (string * Blob)) (member : string) :
    names_archive file = true ->
    Routes.uf_content file = ZipArchive entries ->
    first_video_member entries = Some member ->
    member_state env member = BadHeader ->
    Rejection env file
| member_with_bad_checksum (entries : list (string * Blob)) (member copied : string) :
    names_archive file = true ->
    Routes.uf_content file = ZipArchive entries ->
    first_video_member entries = Some member ->
    member_state env member = BadChecksum copied ->
    writable env (Routes.extraction_target member) ->
    Rejection env file
| unsupported_extension :
    names_archive file = false ->
    Routes.allowed_suffix (tmp_path_of file) = false ->
    Rejection env file.

(** [except zipfile.BadZipFile: raise HTTPException(400, ...)]: what leaves
    the [try] block for an exception raised inside it. *)
Definition outside_try (e : Exn) : Exn :=
  if Routes.is_BadZipFile e then HTTPException 400 "Invalid zip file" else e.

(** What the validation block answers for a stored upload: the exception
    it raises, or the file name under which the source is kept. *)
Definition validation_verdict (env : Env) (file : Routes.UploadFile) : Exn + string :=
  if names_archive file then
    match Routes.uf_content file with
    | Raw _ => inl (HTTPException 400 "Invalid zip file")
    | ZipArchive entries =>
        match first_video_member entries with
        | None =>
            inl (HTTPException 400
                   "Zip must contain a video file (.mp4, .mov, .mkv, .avi, .webm)")
        | Some member =>
            match member_refusal env member,
                  open_refusal env (Routes.extraction_target member),
                  copy_refusal env member with
            | Some e, _, _ => inl (outside_try e)
            | None, Some e, _ => inl (outside_try e)
            | None, None, Some e => inl (outside_try e)
            | None, None, None => inr (Pathlib.name (Pathlib.Path member))
            end
        end
    end
  else if Routes.allowed_suffix (tmp_path_of file) then inr (Routes.uf_filename file)
       else inl (HTTPException 400 "Unsupported video format").

(** The world once the upload has been stored under its temporary path. *)
Definition upload_stored (file : Routes.UploadFile) (w : World) : World :=
  {| db := db w; cache := cache w;
     fs := <[tmp_path_of file := Routes.uf_content file]> (fs w);
     trace := trace w ++ [EvFileWrite (tmp_path_of file)] |}.

(** ** Concrete worlds used to run the definitions *)

Module Samples.

Definition alice : User := mkUser 1 "alice".
Definition bob : User := mkUser 2 "bob".

Definition all_up (outcome : string + string) : Env :=
  mkEnv true true true true outcome.

Definition env_converts : Env := all_up (inr "converted bytes").
Definition env_codec_fails : Env := all_up (inl "ffmpeg error").

(** Two registered users, no job, nothing cached, nothing on disk. *)
Definition w_empty : World :=
  {| db := {| users := [alice; bob]; videos := ∅; video_seq := 1 |};
     cache := ∅; fs := ∅; trace := [] |}.

Definition job (s : string) : Video :=
  {| filename := "clip.mp4"; video_user_id := 1; status := s |}.

(** Job 1 of alice, stored in state [s], with its source on disk. *)
Definition w_job (s : string) : World :=
  {| db := {| users := [alice; bob]; videos := {[ 1 := job s ]}; video_seq := 2 |};
     cache := {[ "videos:status:alice" := mkCacheEntry 120 [mkSummary 1 "clip.mp4" s] ]};
     fs := {[ Pathlib.Path "uploads/clip.mp4" := Raw "source bytes" ]};
     trace := [] |}.

Definition mp4_upload : Routes.UploadFile :=
  Routes.mkUploadFile "clip.mp4" (Raw "source bytes").

Definition zip_without_video : Routes.UploadFile :=
  Routes.mkUploadFile "docs.zip" (ZipArchive [("text.txt", Raw "just text")]).

(** An archive whose one video fails its checksum when it is read. *)
Definition zip_with_damaged_video : Routes.UploadFile :=
  Routes.mkUploadFile "bundle.zip" (ZipArchive [("clip.mp4", Raw "damaged video")]).

Definition env_bad_checksum : Env :=
  {| db_up := true; cache_up := true; queue_up := true; bus_up := true;
     ffmpeg_outcome := inr "converted bytes";
     open_error := fun _ => None;
     member_state := fun m =>
       if String.eqb m "clip.mp4" then BadChecksum "" else Readable |}.



(** An archive in which the name of the first video is used twice. *)
Definition zip_with_repeated_name : Routes.UploadFile :=
  Routes.mkUploadFile "takes.zip"
    (ZipArchive [("clip.mp4", Raw "first take"); ("clip.mp4", Raw "second take")]).

Definition zip_with_videos : Routes.UploadFile :=
  Routes.mkUploadFile "bundle.ZIP"
    (ZipArchive [("readme.txt", Raw "r");
                 ("../../etc/first.MOV", Raw "first video");
                 ("second.mp4", Raw "second video")]).

End Samples.

(** ** The endpoints behind their credentials

    [get_current_user] of routes.py and the three routes as FastAPI calls
    them: the dependency runs first, the route body runs with the name it
    returns. [verify_token] of [shared.auth_utils] is not part of the
    sources and is a parameter. *)

Module Endpoints.

Section WithToken.

Variable verify_token : string -> option string.

(** [HTTPBearer()]: the credentials of the Authorization header; a request
    without one is refused with 403 (as the tests of the service expect). *)
Definition security (authorization : option string) : M string :=
  match authorization with
  | Some token => mret token
  | None => raise (HTTPException 403 "Not authenticated")
  end.

(** [username = verify_token(token); if not username: raise 401] *)
Definition get_current_user (authorization : option string) : M string :=
  token ← security authorization;
  match verify_token token with
  | Some username =>
      if String.eqb username "" then raise (HTTPException 401 "Invalid token")
      else mret username
  | None => raise (HTTPException 401 "Invalid token")
  end.

Variable env : Env.

Definition post_upload (authorization : option string) (file : Routes.UploadFile)
  : M Routes.UploadResponse :=
  current_user ← get_current_user authorization;
  Routes.upload_video env file current_user.

Definition get_status (authorization : option string) : M (list Summary) :=
  current_user ← get_current_user authorization;
  Routes.get_status env current_user.

Definition get_download (authorization : option string) (id : Z) : M Routes.FileResponse :=
  current_user ← get_current_user authorization;
  Routes.download_video env id current_user.

End WithToken.

End Endpoints.

(** ** auth-service/app/routes.py

    The auth service works on the same [User] table, of which it reads and
    writes the name and the hashed password. The helpers of
    [shared.auth_utils] are not part of the sources and are parameters. *)

Module AuthService.

Record Account : Type := mkAccount {
  account_id : Z;
  account_username : string;
  hashed_password : string
}.

Record AuthDb : Type := mkAuthDb {
  accounts : list Account;
  account_seq : Z
}.

(** [{"access_token": ..., "token_type": ...}] *)
Record TokenResponse : Type := mkTokenResponse {
  access_token : string; token_type : string
}.

(** State and exceptions over the table of the auth service. *)
Definition A (T : Type) : Type := AuthDb -> (Exn + T) * AuthDb.

(** The row as the video service sees it. *)
Definition as_user (a : Account) : User :=
  {| user_id := account_id a; username := account_username a |}.

Section WithHelpers.

Variable get_password_hash : string -> string.
Variable verify_password : string -> string -> bool.
Variable create_access_token : string -> string.
Variable verify_token : string -> option string.

(** Whether the database of the service answers. *)
Variable reachable : bool.

(** [db.query(User).filter(User.username == name).first()] *)
Definition find_account (name : string) : A (option Account) := fun d =>
  if reachable
  then (inr (List.find (fun a => String.eqb (account_username a) name) (accounts d)), d)
  else (inl OperationalError, d).

Definition signup (name password : string) : A string := fun d =>
  match find_account name d with
  | (inl e, d') => (inl e, d')
  | (inr (Some _), d') => (inl (HTTPException 400 "Username already registered"), d')
  | (inr None, d') =>
      let new_user :=
        {| account_id := account_seq d';
           account_username := name;
           hashed_password := get_password_hash password |} in
      (inr "User created",
       {| accounts := (accounts d' ++ [new_user])%list;
          account_seq := account_seq d' + 1 |})
  end.

Definition login (name password : string) : A TokenResponse := fun d =>
  match find_account name d with
  | (inl e, d') => (inl e, d')
  | (inr (Some db_user), d') =>
      if verify_password password (hashed_password db_user)
      then (inr {| access_token := create_access_token name; token_type := "bearer" |}, d')
      else (inl (HTTPException 400 "Invalid credentials"), d')
  | (inr None, d') => (inl (HTTPException 400 "Invalid credentials"), d')
  end.

(** [verify_auth]: the name a token stands for, for the other services. *)
Definition verify_auth (token : string) : Exn + string :=
  match verify_token token with
  | Some name =>
      if String.eqb name "" then inl (HTTPException 401 "Invalid token") else inr name
  | None => inl (HTTPException 401 "Invalid token")
  end.

End WithHelpers.

End AuthService.

(** ** More vocabulary *)

(** Every stored job id lies below the next value of the sequence. *)
Definition seq_fresh (d : Database) : Prop :=
  forall (id : Z) (v : Video), videos d !! id = Some v -> id < video_seq d.

(** The summary of a row in the status response. *)
Definition summary_of (id : Z) (v : Video) : Summary :=
  mkSummary id (filename v) (status v).

(** The status response the store gives for a user. *)
Definition store_summaries (d : Database) (u : User) : list Summary :=
  List.map (fun r => mkSummary (fst r) (filename (snd r)) (status (snd r)))
    (List.filter (fun r => Z.eqb (video_user_id (snd r)) (user_id u))
       (map_to_list (videos d))).

(** The first user of the table with a given name. *)
Definition user_named (d : Database) (name : string) : option User :=
  List.find (fun u => String.eqb (username u) name) (users d).

(** Stand-ins for the helpers of [shared.auth_utils], to run the auth
    service on concrete inputs. *)
Module AuthSamples.

Definition hash (password : string) : string := "hash of " ++ password.
Definition check (password hashed : string) : bool := String.eqb (hash password) hashed.
Definition token_for (name : string) : string := "token of " ++ name.
Definition name_of (token : string) : option string :=
  if String.eqb (String.substring 0 9 token) "token of "
  then Some (PyStr.drop 9 token) else None.

(** One account, of alice. *)
Definition d_alice : AuthService.AuthDb :=
  {| AuthService.accounts := [AuthService.mkAccount 1 "alice" (hash "secret")];
     AuthService.account_seq := 2 |}.

End AuthSamples.

(** No two accounts of the auth service carry the same name. *)
Definition usernames_unique (d : AuthService.AuthDb) : Prop :=
  NoDup (List.map AuthService.account_username (AuthService.accounts d)).

(** The name is taken by an account of the table. *)
Definition name_taken (d : AuthService.AuthDb) (name : string) : Prop :=
  In name (List.map AuthService.account_username (AuthService.accounts d)).

(** The header carries a token that stands for a name that is not empty. *)
Definition valid_token (verify_token : string -> option string)
    (authorization : option string) (name : string) : Prop :=
  exists token, authorization = Some token /\ verify_token token = Some name /\ name <> "".

(** The status with which a request without valid credentials is refused. *)
Definition refusal_code (authorization : option string) : Z :=
  match authorization with Some _ => 401 | None => 403 end.

(** ** Proof tools *)

(** From here on [++] appends lists; strings are appended with [+:+]. *)
Open Scope list_scope.

Ltac unfold_monad :=
  unfold mbind, M_bind, mret, M_ret, raise, try_except, try_except_only,
    try_finally, emit, set_db, set_cache, set_fs, get_world in *.

Ltac unfold_collaborators :=
  unfold ffmpeg_run, add_commit_refresh, commit_status, query_user_by_name,
    query_video, query_videos_of, video_user, redis_get, redis_setex,
    redis_delete, ZipFile_write, write_file, store_file, path_exists, unlink,
    ZipFile, zip_open, copy_end, basic_publish, delay, db_execute in *.

(** Left-nested appends of single effects become one suffix of the trace. *)
Ltac suffix_of_trace :=
  repeat rewrite <- app_assoc; simpl app.

(** ** The worker: [process_video] and its task *)

Section Worker.

Variable env : Env.

(** A job id that resolves to no row: nothing happens. *)
Lemma process_video_missing (id : Z) (w : World) :
  db_up env = true -> videos (db w) !! id = None ->
  Processor.process_video env id w = (inr tt, w).
Proof.
  intros Hdb Hnone.
  unfold Processor.process_video. unfold_collaborators. unfold_monad.
  rewrite Hdb, Hnone. reflexivity.
Qed.

(** An unreachable database makes the routine raise before anything else. *)
Lemma process_video_db_down (id : Z) (w : World) :
  db_up env = false ->
  Processor.process_video env id w = (inl OperationalError, w).
Proof.
  intros Hdb.
  unfold Processor.process_video. unfold_collaborators. unfold_monad.
  rewrite Hdb. reflexivity.
Qed.

(** A job id that resolves: one conversion, one commit of the outcome, the
    owner's cache entry deleted when Redis answers, one event when the
    broker answers; the routine returns normally whatever the codec did. *)
Lemma process_video_found (id : Z) (w : World) (v : Video) :
  db_up env = true -> videos (db w) !! id = Some v ->
  exists w' t,
    Processor.process_video env id w = (inr tt, w')
    /\ trace w' = trace w ++ t
    /\ videos (db w') = <[id := with_status v (outcome_status env)]> (videos (db w))
    /\ users (db w') = users (db w)
    /\ video_seq (db w') = video_seq (db w)
    /\ Trace.conversions t =
         [(os_path_join "uploads" (filename v),
           os_path_join "processed" (pretty id +:+ "_converted.mp4"))]
    /\ Trace.committed_states id t = [outcome_status env]
    /\ Trace.published t = (if bus_up env then [outcome_event env id v] else [])
    /\ Trace.retries_scheduled t = []
    /\ Trace.enqueued t = [].
Proof.
  intros Hdb Hv.
  unfold Processor.process_video, Processor._invalidate_status_cache,
    Processor.publish_video_event, outcome_status, outcome_event.
  unfold_collaborators. unfold_monad. rewrite Hdb, Hv. cbn.
  destruct (ffmpeg_outcome env) as [msg | data]; cbn;
    match goal with
    | |- context [List.find ?f ?l] => destruct (List.find f l) as [u |]
    end; cbn;
    try destruct (negb _); cbn;
    destruct (cache_up env); cbn;
    destruct (bus_up env); cbn;
    eexists; eexists; (split; [reflexivity |]); cbn;
    suffix_of_trace;
    (split; [reflexivity |]); cbn; rewrite ?Z.eqb_refl;
    repeat split; reflexivity.
Qed.

End Worker.

(** The task returns its result whenever the routine returns. *)
Lemma process_video_task_returns (env : Env) (retries : nat) (id : Z) (w w' : World) :
  Processor.process_video env id w = (inr tt, w') ->
  CeleryApp.process_video_task env retries id w
  = (inr (CeleryApp.mkTaskResult "completed" id), w').
Proof.
  intros Hrun. unfold CeleryApp.process_video_task. unfold_monad.
  rewrite Hrun. reflexivity.
Qed.

(** The task asks for a retry after 60 seconds when the routine raises,
    as long as the request has not used up the retries of the task. *)
Lemma process_video_task_retries_when_routine_raises
    (env : Env) (retries : nat) (id : Z) (w : World) :
  db_up env = false -> (retries < CeleryApp.max_retries)%nat ->
  CeleryApp.process_video_task env retries id w
  = (inl (Retry OperationalError 60),
     {| db := db w; cache := cache w; fs := fs w;
        trace := trace w ++ [EvRetry id 60] |}).
Proof.
  intros Hdb Hlt. unfold CeleryApp.process_video_task. unfold_monad.
  rewrite (process_video_db_down env id w Hdb).
  unfold CeleryApp.self_retry. unfold_monad.
  replace (Nat.ltb CeleryApp.max_retries (S retries)) with false; [reflexivity |].
  symmetry. apply Nat.ltb_ge. lia.
Qed.

(** C10: for every job id that resolves to no record of the store, the
    processing routine returns normally and leaves the world as it was (no
    row written, no cache entry deleted, no event published), and the queue
    task returns its result, so no redelivery is asked for. *)
Theorem unknown_job_is_a_silent_success
    (env : Env) (retries : nat) (id : Z) (w : World) :
  db_up env = true ->
  videos (db w) !! id = None ->
  Processor.process_video env id w = (inr tt, w)
  /\ CeleryApp.process_video_task env retries id w
     = (inr (CeleryApp.mkTaskResult "completed" id), w).
Proof.
  intros Hdb Hnone.
  pose proof (process_video_missing env id w Hdb Hnone) as Hrun.
  split; [exact Hrun |].
  apply process_video_task_returns. exact Hrun.
Qed.

Lemma unknown_job_is_a_silent_success_witness :
  videos (db Samples.w_empty) !! 99999 = None
  /\ CeleryApp.process_video_task Samples.env_converts 0 99999 Samples.w_empty
     = (inr (CeleryApp.mkTaskResult "completed" 99999), Samples.w_empty).
Proof.
  split; [reflexivity |].
  apply (unknown_job_is_a_silent_success Samples.env_converts 0 99999 Samples.w_empty);
    reflexivity.
Defined.

(** C1 (what the code does when a conversion fails): the routine catches
    the codec's exception itself, commits [error] at once and hands a
    [video.error] event to the publisher; it returns normally, so the queue
    task returns its result and never reaches its retry: one conversion
    attempt, no retry scheduled. *)
Theorem failed_conversion_errors_at_once_without_retry
    (env : Env) (retries : nat) (id : Z) (w : World) (v : Video) (msg : string) :
  db_up env = true ->
  videos (db w) !! id = Some v ->
  ffmpeg_outcome env = inl msg ->
  exists w' t,
    CeleryApp.process_video_task env retries id w
    = (inr (CeleryApp.mkTaskResult "completed" id), w')
    /\ trace w' = trace w ++ t
    /\ length (Trace.conversions t) = 1%nat
    /\ Trace.retries_scheduled t = []
    /\ Trace.committed_states id t = ["error"]
    /\ videos (db w') !! id = Some (with_status v "error")
    /\ Trace.published t =
         (if bus_up env
          then [("video.error", mkEventBody id (video_user_id v) (Some msg))]
          else []).
Proof.
  intros Hdb Hv Hfail.
  destruct (process_video_found env id w v Hdb Hv)
    as (w' & t & Hrun & Ht & Hvid & _ & _ & Hconv & Hst & Hpub & Hretry & _).
  unfold outcome_status, outcome_event in *. rewrite Hfail in *.
  exists w', t. repeat split.
  - apply process_video_task_returns. exact Hrun.
  - exact Ht.
  - rewrite Hconv. reflexivity.
  - exact Hretry.
  - exact Hst.
  - rewrite Hvid. apply lookup_insert_eq.
  - exact Hpub.
Qed.

Lemma failed_conversion_errors_at_once_without_retry_witness :
  exists w' t,
    CeleryApp.process_video_task Samples.env_codec_fails 0 1 (Samples.w_job "queued")
    = (inr (CeleryApp.mkTaskResult "completed" 1), w')
    /\ trace w' = trace (Samples.w_job "queued") ++ t
    /\ length (Trace.conversions t) = 1%nat
    /\ Trace.retries_scheduled t = []
    /\ Trace.committed_states 1 t = ["error"]
    /\ videos (db w') !! 1 = Some (with_status (Samples.job "queued") "error")
    /\ Trace.published t =
         [("video.error", mkEventBody 1 1 (Some "ffmpeg error"))].
Proof.
  apply (failed_conversion_errors_at_once_without_retry
           Samples.env_codec_fails 0 1 (Samples.w_job "queued")
           (Samples.job "queued") "ffmpeg error"); reflexivity.
Defined.

(** C2 as stated fails: job 1 is stored as [completed]; processing it again
    with a codec that now fails is no no-op: the conversion runs, the row
    becomes [error] and a [video.error] event is published. *)
Lemma terminal_job_reprocessing_counterexample :
  let w := Samples.w_job "completed" in
  let w' := snd (Processor.process_video Samples.env_codec_fails 1 w) in
  videos (db w) !! 1 = Some (Samples.job "completed")
  /\ StateMachine.terminal (status (Samples.job "completed")) = true
  /\ ~ noop_success (Processor.process_video Samples.env_codec_fails 1) w
  /\ Trace.conversions (trace w') = [("uploads/clip.mp4", "processed/1_converted.mp4")]
  /\ videos (db w') !! 1 = Some (Samples.job "error")
  /\ Trace.published (trace w')
     = [("video.error", mkEventBody 1 1 (Some "ffmpeg error"))].
Proof.
  cbv zeta. split; [reflexivity |]. split; [reflexivity |].
  split; [| repeat split; vm_compute; reflexivity].
  intros [a Hnoop].
  apply (f_equal (fun r => trace (snd r))) in Hnoop.
  vm_compute in Hnoop. discriminate Hnoop.
Qed.

(** C2, amended: for every job already in a terminal state, the processing
    routine invoked on its id returns normally, but not as a no-op: it runs
    the conversion once more, commits the state this attempt yields
    ([completed] when the codec succeeds, [error] when it fails), and hands
    one more event to the publisher, which publishes it when the broker
    answers. *)
Theorem terminal_job_is_processed_again
    (env : Env) (id : Z) (w : World) (v : Video) :
  db_up env = true ->
  videos (db w) !! id = Some v ->
  StateMachine.terminal (status v) = true ->
  exists w' t,
    Processor.process_video env id w = (inr tt, w')
    /\ trace w' = trace w ++ t
    /\ length (Trace.conversions t) = 1%nat
    /\ Trace.committed_states id t = [outcome_status env]
    /\ videos (db w') !! id = Some (with_status v (outcome_status env))
    /\ Trace.published t = (if bus_up env then [outcome_event env id v] else []).
Proof.
  intros Hdb Hv _.
  destruct (process_video_found env id w v Hdb Hv)
    as (w' & t & Hrun & Ht & Hvid & _ & _ & Hconv & Hst & Hpub & _ & _).
  exists w', t. repeat split; try assumption.
  - rewrite Hconv. reflexivity.
  - rewrite Hvid. apply lookup_insert_eq.
Qed.

Lemma terminal_job_is_processed_again_witness :
  exists w' t,
    Processor.process_video Samples.env_converts 1 (Samples.w_job "error") = (inr tt, w')
    /\ trace w' = trace (Samples.w_job "error") ++ t
    /\ length (Trace.conversions t) = 1%nat
    /\ Trace.committed_states 1 t = ["completed"]
    /\ videos (db w') !! 1 = Some (Samples.job "completed")
    /\ Trace.published t = [("video.completed", mkEventBody 1 1 None)].
Proof.
  apply (terminal_job_is_processed_again
           Samples.env_converts 1 (Samples.w_job "error") (Samples.job "error"));
    reflexivity.
Defined.

(** ** Download *)

(** C8: whichever of the three causes applies (the job is absent, it
    belongs to another principal, it is not [completed]), the download
    raises one and the same rejection and leaves the world untouched, so the
    caller cannot tell the causes apart. *)
Theorem download_rejections_are_uniform
    (env : Env) (id : Z) (caller : string) (w : World) :
  db_up env = true ->
  DownloadRefused w id caller ->
  Routes.download_video env id caller w = (inl not_found_rejection, w).
Proof.
  intros Hdb Hcause.
  unfold Routes.download_video, Routes.not_downloadable.
  unfold_collaborators. unfold_monad. rewrite Hdb.
  destruct Hcause as [Hnone | v u Hv Hown Hname | v u Hv Hown Hstate].
  - rewrite Hnone. reflexivity.
  - rewrite Hv. unfold owner_of in Hown. rewrite Hown.
    apply String.eqb_neq in Hname. rewrite Hname. reflexivity.
  - rewrite Hv. unfold owner_of in Hown. rewrite Hown.
    apply String.eqb_neq in Hstate. rewrite Hstate.
    rewrite orb_true_r. reflexivity.
Qed.

Lemma download_rejections_are_uniform_witness :
  Routes.download_video Samples.env_converts 99999 "alice" (Samples.w_job "completed")
  = (inl not_found_rejection, Samples.w_job "completed")
  /\ Routes.download_video Samples.env_converts 1 "bob" (Samples.w_job "completed")
     = (inl not_found_rejection, Samples.w_job "completed")
  /\ Routes.download_video Samples.env_converts 1 "alice" (Samples.w_job "queued")
     = (inl not_found_rejection, Samples.w_job "queued").
Proof.
  split; [| split].
  - apply (download_rejections_are_uniform Samples.env_converts 99999 "alice");
      [reflexivity | apply job_absent; reflexivity].
  - apply (download_rejections_are_uniform Samples.env_converts 1 "bob");
      [reflexivity |
       apply (job_of_another_principal _ _ _ (Samples.job "completed") Samples.alice);
         [reflexivity | reflexivity | discriminate]].
  - apply (download_rejections_are_uniform Samples.env_converts 1 "alice");
      [reflexivity |
       apply (job_not_completed _ _ _ (Samples.job "queued") Samples.alice);
         [reflexivity | reflexivity | discriminate]].
Defined.

(** ** Degraded collaborators *)

Lemma get_cached_status_cache_down (env : Env) (name : string) (w : World) :
  Routes._get_cached_status (cache_down env) name w = (inr None, w).
Proof. reflexivity. Qed.

Lemma set_cached_status_cache_down (env : Env) (name : string) (data : list Summary) (w : World) :
  Routes._set_cached_status (cache_down env) name data w = (inr tt, w).
Proof. reflexivity. Qed.

Lemma invalidate_cache_down (env : Env) (name : string) (w : World) :
  Routes._invalidate_status_cache (cache_down env) name w = (inr tt, w).
Proof. reflexivity. Qed.

Lemma worker_invalidate_cache_down (env : Env) (v : Video) (w : World) :
  Processor._invalidate_status_cache (cache_down env) v w = (inr tt, w).
Proof.
  unfold Processor._invalidate_status_cache. unfold_collaborators. unfold_monad.
  cbn. destruct (db_up env); [| reflexivity].
  destruct (List.find _ _) as [u |]; [| reflexivity].
  destruct (negb _); reflexivity.
Qed.

Lemma publish_bus_down (env : Env) (ty : string) (body : EventBody) (w : World) :
  Processor.publish_video_event (bus_down env) ty body w = (inr tt, w).
Proof. reflexivity. Qed.

Lemma get_status_cache_down (env : Env) (name : string) (w : World) :
  Routes.get_status (cache_down env) name w = status_from_store env name w.
Proof.
  unfold Routes.get_status, status_from_store. unfold_monad.
  rewrite get_cached_status_cache_down.
  unfold_collaborators. cbn.
  destruct (db_up env); [| reflexivity].
  destruct (List.find _ _) as [u |]; reflexivity.
Qed.

(** With the broker of events down, a run of the routine returns the same
    and leaves the same rows, cache and files as with the broker up. *)
Lemma process_video_bus_down (env : Env) (id : Z) (w : World) :
  let down := Processor.process_video (bus_down env) id w in
  let up := Processor.process_video (bus_answers env) id w in
  fst down = fst up /\ db (snd down) = db (snd up)
  /\ cache (snd down) = cache (snd up) /\ fs (snd down) = fs (snd up).
Proof.
  unfold Processor.process_video, Processor._invalidate_status_cache,
    Processor.publish_video_event.
  unfold_collaborators. unfold_monad. cbn.
  destruct (db_up env); [| repeat split].
  destruct (videos (db w) !! id) as [v |]; [| repeat split].
  destruct (ffmpeg_outcome env) as [msg | data]; cbn;
    match goal with
    | |- context [List.find ?f ?l] => destruct (List.find f l) as [u |]
    end; cbn;
    try destruct (negb _); cbn;
    destruct (cache_up env); cbn; repeat split.
Qed.

(** With Redis down, a run of the routine returns the same, leaves the same
    rows and files and publishes the same events as with Redis up. *)
Lemma process_video_cache_down (env : Env) (id : Z) (w : World) :
  let down := Processor.process_video (cache_down env) id w in
  let up := Processor.process_video (cache_answers env) id w in
  fst down = fst up /\ db (snd down) = db (snd up) /\ fs (snd down) = fs (snd up)
  /\ Trace.published (trace (snd down)) = Trace.published (trace (snd up)).
Proof.
  unfold Processor.process_video, Processor._invalidate_status_cache,
    Processor.publish_video_event.
  unfold_collaborators. unfold_monad. cbn.
  destruct (db_up env); [| repeat split].
  destruct (videos (db w) !! id) as [v |]; [| repeat split].
  destruct (ffmpeg_outcome env) as [msg | data]; cbn;
    match goal with
    | |- context [List.find ?f ?l] => destruct (List.find f l) as [u |]
    end; cbn;
    try destruct (negb _); cbn;
    destruct (bus_up env); cbn; repeat split;
    unfold Trace.published; rewrite !omap_app; cbn; rewrite ?app_nil_r; reflexivity.
Qed.

(** With Redis down, the last block of a submission returns the same and
    leaves the same rows, files and queue messages as with Redis up. *)
Lemma persist_and_enqueue_cache_down
    (env : Env) (u : User) (final_filename name : string) (w : World) :
  let down := Routes.persist_and_enqueue (cache_down env) u final_filename name w in
  let up := Routes.persist_and_enqueue (cache_answers env) u final_filename name w in
  fst down = fst up /\ db (snd down) = db (snd up) /\ fs (snd down) = fs (snd up)
  /\ Trace.enqueued (trace (snd down)) = Trace.enqueued (trace (snd up)).
Proof.
  unfold Routes.persist_and_enqueue, Routes._invalidate_status_cache.
  unfold_collaborators. unfold_monad. cbn.
  destruct (db_up env); [| repeat split].
  destruct (queue_up env); cbn; repeat split;
    unfold Trace.enqueued; rewrite !omap_app; cbn; rewrite ?app_nil_r; reflexivity.
Qed.

(** The file system and the archive decide alone what the first two blocks
    of [upload_video] do. *)
Lemma write_file_env (env1 env2 : Env) (p : Pathlib.PurePath) (data : Blob) (w : World) :
  open_error env1 = open_error env2 ->
  write_file env1 p data w = write_file env2 p data w.
Proof.
  intros Hopen. unfold write_file, open_refusal. rewrite Hopen. reflexivity.
Qed.

Lemma validate_upload_env
    (env1 env2 : Env) (original : string) (tmp : Pathlib.PurePath) (w : World) :
  open_error env1 = open_error env2 ->
  member_state env1 = member_state env2 ->
  Routes.validate_upload env1 original tmp w = Routes.validate_upload env2 original tmp w.
Proof.
  intros Hopen Hmember.
  unfold Routes.validate_upload, Routes.extract_first_video, zip_open, copy_end,
    write_file, open_refusal, member_refusal, copy_refusal, copied_part.
  rewrite Hopen, Hmember. reflexivity.
Qed.

Lemma upload_video_cache_down
    (env : Env) (file : Routes.UploadFile) (name : string) (w : World) :
  let down := Routes.upload_video (cache_down env) file name w in
  let up := Routes.upload_video (cache_answers env) file name w in
  fst down = fst up /\ db (snd down) = db (snd up) /\ fs (snd down) = fs (snd up)
  /\ Trace.enqueued (trace (snd down)) = Trace.enqueued (trace (snd up)).
Proof.
  unfold Routes.upload_video.
  unfold query_user_by_name, db_execute. unfold_monad. cbn.
  destruct (db_up env) eqn:Hdb; [| repeat split].
  destruct (List.find _ _) as [u |]; [| repeat split].
  rewrite (write_file_env (cache_down env) (cache_answers env)) by reflexivity.
  destruct (write_file _ _ _ w) as [[e | []] w1]; [repeat split |].
  rewrite (validate_upload_env (cache_down env) (cache_answers env)) by reflexivity.
  destruct (Routes.validate_upload _ _ _ w1) as [[e | final_filename] w2];
    [repeat split |].
  apply persist_and_enqueue_cache_down.
Qed.

(** C6: a cache or event-bus failure never fails the operation around it.
    With Redis down, the cache read is a miss and the status read is the
    read of the Job Store; the cache write and both invalidations return
    normally and change nothing; a submission returns the same and stores
    and enqueues the same as with Redis up, and a run of the worker returns
    the same, commits the same rows and publishes the same events as with
    Redis up. With the event broker down, the publisher returns normally,
    and a run of the worker returns the same and leaves the same committed
    rows and the same cache as with it up. *)
Theorem cache_and_bus_failures_are_absorbed
    (env : Env) (w : World) (name : string) (data : list Summary)
    (v : Video) (ty : string) (body : EventBody) (id : Z) (file : Routes.UploadFile) :
  Routes._get_cached_status (cache_down env) name w = (inr None, w)
  /\ Routes.get_status (cache_down env) name w = status_from_store env name w
  /\ Routes._set_cached_status (cache_down env) name data w = (inr tt, w)
  /\ Routes._invalidate_status_cache (cache_down env) name w = (inr tt, w)
  /\ Processor._invalidate_status_cache (cache_down env) v w = (inr tt, w)
  /\ (let down := Routes.upload_video (cache_down env) file name w in
      let up := Routes.upload_video (cache_answers env) file name w in
      fst down = fst up /\ db (snd down) = db (snd up) /\ fs (snd down) = fs (snd up)
      /\ Trace.enqueued (trace (snd down)) = Trace.enqueued (trace (snd up)))
  /\ (let down := Processor.process_video (cache_down env) id w in
      let up := Processor.process_video (cache_answers env) id w in
      fst down = fst up /\ db (snd down) = db (snd up) /\ fs (snd down) = fs (snd up)
      /\ Trace.published (trace (snd down)) = Trace.published (trace (snd up)))
  /\ Processor.publish_video_event (bus_down env) ty body w = (inr tt, w)
  /\ (let down := Processor.process_video (bus_down env) id w in
      let up := Processor.process_video (bus_answers env) id w in
      fst down = fst up /\ db (snd down) = db (snd up)
      /\ cache (snd down) = cache (snd up) /\ fs (snd down) = fs (snd up)).
Proof.
  split; [apply get_cached_status_cache_down |].
  split; [apply get_status_cache_down |].
  split; [apply set_cached_status_cache_down |].
  split; [apply invalidate_cache_down |].
  split; [apply worker_invalidate_cache_down |].
  split; [apply upload_video_cache_down |].
  split; [apply process_video_cache_down |].
  split; [apply publish_bus_down |].
  apply process_video_bus_down.
Qed.

(** ** Paths of extracted members *)

Section PathFacts.

Import Pathlib.

Lemma split_components_have_no_separator (sep : ascii) (s : string) :
  Forall (fun c => PyStr.has_char sep c = false) (PyStr.split sep s).
Proof.
  induction s as [| c s IH]; simpl.
  - constructor; [reflexivity | constructor].
  - destruct (Ascii.eqb c sep) eqn:Hc.
    + constructor; [reflexivity | exact IH].
    + destruct (PyStr.split sep s) as [| word rest].
      * constructor; [simpl; rewrite Hc; reflexivity | constructor].
      * inversion IH as [| ? ? Hword Hrest]; subst.
        constructor; [simpl; rewrite Hc, Hword; reflexivity | exact Hrest].
Qed.

Lemma split_without_separator (sep : ascii) (s : string) :
  PyStr.has_char sep s = false -> PyStr.split sep s = [s].
Proof.
  induction s as [| c s IH]; simpl; [reflexivity |].
  intros Hno. apply orb_false_elim in Hno as [Hc Hs].
  rewrite Hc, (IH Hs). reflexivity.
Qed.

Lemma last_default_or_member {A} (l : list A) (d : A) :
  (l = [] /\ List.last l d = d) \/ In (List.last l d) l.
Proof.
  induction l as [| a l IH]; [left; split; reflexivity |].
  right. destruct l as [| b l]; [left; reflexivity |].
  destruct IH as [[Hnil _] | Hin]; [discriminate |].
  right. exact Hin.
Qed.

(** A name is empty (the path has no component) or one of the kept
    components of the path. *)
Lemma name_cases (s : string) :
  name (Path s) = ""
  \/ (keep_component (name (Path s)) = true
      /\ PyStr.has_char "/" (name (Path s)) = false).
Proof.
  unfold name, Path; simpl parts.
  destruct (last_default_or_member
              (List.filter keep_component (PyStr.split "/" s)) "")
    as [[_ Hd] | Hin]; [left; exact Hd |].
  right. apply filter_In in Hin as [Hin Hkeep]. split; [exact Hkeep |].
  pose proof (split_components_have_no_separator "/" s) as Hall.
  rewrite List.Forall_forall in Hall. apply Hall. exact Hin.
Qed.

Lemma name_has_no_slash (s : string) :
  PyStr.has_char "/" (name (Path s)) = false.
Proof.
  destruct (name_cases s) as [Hempty | [_ Hno]]; [rewrite Hempty; reflexivity | exact Hno].
Qed.

Lemma splitroot_unrooted (c : ascii) (s : string) :
  Ascii.eqb c "/" = false -> splitroot (String c s) = "".
Proof.
  intros Hc.
  destruct c as [[] [] [] [] [] [] [] []]; try reflexivity; discriminate Hc.
Qed.

(** A string without slash that is kept as a component parses to the
    path of that one component. *)
Lemma Path_of_component (n : string) :
  PyStr.has_char "/" n = false -> keep_component n = true ->
  Path n = {| root := ""; parts := [n] |}.
Proof.
  intros Hno Hkeep. unfold Path.
  rewrite (split_without_separator "/" n Hno). simpl List.filter. rewrite Hkeep.
  destruct n as [| c n]; [discriminate Hkeep |].
  simpl in Hno. apply orb_false_elim in Hno as [Hc _].
  rewrite (splitroot_unrooted c n Hc). reflexivity.
Qed.

Lemma joinpath_component (dir : PurePath) (n : string) :
  PyStr.has_char "/" n = false -> keep_component n = true ->
  joinpath dir n = {| root := root dir; parts := parts dir ++ [n] |}.
Proof.
  intros Hno Hkeep. unfold joinpath.
  rewrite (Path_of_component n Hno Hkeep). reflexivity.
Qed.

Lemma name_of_joined_component (dir : PurePath) (n : string) :
  PyStr.has_char "/" n = false -> keep_component n = true ->
  name (joinpath dir n) = n.
Proof.
  intros Hno Hkeep. rewrite (joinpath_component dir n Hno Hkeep).
  unfold name; simpl parts. apply last_last.
Qed.

(** A name with an allowed suffix is a plain component: the empty name and
    the double dot have no suffix. *)
Lemma allowed_suffix_plain (s : string) :
  Routes.allowed_suffix (Path s) = true ->
  plain_component (name (Path s)) = true.
Proof.
  intros Hallowed. unfold Routes.allowed_suffix, suffix in Hallowed.
  unfold plain_component.
  destruct (name_cases s) as [Hempty | [Hkeep Hno]].
  - rewrite Hempty in Hallowed. vm_compute in Hallowed. discriminate Hallowed.
  - unfold keep_component in Hkeep. apply andb_prop in Hkeep as [Hne Hnd].
    rewrite Hne, Hnd, Hno. simpl.
    destruct (String.eqb (name (Path s)) "..") eqn:Hdots; [| reflexivity].
    apply String.eqb_eq in Hdots. rewrite Hdots in Hallowed.
    vm_compute in Hallowed. discriminate Hallowed.
Qed.

(** An extension spelled with U+212A KELVIN SIGN is the extension [.mkv]
    once lowered. *)
Lemma kelvin_sign_extension_is_allowed :
  Routes.allowed_suffix
    (Path ("clip.m" +:+ String "226" (String "132" (String "170" "v")))) = true.
Proof. vm_compute. reflexivity. Qed.

Lemma plain_component_kept (n : string) :
  plain_component n = true ->
  PyStr.has_char "/" n = false /\ keep_component n = true.
Proof.
  unfold plain_component, keep_component. intros Hplain.
  apply andb_prop in Hplain as [Hplain Hno].
  apply andb_prop in Hplain as [Hplain _].
  apply andb_prop in Hplain as [Hne Hnd].
  rewrite Hne, Hnd. split; [| reflexivity].
  apply negb_true_iff. exact Hno.
Qed.

(** The target of a member with an allowed suffix. *)
Lemma extraction_target_allowed (member : string) :
  Routes.allowed_suffix (Path member) = true ->
  Routes.extraction_target member
  = {| root := ""; parts := ["uploads"; name (Path member)] |}
  /\ name (Routes.extraction_target member) = name (Path member).
Proof.
  intros Hallowed.
  destruct (plain_component_kept _ (allowed_suffix_plain member Hallowed)) as [Hno Hkeep].
  unfold Routes.extraction_target. split.
  - rewrite (joinpath_component Routes.UPLOAD_DIR _ Hno Hkeep). reflexivity.
  - apply name_of_joined_component; assumption.
Qed.

(** The string the worker builds for a stored file name names the path
    under which the upload block stored it. *)
Lemma worker_input_path (n : string) :
  plain_component n = true ->
  Path (os_path_join Processor.UPLOAD_DIR n) = {| root := ""; parts := ["uploads"; n] |}.
Proof.
  intros Hplain. destruct (plain_component_kept n Hplain) as [Hno Hkeep].
  destruct n as [| c n]; [discriminate Hkeep |].
  pose proof Hno as Hno'. simpl in Hno'. apply orb_false_elim in Hno' as [Hc _].
  assert (Hjoin : os_path_join Processor.UPLOAD_DIR (String c n)
                  = "uploads/" +:+ String c n).
  { unfold os_path_join. simpl PyStr.startswith_char. rewrite Hc. reflexivity. }
  rewrite Hjoin. unfold Path.
  assert (Hsplit : PyStr.split "/" ("uploads/" +:+ String c n)
                   = ["uploads"; String c n]).
  { change (PyStr.split "/" ("uploads/" +:+ String c n))
      with ("uploads" :: PyStr.split "/" (String c n)).
    rewrite (split_without_separator "/" (String c n) Hno). reflexivity. }
  rewrite Hsplit. simpl List.filter. rewrite Hkeep. reflexivity.
Qed.

Lemma extraction_target_directly_inside (member : string) :
  Routes.allowed_suffix (Path member) = true ->
  directly_inside Routes.UPLOAD_DIR (Routes.extraction_target member) = true.
Proof.
  intros Hallowed.
  destruct (extraction_target_allowed member Hallowed) as [Htarget _].
  rewrite Htarget. unfold directly_inside. simpl.
  rewrite (allowed_suffix_plain member Hallowed). reflexivity.
Qed.

(** The files the archive branch writes are entries of the upload
    directory: at most one, the target of a member with an allowed suffix. *)
Lemma extract_first_video_writes (env : Env) (tmp : PurePath) (w : World) :
  exists t,
    trace (snd (Routes.extract_first_video env tmp w)) = trace w ++ t
    /\ forallb (directly_inside Routes.UPLOAD_DIR) (Trace.files_written t) = true.
Proof.
  unfold Routes.extract_first_video. unfold_collaborators. unfold_monad.
  destruct (fs w !! tmp) as [[data | entries] |]; cbn;
    try (exists []; split; [rewrite app_nil_r |]; reflexivity).
  destruct (List.filter (fun m => Routes.allowed_suffix (Path m)) (namelist entries))
    as [| member rest] eqn:Hmembers; cbn;
    [exists []; split; [rewrite app_nil_r |]; reflexivity |].
  assert (Hallowed : Routes.allowed_suffix (Path member) = true).
  { assert (Hin : In member (List.filter (fun m => Routes.allowed_suffix (Path m))
                               (namelist entries)))
      by (rewrite Hmembers; left; reflexivity).
    apply filter_In in Hin as [_ Hallowed]. exact Hallowed. }
  destruct (member_refusal env member) as [e |]; cbn;
    [exists []; split; [rewrite app_nil_r |]; reflexivity |].
  destruct (zip_entry entries member) as [data |]; cbn;
    [| exists []; split; [rewrite app_nil_r |]; reflexivity].
  destruct (open_refusal env (Routes.extraction_target member)) as [e |]; cbn;
    [exists []; split; [rewrite app_nil_r |]; reflexivity |].
  destruct (copy_refusal env member) as [e |]; cbn;
    (exists [EvFileWrite (Routes.extraction_target member)];
     split; [reflexivity |]; cbn;
     rewrite (extraction_target_directly_inside member Hallowed); reflexivity).
Qed.

End PathFacts.

(** C9: for every member name, the extraction target is the upload
    directory joined with the member's basename alone, a name without any
    slash; for a member that is extracted (its suffix is in the allow-list)
    the basename is a plain component, neither empty nor a dot nor a double
    dot, so the target is an entry of the upload directory itself, whatever
    directories or parent segments the member name carries; and every file
    the archive branch writes, from any world and in any environment, is
    such an entry. *)
Theorem extraction_target_is_inside_upload_dir (member : string) :
  let basename := Pathlib.name (Pathlib.Path member) in
  Routes.extraction_target member = Pathlib.joinpath Routes.UPLOAD_DIR basename
  /\ PyStr.has_char "/" basename = false
  /\ (Routes.allowed_suffix (Pathlib.Path member) = true ->
      Routes.extraction_target member
      = {| Pathlib.root := ""; Pathlib.parts := ["uploads"; basename] |}
      /\ plain_component basename = true
      /\ directly_inside Routes.UPLOAD_DIR (Routes.extraction_target member) = true)
  /\ (forall (env : Env) (tmp : Pathlib.PurePath) (w : World),
      exists t,
        trace (snd (Routes.extract_first_video env tmp w)) = trace w ++ t
        /\ forallb (directly_inside Routes.UPLOAD_DIR) (Trace.files_written t) = true).
Proof.
  cbv zeta. split; [reflexivity |]. split; [apply name_has_no_slash |].
  split; [| apply extract_first_video_writes].
  intros Hallowed.
  destruct (extraction_target_allowed member Hallowed) as [Htarget _].
  split; [exact Htarget |]. split; [exact (allowed_suffix_plain member Hallowed) |].
  exact (extraction_target_directly_inside member Hallowed).
Qed.

Lemma extraction_target_is_inside_upload_dir_witness :
  Routes.allowed_suffix (Pathlib.Path "../../etc/first.MOV") = true
  /\ Routes.extraction_target "../../etc/first.MOV"
     = {| Pathlib.root := ""; Pathlib.parts := ["uploads"; "first.MOV"] |}
  /\ directly_inside Routes.UPLOAD_DIR (Routes.extraction_target "../../etc/first.MOV") = true.
Proof.
  assert (Hallowed : Routes.allowed_suffix (Pathlib.Path "../../etc/first.MOV") = true)
    by (vm_compute; reflexivity).
  split; [exact Hallowed |].
  destruct (extraction_target_is_inside_upload_dir "../../etc/first.MOV")
    as (_ & _ & Hinside & _).
  destruct (Hinside Hallowed) as (Htarget & _ & Hdirect).
  split; [exact Htarget | exact Hdirect].
Defined.

(** ** Submission *)

(** The validation block touches files only: rows and cache stay, and the
    trace grows by file effects. *)
Lemma validate_upload_frame
    (env : Env) (original : string) (tmp : Pathlib.PurePath) (w : World) :
  let run := Routes.validate_upload env original tmp w in
  db (snd run) = db w /\ cache (snd run) = cache w
  /\ exists t, trace (snd run) = trace w ++ t
               /\ forallb Trace.file_effect t = true.
Proof.
  unfold Routes.validate_upload, Routes.extract_first_video.
  unfold_collaborators. unfold_monad.
  destruct (String.eqb _ ".zip").
  - destruct (fs w !! tmp) as [[data | entries] |] eqn:Htmp; cbn.
    + rewrite Htmp. cbn. rewrite Htmp. cbn.
      repeat split. exists [EvUnlink tmp]. split; reflexivity.
    + destruct (List.filter _ (namelist entries)) as [| member rest]; cbn.
      * rewrite Htmp. cbn. rewrite Htmp. cbn.
        repeat split. exists [EvUnlink tmp]. split; reflexivity.
      * destruct (member_refusal env member) as [e |]; cbn.
        { destruct (Routes.is_BadZipFile e); cbn; rewrite Htmp; cbn; rewrite Htmp; cbn;
            repeat split; exists [EvUnlink tmp]; split; reflexivity. }
        destruct (zip_entry entries member) as [data |]; cbn.
        2: { rewrite Htmp. cbn. rewrite Htmp. cbn.
             repeat split. exists [EvUnlink tmp]. split; reflexivity. }
        destruct (open_refusal env (Routes.extraction_target member)) as [e |]; cbn.
        { destruct (Routes.is_BadZipFile e); cbn; rewrite Htmp; cbn; rewrite Htmp; cbn;
            repeat split; exists [EvUnlink tmp]; split; reflexivity. }
        destruct (copy_refusal env member) as [e |]; cbn;
          [destruct (Routes.is_BadZipFile e); cbn |];
          (destruct (<[Routes.extraction_target member := copied_part env member data]>
                       (fs w) !! tmp)
             as [present |] eqn:Hpresent; cbn; rewrite ?Hpresent; cbn;
           [repeat split;
            exists [EvFileWrite (Routes.extraction_target member); EvUnlink tmp];
            split; [suffix_of_trace |]; reflexivity
           | repeat split;
             exists [EvFileWrite (Routes.extraction_target member)];
             split; reflexivity]).
    + rewrite Htmp. cbn.
      repeat split. exists []. split; [rewrite app_nil_r |]; reflexivity.
  - destruct (negb _); cbn;
      repeat split; exists []; (split; [rewrite app_nil_r |]); reflexivity.
Qed.

(** The first video member of an archive is one of its entries, and the
    archive yields data for its name. *)
Lemma first_video_member_entry (entries : list (string * Blob)) (member : string) :
  first_video_member entries = Some member ->
  Routes.allowed_suffix (Pathlib.Path member) = true
  /\ exists data, zip_entry entries member = Some data /\ In (member, data) entries.
Proof.
  unfold first_video_member. intros Hhead.
  assert (Hin : In member (List.filter
                             (fun m => Routes.allowed_suffix (Pathlib.Path m))
                             (namelist entries))).
  { destruct (List.filter _ (namelist entries)) as [| m rest]; [discriminate Hhead |].
    injection Hhead as ->. left. reflexivity. }
  apply filter_In in Hin as [Hin Hallowed]. split; [exact Hallowed |].
  unfold namelist in Hin. apply in_map_iff in Hin as [[n d] [Hn Hentry]].
  simpl in Hn. subst n. unfold zip_entry.
  destruct (List.find (fun e => String.eqb (fst e) member) (List.rev entries))
    as [[n' d'] |] eqn:Hfind.
  - apply find_some in Hfind as [Hin' Hname]. simpl in Hname.
    apply String.eqb_eq in Hname. subst n'.
    exists d'. split; [reflexivity |]. apply in_rev. exact Hin'.
  - exfalso. apply in_rev in Hentry.
    pose proof (find_none _ _ Hfind (member, d) Hentry) as Hfalse.
    simpl in Hfalse. rewrite String.eqb_refl in Hfalse. discriminate Hfalse.
Qed.

(** An extracted member never lands on the temporary path of the archive:
    their suffixes differ. *)
Lemma extraction_target_is_not_tmp (file : Routes.UploadFile) (member : string) :
  names_archive file = true ->
  Routes.allowed_suffix (Pathlib.Path member) = true ->
  Routes.extraction_target member <> tmp_path_of file.
Proof.
  intros Hzip Hallowed Heq.
  destruct (extraction_target_allowed member Hallowed) as [_ Hname].
  unfold names_archive in Hzip. rewrite <- Heq in Hzip.
  unfold Pathlib.suffix in Hzip. rewrite Hname in Hzip.
  apply String.eqb_eq in Hzip.
  unfold Routes.allowed_suffix, Pathlib.suffix in Hallowed.
  rewrite Hzip in Hallowed. vm_compute in Hallowed. discriminate Hallowed.
Qed.

(** An exception of [open] is not [BadZipFile]. *)
Lemma open_refusal_outside_try (env : Env) (p : Pathlib.PurePath) (e : Exn) :
  open_refusal env p = Some e -> Routes.is_BadZipFile e = false.
Proof.
  unfold open_refusal.
  destruct (existsb _ _); [intros [= <-]; reflexivity |].
  destruct (_ || _)%bool; [intros [= <-]; reflexivity |].
  destruct (open_error env p) as [[] |]; cbn; intros [= <-]; reflexivity.
Qed.

(** An exception of [open] is no response. *)
Lemma open_refusal_no_response (env : Env) (p : Pathlib.PurePath) (e : Exn) :
  open_refusal env p = Some e ->
  forall code detail, e <> HTTPException code detail.
Proof.
  unfold open_refusal.
  destruct (existsb _ _); [intros [= <-]; discriminate |].
  destruct (_ || _)%bool; [intros [= <-]; discriminate |].
  destruct (open_error env p) as [[] |]; cbn; intros [= <-]; discriminate.
Qed.

(** Once the upload is stored under its temporary path, the validation
    block answers the verdict. *)
Lemma validate_upload_verdict (env : Env) (file : Routes.UploadFile) (w : World) :
  fs w !! tmp_path_of file = Some (Routes.uf_content file) ->
  fst (Routes.validate_upload env (Routes.uf_filename file) (tmp_path_of file) w)
  = validation_verdict env file.
Proof.
  intros Htmp. unfold validation_verdict, Routes.validate_upload.
  fold (names_archive file).
  destruct (names_archive file) eqn:Hzip;
    [| destruct (Routes.allowed_suffix (tmp_path_of file)); reflexivity].
  unfold Routes.extract_first_video. unfold_collaborators. unfold_monad.
  rewrite Htmp.
  destruct (Routes.uf_content file) as [data | entries]; cbn.
  - rewrite Htmp. cbn. rewrite Htmp. reflexivity.
  - destruct (first_video_member entries) as [member |] eqn:Hfirst.
    + destruct (first_video_member_entry entries member Hfirst)
        as (Hallowed & data & Hdata & _).
      pose proof (extraction_target_is_not_tmp file member Hzip Hallowed) as Hne.
      unfold first_video_member in Hfirst.
      destruct (List.filter _ (namelist entries)) as [| m rest]; [discriminate Hfirst |].
      injection Hfirst as ->. cbn.
      destruct (member_refusal env member) as [e |]; cbn.
      { unfold outside_try.
        destruct (Routes.is_BadZipFile e); cbn; rewrite Htmp; cbn; rewrite Htmp;
          reflexivity. }
      rewrite Hdata. cbn.
      destruct (open_refusal env (Routes.extraction_target member)) as [e |]; cbn.
      { unfold outside_try.
        destruct (Routes.is_BadZipFile e); cbn; rewrite Htmp; cbn; rewrite Htmp;
          reflexivity. }
      destruct (copy_refusal env member) as [e |]; cbn;
        [unfold outside_try; destruct (Routes.is_BadZipFile e); cbn |];
        rewrite (lookup_insert_ne _ _ _ _ Hne), Htmp; cbn;
        rewrite (lookup_insert_ne _ _ _ _ Hne), Htmp; try reflexivity.
      destruct (extraction_target_allowed member Hallowed) as [_ Hname].
      cbn. rewrite Hname. reflexivity.
    + unfold first_video_member in Hfirst.
      destruct (List.filter _ (namelist entries)) as [| m rest]; [| discriminate Hfirst].
      cbn. rewrite Htmp. cbn. rewrite Htmp. reflexivity.
Qed.

(** A member that reads fully raises nothing. *)
Lemma readable_member (env : Env) (member : string) :
  member_state env member = Readable ->
  member_refusal env member = None /\ copy_refusal env member = None
  /\ forall source, copied_part env member source = source.
Proof.
  unfold member_refusal, copy_refusal, copied_part. intros ->. repeat split.
Qed.

(** The world after the extraction of the first video member: its data
    stored under the target, the archive removed. *)
Lemma validate_upload_extracts
    (env : Env) (file : Routes.UploadFile) (w : World)
    (entries : list (string * Blob)) (member : string) (data : Blob) :
  names_archive file = true ->
  fs w !! tmp_path_of file = Some (ZipArchive entries) ->
  first_video_member entries = Some member ->
  zip_entry entries member = Some data ->
  member_state env member = Readable ->
  writable env (Routes.extraction_target member) ->
  Routes.validate_upload env (Routes.uf_filename file) (tmp_path_of file) w
  = (inr (Pathlib.name (Pathlib.Path member)),
     {| db := db w; cache := cache w;
        fs := delete (tmp_path_of file)
                (<[Routes.extraction_target member := data]> (fs w));
        trace := trace w ++ [EvFileWrite (Routes.extraction_target member);
                             EvUnlink (tmp_path_of file)] |}).
Proof.
  intros Hzip Htmp Hfirst Hdata Hreadable Htarget.
  destruct (readable_member env member Hreadable) as (Hopen & Hcopy & Hpart).
  destruct (first_video_member_entry entries member Hfirst) as (Hallowed & _).
  pose proof (extraction_target_is_not_tmp file member Hzip Hallowed) as Hne.
  destruct (extraction_target_allowed member Hallowed) as [_ Hname].
  unfold Routes.validate_upload. fold (names_archive file). rewrite Hzip.
  unfold Routes.extract_first_video. unfold_collaborators. unfold_monad.
  rewrite Htmp. unfold first_video_member in Hfirst.
  destruct (List.filter _ (namelist entries)) as [| m rest]; [discriminate Hfirst |].
  injection Hfirst as ->. cbn. rewrite Hopen. cbn. rewrite Hdata. cbn.
  unfold writable in Htarget. rewrite Htarget. cbn. rewrite Hcopy, Hpart. cbn.
  rewrite (lookup_insert_ne _ _ _ _ Hne), Htmp. cbn.
  rewrite (lookup_insert_ne _ _ _ _ Hne), Htmp. cbn.
  rewrite Hname. suffix_of_trace. reflexivity.
Qed.

(** [upload_video] for a known principal whose upload cannot be stored:
    the exception of [open], and nothing done. *)
Lemma upload_video_open_refused
    (env : Env) (file : Routes.UploadFile) (name : string) (w : World) (u : User)
    (e : Exn) :
  db_up env = true ->
  List.find (fun u => String.eqb (username u) name) (users (db w)) = Some u ->
  open_refusal env (tmp_path_of file) = Some e ->
  Routes.upload_video env file name w = (inl e, w).
Proof.
  intros Hdb Huser Hopen. unfold Routes.upload_video.
  unfold query_user_by_name, db_execute, write_file. unfold_monad.
  rewrite Hdb, Huser. cbn. fold (tmp_path_of file). rewrite Hopen. reflexivity.
Qed.

(** [upload_video] for a known principal: store the upload, validate, and
    on a verdict that names a file run the last block. *)
Lemma upload_video_blocks
    (env : Env) (file : Routes.UploadFile) (name : string) (w : World) (u : User) :
  db_up env = true ->
  List.find (fun u => String.eqb (username u) name) (users (db w)) = Some u ->
  writable env (tmp_path_of file) ->
  Routes.upload_video env file name w
  = match Routes.validate_upload env (Routes.uf_filename file) (tmp_path_of file)
            (upload_stored file w) with
    | (inl e, w2) => (inl e, w2)
    | (inr final_filename, w2) =>
        Routes.persist_and_enqueue env u final_filename name w2
    end.
Proof.
  intros Hdb Huser Hopen. unfold Routes.upload_video.
  unfold query_user_by_name, db_execute, write_file, store_file. unfold_monad.
  rewrite Hdb, Huser. cbn. fold (tmp_path_of file).
  unfold writable in Hopen. rewrite Hopen. cbn. reflexivity.
Qed.

(** A submission that returns had its upload stored. *)
Lemma upload_video_returns_writable
    (env : Env) (file : Routes.UploadFile) (name : string) (w w' : World)
    (r : Routes.UploadResponse) :
  Routes.upload_video env file name w = (inr r, w') ->
  db_up env = true
  /\ writable env (tmp_path_of file)
  /\ exists u,
       List.find (fun u => String.eqb (username u) name) (users (db w)) = Some u.
Proof.
  intros Hrun.
  destruct (db_up env) eqn:Hdb.
  2: { unfold Routes.upload_video, query_user_by_name, db_execute in Hrun.
       unfold_monad. rewrite Hdb in Hrun. discriminate Hrun. }
  destruct (List.find (fun u => String.eqb (username u) name) (users (db w)))
    as [u |] eqn:Huser.
  2: { unfold Routes.upload_video, query_user_by_name, db_execute in Hrun.
       unfold_monad. rewrite Hdb, Huser in Hrun. discriminate Hrun. }
  split; [reflexivity |]. split; [| exists u; reflexivity].
  unfold writable.
  destruct (open_refusal env (tmp_path_of file)) as [e |] eqn:Hopen; [| reflexivity].
  rewrite (upload_video_open_refused env file name w u e Hdb Huser Hopen) in Hrun.
  discriminate Hrun.
Qed.

(** The last block, when it returns: the row under the next key in state
    [queued], the cache entry deleted when Redis answers, the message on
    the queue, in this order. *)
Lemma persist_and_enqueue_success
    (env : Env) (u : User) (final_filename name : string) (w w' : World)
    (r : Routes.UploadResponse) :
  Routes.persist_and_enqueue env u final_filename name w = (inr r, w') ->
  let id := video_seq (db w) in
  let v := {| filename := final_filename; video_user_id := user_id u;
              status := "queued" |} in
  r = {| Routes.video_id := id; Routes.upload_status := "queued" |}
  /\ db w' = {| users := users (db w); videos := <[id := v]> (videos (db w));
                video_seq := id + 1 |}
  /\ fs w' = fs w
  /\ cache w' = (if cache_up env
                 then delete (Routes._status_cache_key name) (cache w) else cache w)
  /\ trace w' = trace w ++ [EvCommit id v]
                ++ (if cache_up env
                    then [EvCacheDelete (Routes._status_cache_key name)] else [])
                ++ [EvEnqueue id].
Proof.
  unfold Routes.persist_and_enqueue, Routes._invalidate_status_cache.
  unfold_collaborators. unfold_monad.
  destruct (db_up env); [| discriminate].
  destruct (cache_up env); cbn; (destruct (queue_up env); cbn; [| discriminate]);
    intros Hrun; injection Hrun as <- <-; cbn; repeat split;
    suffix_of_trace; reflexivity.
Qed.


(** A submission that returns went through the three blocks: the principal
    is known, the first two blocks touched files only, the last returned. *)
Lemma upload_video_success
    (env : Env) (file : Routes.UploadFile) (name : string) (w w' : World)
    (r : Routes.UploadResponse) :
  Routes.upload_video env file name w = (inr r, w') ->
  exists u final_filename w2 files,
    List.find (fun u => String.eqb (username u) name) (users (db w)) = Some u
    /\ db w2 = db w /\ cache w2 = cache w
    /\ trace w2 = trace w ++ files
    /\ forallb Trace.file_effect files = true
    /\ Routes.persist_and_enqueue env u final_filename name w2 = (inr r, w').
Proof.
  intros Hrun.
  destruct (upload_video_returns_writable env file name w w' r Hrun)
    as (Hdb & Hopen & u & Huser).
  rewrite (upload_video_blocks env file name w u Hdb Huser Hopen) in Hrun.
  destruct (validate_upload_frame env (Routes.uf_filename file) (tmp_path_of file)
              (upload_stored file w)) as (Hdb2 & Hcache2 & t & Htrace2 & Hfiles).
  destruct (Routes.validate_upload _ _ _ (upload_stored file w))
    as [[e | final_filename] w2]; [discriminate Hrun |].
  simpl in Hdb2, Hcache2, Htrace2.
  exists u, final_filename, w2, (EvFileWrite (tmp_path_of file) :: t).
  repeat split; try assumption.
  rewrite Htrace2. suffix_of_trace. reflexivity.
Qed.

(** C5 as stated fails: with Redis unreachable a submission of alice
    returns the new job id with status "queued", the row is committed and
    the id is put on the queue, but the cache entry of alice is not
    invalidated: no deletion reaches the cache, and the entry cached before
    the submission is still there afterwards. *)
Lemma kept_cache_entry_counterexample :
  let down := mkEnv true false true true (inr "converted bytes") in
  let second := Routes.mkUploadFile "other.mp4" (Raw "more bytes") in
  let run := Routes.upload_video down second "alice" (Samples.w_job "queued") in
  fst run = inr {| Routes.video_id := 2; Routes.upload_status := "queued" |}
  /\ videos (db (snd run)) !! 2
     = Some {| filename := "other.mp4"; video_user_id := 1; status := "queued" |}
  /\ Trace.enqueued (trace (snd run)) = [2]
  /\ Trace.cache_deletions (trace (snd run)) = []
  /\ cache (Samples.w_job "queued") !! Routes._status_cache_key "alice"
     = Some (mkCacheEntry 120 [mkSummary 1 "clip.mp4" "queued"])
  /\ cache (snd run) !! Routes._status_cache_key "alice"
     = Some (mkCacheEntry 120 [mkSummary 1 "clip.mp4" "queued"]).
Proof.
  cbv zeta. repeat split; vm_compute; reflexivity.
Qed.

(** C5, amended: on every submission that returns, the response carries
    the new job id with status "queued", the store holds under that id a
    row in state [queued] owned by the submitting principal, and the trace
    of the call is, in this order: file effects, the commit of the row, the
    deletion of the principal's cache entry when Redis answers (then the
    entry is gone afterwards) and no deletion when it does not (then the
    cache is left as it was), the message with the job id on the queue.
    The commit comes before the message, so the id a worker receives
    resolves in the store. *)
Theorem submission_commits_then_invalidates_then_enqueues
    (env : Env) (file : Routes.UploadFile) (name : string) (w w' : World)
    (r : Routes.UploadResponse) :
  Routes.upload_video env file name w = (inr r, w') ->
  exists (u : User) (v : Video) (files : list Effect),
    List.find (fun u => String.eqb (username u) name) (users (db w)) = Some u
    /\ Routes.upload_status r = "queued"
    /\ Routes.video_id r = video_seq (db w)
    /\ status v = "queued" /\ video_user_id v = user_id u
    /\ videos (db w') !! Routes.video_id r = Some v
    /\ forallb Trace.file_effect files = true
    /\ trace w' = trace w ++ files ++ [EvCommit (Routes.video_id r) v]
                  ++ (if cache_up env
                      then [EvCacheDelete (Routes._status_cache_key name)] else [])
                  ++ [EvEnqueue (Routes.video_id r)]
    /\ (cache_up env = true -> cache w' !! Routes._status_cache_key name = None)
    /\ (cache_up env = false -> cache w' = cache w).
Proof.
  intros Hrun.
  destruct (upload_video_success env file name w w' r Hrun)
    as (u & final_filename & w2 & files & Huser & Hdb2 & Hcache2 & Htrace2 & Hfiles & Hlast).
  destruct (persist_and_enqueue_success env u final_filename name w2 w' r Hlast)
    as (Hr & Hdb' & _ & Hcache' & Htrace').
  rewrite Hdb2 in Hr, Hdb', Htrace'.
  exists u,
    {| filename := final_filename; video_user_id := user_id u; status := "queued" |},
    files.
  subst r. simpl Routes.video_id. simpl Routes.upload_status.
  repeat split; try assumption; try reflexivity.
  - rewrite Hdb'. simpl videos. apply lookup_insert_eq.
  - rewrite Htrace', Htrace2. rewrite <- !app_assoc. reflexivity.
  - intros Hup. rewrite Hcache', Hup. apply lookup_delete_eq.
  - intros Hdown. rewrite Hcache', Hdown. exact Hcache2.
Qed.

Lemma submission_commits_then_invalidates_then_enqueues_witness :
  exists (u : User) (v : Video) (files : list Effect),
    List.find (fun u => String.eqb (username u) "alice") (users (db Samples.w_empty))
    = Some u
    /\ "queued" = "queued"
    /\ 1 = video_seq (db Samples.w_empty)
    /\ status v = "queued" /\ video_user_id v = user_id u
    /\ videos (db (snd (Routes.upload_video Samples.env_converts Samples.mp4_upload
                          "alice" Samples.w_empty))) !! 1 = Some v
    /\ forallb Trace.file_effect files = true
    /\ trace (snd (Routes.upload_video Samples.env_converts Samples.mp4_upload
                     "alice" Samples.w_empty))
       = trace Samples.w_empty ++ files ++ [EvCommit 1 v]
         ++ [EvCacheDelete (Routes._status_cache_key "alice")]
         ++ [EvEnqueue 1]
    /\ (true = true ->
        cache (snd (Routes.upload_video Samples.env_converts Samples.mp4_upload
                      "alice" Samples.w_empty))
        !! Routes._status_cache_key "alice" = None)
    /\ (true = false ->
        cache (snd (Routes.upload_video Samples.env_converts Samples.mp4_upload
                      "alice" Samples.w_empty))
        = cache Samples.w_empty).
Proof.
  apply (submission_commits_then_invalidates_then_enqueues
           Samples.env_converts Samples.mp4_upload "alice" Samples.w_empty
           (snd (Routes.upload_video Samples.env_converts Samples.mp4_upload
                   "alice" Samples.w_empty))
           {| Routes.video_id := 1; Routes.upload_status := "queued" |}).
  vm_compute. reflexivity.
Defined.

Lemma file_effects_are_silent (t : list Effect) (id : Z) :
  forallb Trace.file_effect t = true ->
  Trace.enqueued t = [] /\ Trace.committed_states id t = []
  /\ Trace.published t = [] /\ Trace.cache_deletions t = [].
Proof.
  induction t as [| e t IH]; [repeat split |].
  simpl forallb. intros Hall. apply andb_prop in Hall as [He Ht].
  destruct (IH Ht) as (Henq & Hcom & Hpub & Hdel).
  destruct e; try discriminate He; cbn; repeat split; assumption.
Qed.

Lemma open_refusal_not_validation_error
    {A} (env : Env) (p : Pathlib.PurePath) (e : Exn) :
  open_refusal env p = Some e ->
  outside_try e = e /\ is_validation_error (inl e : Exn + A) = false.
Proof.
  intros Hopen. unfold outside_try.
  rewrite (open_refusal_outside_try env p e Hopen). split; [reflexivity |].
  destruct e as [code detail | | | | | | | | | | | | | | |]; try reflexivity.
  exfalso. exact (open_refusal_no_response env p _ Hopen code detail eq_refl).
Qed.

Lemma rejection_verdict (env : Env) (file : Routes.UploadFile) :
  Rejection env file ->
  is_validation_error (validation_verdict env file) = true.
Proof.
  unfold validation_verdict.
  intros [data Hzip Hraw | entries Hzip Harchive Hnone
          | entries member Hzip Harchive Hfirst Hstate
          | entries member copied Hzip Harchive Hfirst Hstate Htarget
          | Hzip Hsuffix].
  - rewrite Hzip, Hraw. reflexivity.
  - rewrite Hzip, Harchive, Hnone. reflexivity.
  - rewrite Hzip, Harchive, Hfirst. unfold member_refusal. rewrite Hstate. reflexivity.
  - rewrite Hzip, Harchive, Hfirst. unfold member_refusal, copy_refusal.
    unfold writable in Htarget. rewrite Hstate, Htarget. reflexivity.
  - rewrite Hzip, Hsuffix. reflexivity.
Qed.


(** The validation block raises no 404. *)
Lemma validation_verdict_found (env : Env) (file : Routes.UploadFile) (e : Exn) :
  validation_verdict env file = inl e ->
  forall detail, e <> HTTPException 404 detail.
Proof.
  unfold validation_verdict.
  destruct (names_archive file).
  - destruct (Routes.uf_content file) as [data | entries];
      [intros [= <-] detail; discriminate |].
    destruct (first_video_member entries) as [member |];
      [| intros [= <-] detail; discriminate].
    unfold member_refusal, copy_refusal.
    destruct (member_state env member); cbn;
      try (intros [= <-] detail; discriminate);
      (destruct (open_refusal env (Routes.extraction_target member)) as [e0 |] eqn:Htarget;
       [destruct (open_refusal_not_validation_error (A := string) env _ e0 Htarget)
          as [-> _];
        intros [= <-] detail;
        exact (open_refusal_no_response env _ e0 Htarget 404 detail)
       | try discriminate; intros [= <-] detail; discriminate]).
  - destruct (Routes.allowed_suffix (tmp_path_of file));
      [discriminate | intros [= <-] detail; discriminate].
Qed.

(** A submission of a known principal is not refused with a 404. *)
Lemma upload_video_known_principal
    (env : Env) (file : Routes.UploadFile) (name : string) (w : World) (u : User) :
  db_up env = true ->
  user_named (db w) name = Some u ->
  forall detail,
    fst (Routes.upload_video env file name w) <> inl (HTTPException 404 detail).
Proof.
  intros Hdb Huser detail.
  destruct (open_refusal env (tmp_path_of file)) as [e |] eqn:Hopen.
  { rewrite (upload_video_open_refused env file name w u e Hdb Huser Hopen).
    simpl fst. intros [= ->].
    exact (open_refusal_no_response env _ _ Hopen 404 detail eq_refl). }
  rewrite (upload_video_blocks env file name w u Hdb Huser Hopen).
  assert (Hstored : fs (upload_stored file w) !! tmp_path_of file
                    = Some (Routes.uf_content file))
    by apply lookup_insert_eq.
  pose proof (validate_upload_verdict env file (upload_stored file w) Hstored)
    as Hverdict.
  destruct (Routes.validate_upload _ _ _ (upload_stored file w))
    as [[e | final_filename] w2]; simpl in Hverdict.
  - simpl fst. intros [= ->].
    exact (validation_verdict_found env file _ (eq_sym Hverdict) detail eq_refl).
  - unfold Routes.persist_and_enqueue, Routes._invalidate_status_cache.
    unfold_collaborators. unfold_monad. rewrite Hdb.
    destruct (cache_up env); cbn; destruct (queue_up env); cbn; discriminate.
Qed.




(** The last block with the database up: the row is written whatever Redis
    and the queue do; no file is touched. *)
Lemma persist_and_enqueue_run
    (env : Env) (u : User) (final_filename name : string) (w : World) :
  db_up env = true ->
  let run := Routes.persist_and_enqueue env u final_filename name w in
  let id := video_seq (db w) in
  let v := {| filename := final_filename; video_user_id := user_id u;
              status := "queued" |} in
  videos (db (snd run)) = <[id := v]> (videos (db w))
  /\ fs (snd run) = fs w
  /\ (exists t, trace (snd run) = trace w ++ t /\ Trace.files_written t = [])
  /\ fst run = (if queue_up env
                then inr {| Routes.video_id := id; Routes.upload_status := "queued" |}
                else inl AMQPError).
Proof.
  intros Hdb.
  unfold Routes.persist_and_enqueue, Routes._invalidate_status_cache.
  unfold_collaborators. unfold_monad. rewrite Hdb.
  destruct (cache_up env); cbn; destruct (queue_up env); cbn;
    repeat split; eexists; (split; [suffix_of_trace; reflexivity | reflexivity]).
Qed.

(** The data zipfile yields for a name is that of the last entry under
    that name. *)
Lemma zip_entry_last (entries : list (string * Blob)) (member : string) (data : Blob) :
  zip_entry entries member = Some data ->
  exists before after,
    entries = before ++ (member, data) :: after /\ name_absent member after = true.
Proof.
  unfold zip_entry.
  induction entries as [| x l IH] using rev_ind; [discriminate |].
  rewrite rev_app_distr. simpl.
  destruct (String.eqb (fst x) member) eqn:Hx.
  - cbn. intros [= <-]. apply String.eqb_eq in Hx.
    exists l, []. destruct x as [n d]. simpl in Hx. subst n. split; reflexivity.
  - intros Hfind. destruct (IH Hfind) as (before & after & -> & Habsent).
    exists before, (after ++ [x]). split; [rewrite <- app_assoc; reflexivity |].
    unfold name_absent in *. rewrite forallb_app, Habsent. simpl.
    rewrite Hx. reflexivity.
Qed.

(** The first entry with an allowed extension carries the first allowed
    name. *)
Lemma first_video_entry_name (entries : list (string * Blob)) (member : string) :
  first_video_member entries = Some member ->
  exists d, first_video_entry entries = Some (member, d).
Proof.
  unfold first_video_member, first_video_entry, namelist.
  induction entries as [| [n d] l IH]; [discriminate |].
  simpl. destruct (Routes.allowed_suffix (Pathlib.Path n)).
  - cbn. intros [= ->]. exists d. reflexivity.
  - exact IH.
Qed.

(** Under a name that occurs once there is one entry. *)
Lemma single_name_entry
    (entries : list (string * Blob)) (member : string) (d1 d2 : Blob) :
  name_count entries member = 1%nat ->
  In (member, d1) entries -> In (member, d2) entries -> d1 = d2.
Proof.
  unfold name_count. intros Hcount H1 H2.
  assert (Hin : forall d, In (member, d) entries ->
                In (member, d)
                   (List.filter (fun e => String.eqb (fst e) member) entries)).
  { intros d Hd. apply filter_In. split; [exact Hd |]. apply String.eqb_refl. }
  apply Hin in H1. apply Hin in H2.
  destruct (List.filter _ entries) as [| x [| y rest]]; try discriminate Hcount.
  destruct H1 as [H1 | []]. destruct H2 as [H2 | []].
  congruence.
Qed.

(** C7 as stated fails: in the archive [takes.zip] the name [clip.mp4] is
    used by two entries; the first member with an allowed extension, in
    archive order, holds the first take, but the one file extracted, the
    source the new job refers to, holds the second take. *)
Lemma repeated_name_counterexample :
  let run := Routes.upload_video Samples.env_converts Samples.zip_with_repeated_name
               "alice" Samples.w_empty in
  first_video_entry (members_of (Routes.uf_content Samples.zip_with_repeated_name))
  = Some ("clip.mp4", Raw "first take")
  /\ fst run = inr {| Routes.video_id := 1; Routes.upload_status := "queued" |}
  /\ Trace.files_written (trace (snd run))
     = [tmp_path_of Samples.zip_with_repeated_name; Routes.extraction_target "clip.mp4"]
  /\ videos (db (snd run)) !! 1
     = Some {| filename := "clip.mp4"; video_user_id := 1; status := "queued" |}
  /\ Pathlib.Path (os_path_join Processor.UPLOAD_DIR "clip.mp4")
     = Routes.extraction_target "clip.mp4"
  /\ fs (snd run) !! Routes.extraction_target "clip.mp4" = Some (Raw "second take")
  /\ fs (snd run) !! Routes.extraction_target "clip.mp4" <> Some (Raw "first take").
Proof.
  cbv zeta. repeat split; try (vm_compute; reflexivity).
  vm_compute. discriminate.
Qed.

(** C7, amended: for every submitted archive with at least one member
    whose extension is in the allow-list, when the upload and the
    extraction target can be written and the member reads fully, the first
    such name in archive order is the one name extracted: besides the
    upload itself exactly one file is written, the extraction target of
    that name, and it holds the data of the last entry of the archive
    under that name, which is the first entry with an allowed extension
    when the name occurs once; the archive is removed; the job row carries
    the member's basename as its file name, and the path the worker builds
    from that file name is the extraction target. *)
Theorem first_video_name_is_extracted_from_its_last_entry
    (env : Env) (file : Routes.UploadFile) (name : string) (w : World) (u : User)
    (entries : list (string * Blob)) (member : string) :
  db_up env = true ->
  List.find (fun u => String.eqb (username u) name) (users (db w)) = Some u ->
  names_archive file = true ->
  Routes.uf_content file = ZipArchive entries ->
  first_video_member entries = Some member ->
  writable env (tmp_path_of file) ->
  writable env (Routes.extraction_target member) ->
  member_state env member = Readable ->
  let run := Routes.upload_video env file name w in
  let id := video_seq (db w) in
  let target := Routes.extraction_target member in
  let basename := Pathlib.name (Pathlib.Path member) in
  exists (data : Blob) (before after : list (string * Blob)) (t : list Effect),
    entries = before ++ (member, data) :: after
    /\ name_absent member after = true
    /\ (name_count entries member = 1%nat ->
        first_video_entry entries = Some (member, data))
    /\ trace (snd run) = trace w ++ t
    /\ Trace.files_written t = [tmp_path_of file; target]
    /\ fs (snd run) !! target = Some data
    /\ fs (snd run) !! tmp_path_of file = None
    /\ videos (db (snd run)) !! id
       = Some {| filename := basename; video_user_id := user_id u; status := "queued" |}
    /\ Pathlib.Path (os_path_join Processor.UPLOAD_DIR basename) = target
    /\ (queue_up env = true ->
        fst run = inr {| Routes.video_id := id; Routes.upload_status := "queued" |}).
Proof.
  intros Hdb Huser Hzip Harchive Hfirst Hopen Hwritable Hreadable. cbv zeta.
  destruct (first_video_member_entry entries member Hfirst)
    as (Hallowed & data & Hdata & Hentry).
  destruct (zip_entry_last entries member data Hdata)
    as (before & after & Hsplit & Habsent).
  pose proof (extraction_target_is_not_tmp file member Hzip Hallowed) as Hne.
  destruct (extraction_target_allowed member Hallowed) as [Htarget _].
  pose proof (allowed_suffix_plain member Hallowed) as Hplain.
  rewrite (upload_video_blocks env file name w u Hdb Huser Hopen).
  assert (Hstored : fs (upload_stored file w) !! tmp_path_of file = Some (ZipArchive entries)).
  { rewrite <- Harchive. apply lookup_insert_eq. }
  rewrite (validate_upload_extracts env file (upload_stored file w) entries member data
             Hzip Hstored Hfirst Hdata Hreadable Hwritable).
  match goal with
  | |- context [Routes.persist_and_enqueue env u ?f name ?w2] =>
      destruct (persist_and_enqueue_run env u f name w2 Hdb)
        as (Hvideos & Hfs & (t3 & Htrace & Hwritten) & Hresult);
      destruct (Routes.persist_and_enqueue env u f name w2) as [result w3]
  end.
  simpl in Hvideos, Hfs, Htrace, Hresult. simpl fst. simpl snd.
  exists data, before, after,
    ([EvFileWrite (tmp_path_of file); EvFileWrite (Routes.extraction_target member);
      EvUnlink (tmp_path_of file)] ++ t3).
  split; [exact Hsplit |]. split; [exact Habsent |].
  split.
  { intros Hcount. destruct (first_video_entry_name entries member Hfirst) as [d Hd].
    rewrite Hd. f_equal. f_equal.
    apply (single_name_entry entries member d data Hcount); [| exact Hentry].
    unfold first_video_entry in Hd. apply find_some in Hd as [Hin _]. exact Hin. }
  split; [rewrite Htrace; suffix_of_trace; reflexivity |].
  split; [unfold Trace.files_written in *; rewrite omap_app, Hwritten; reflexivity |].
  split; [rewrite Hfs, lookup_delete_ne by (intros Heq; apply Hne; symmetry; exact Heq);
          apply lookup_insert_eq |].
  split; [rewrite Hfs; apply lookup_delete_eq |].
  split; [rewrite Hvideos; apply lookup_insert_eq |].
  split; [rewrite Htarget; apply worker_input_path; exact Hplain |].
  intros Hqueue. rewrite Hresult, Hqueue. reflexivity.
Qed.

Lemma first_video_name_is_extracted_from_its_last_entry_witness :
  let run := Routes.upload_video Samples.env_converts Samples.zip_with_videos
               "alice" Samples.w_empty in
  exists (data : Blob) (before after : list (string * Blob)) (t : list Effect),
    [("readme.txt", Raw "r"); ("../../etc/first.MOV", Raw "first video");
     ("second.mp4", Raw "second video")]
    = before ++ ("../../etc/first.MOV", data) :: after
    /\ name_absent "../../etc/first.MOV" after = true
    /\ (name_count [("readme.txt", Raw "r"); ("../../etc/first.MOV", Raw "first video");
                    ("second.mp4", Raw "second video")] "../../etc/first.MOV" = 1%nat ->
        first_video_entry [("readme.txt", Raw "r");
                           ("../../etc/first.MOV", Raw "first video");
                           ("second.mp4", Raw "second video")]
        = Some ("../../etc/first.MOV", data))
    /\ trace (snd run) = trace Samples.w_empty ++ t
    /\ Trace.files_written t
       = [tmp_path_of Samples.zip_with_videos;
          Routes.extraction_target "../../etc/first.MOV"]
    /\ fs (snd run) !! Routes.extraction_target "../../etc/first.MOV" = Some data
    /\ fs (snd run) !! tmp_path_of Samples.zip_with_videos = None
    /\ videos (db (snd run)) !! video_seq (db Samples.w_empty)
       = Some {| filename := Pathlib.name (Pathlib.Path "../../etc/first.MOV");
                 video_user_id := user_id Samples.alice; status := "queued" |}
    /\ Pathlib.Path (os_path_join Processor.UPLOAD_DIR
                       (Pathlib.name (Pathlib.Path "../../etc/first.MOV")))
       = Routes.extraction_target "../../etc/first.MOV"
    /\ (queue_up Samples.env_converts = true ->
        fst run = inr {| Routes.video_id := video_seq (db Samples.w_empty);
                         Routes.upload_status := "queued" |}).
Proof.
  apply (first_video_name_is_extracted_from_its_last_entry
           Samples.env_converts Samples.zip_with_videos "alice" Samples.w_empty
           Samples.alice
           [("readme.txt", Raw "r"); ("../../etc/first.MOV", Raw "first video");
            ("second.mp4", Raw "second video")]
           "../../etc/first.MOV"); reflexivity.
Defined.

(** ** The states a job goes through *)

(** C3 as stated fails: job 1 is submitted and converted; the states
    committed for it are [queued] then [completed], with no [processing] in
    between, which is no path of the machine; processed once more with a
    failing codec, the same job is committed as [error] after [completed]
    and so passes through two terminal states. *)
Lemma job_history_counterexample :
  let w1 := snd (Routes.upload_video Samples.env_converts Samples.mp4_upload
                   "alice" Samples.w_empty) in
  let w2 := snd (Processor.process_video Samples.env_converts 1 w1) in
  let w3 := snd (Processor.process_video Samples.env_codec_fails 1 w2) in
  Trace.committed_states 1 (trace w2) = ["queued"; "completed"]
  /\ StateMachine.follows_machine (Trace.committed_states 1 (trace w2)) = false
  /\ Trace.committed_states 1 (trace w3) = ["queued"; "completed"; "error"]
  /\ StateMachine.terminal_visits (Trace.committed_states 1 (trace w3)) = 2%nat.
Proof.
  cbv zeta. repeat split; vm_compute; reflexivity.
Qed.

(** C3, amended: every job is created as [queued]; the worker commits no
    [processing] state: each run of the processing routine on a stored job
    commits exactly one state for it, [completed] or [error], straight from
    the state the row was in, and the row then holds that state. *)
Theorem job_is_queued_then_one_terminal_state_per_run (env : Env) :
  (forall (file : Routes.UploadFile) (name : string) (w w' : World)
          (r : Routes.UploadResponse),
      Routes.upload_video env file name w = (inr r, w') ->
      exists t v,
        trace w' = trace w ++ t
        /\ Trace.committed_states (Routes.video_id r) t = ["queued"]
        /\ videos (db w') !! Routes.video_id r = Some v /\ status v = "queued")
  /\ (forall (id : Z) (w : World) (v : Video),
         db_up env = true ->
         videos (db w) !! id = Some v ->
         exists w' t s,
           Processor.process_video env id w = (inr tt, w')
           /\ trace w' = trace w ++ t
           /\ Trace.committed_states id t = [s]
           /\ (s = "completed" \/ s = "error")
           /\ StateMachine.terminal s = true
           /\ videos (db w') !! id = Some (with_status v s)).
Proof.
  split.
  - intros file name w w' r Hrun.
    destruct (upload_video_success env file name w w' r Hrun)
      as (u & final_filename & w2 & files & _ & Hdb2 & _ & Htrace2 & Hfiles & Hlast).
    destruct (persist_and_enqueue_success env u final_filename name w2 w' r Hlast)
      as (Hr & Hdb' & _ & _ & Htrace').
    rewrite Hdb2 in Hr, Hdb', Htrace'. subst r. simpl Routes.video_id.
    eexists. eexists.
    split; [rewrite Htrace', Htrace2; rewrite <- !app_assoc; reflexivity |].
    split; [| split; [rewrite Hdb'; simpl videos; apply lookup_insert_eq | reflexivity]].
    unfold Trace.committed_states. rewrite !omap_app.
    destruct (file_effects_are_silent files (video_seq (db w)) Hfiles) as (_ & Hsilent & _).
    unfold Trace.committed_states in Hsilent. rewrite Hsilent.
    destruct (cache_up env); cbn; rewrite Z.eqb_refl; reflexivity.
  - intros id w v Hdb Hv.
    destruct (process_video_found env id w v Hdb Hv)
      as (w' & t & Hrun & Ht & Hvid & _ & _ & _ & Hst & _).
    exists w', t, (outcome_status env).
    split; [exact Hrun |]. split; [exact Ht |]. split; [exact Hst |].
    split; [unfold outcome_status; destruct (ffmpeg_outcome env); [right | left]; reflexivity |].
    split; [unfold outcome_status; destruct (ffmpeg_outcome env); reflexivity |].
    rewrite Hvid. apply lookup_insert_eq.
Qed.

Lemma job_is_queued_then_one_terminal_state_per_run_witness :
  (exists t v,
      trace (snd (Routes.upload_video Samples.env_converts Samples.mp4_upload
                    "alice" Samples.w_empty))
      = trace Samples.w_empty ++ t
      /\ Trace.committed_states 1 t = ["queued"]
      /\ videos (db (snd (Routes.upload_video Samples.env_converts Samples.mp4_upload
                            "alice" Samples.w_empty))) !! 1 = Some v
      /\ status v = "queued")
  /\ (exists w' t s,
         Processor.process_video Samples.env_converts 1 (Samples.w_job "queued")
         = (inr tt, w')
         /\ trace w' = trace (Samples.w_job "queued") ++ t
         /\ Trace.committed_states 1 t = [s]
         /\ (s = "completed" \/ s = "error")
         /\ StateMachine.terminal s = true
         /\ videos (db w') !! 1 = Some (with_status (Samples.job "queued") s)).
Proof.
  destruct (job_is_queued_then_one_terminal_state_per_run Samples.env_converts)
    as [Hcreated Hprocessed].
  split.
  - apply (Hcreated Samples.mp4_upload "alice" Samples.w_empty
             (snd (Routes.upload_video Samples.env_converts Samples.mp4_upload
                     "alice" Samples.w_empty))
             {| Routes.video_id := 1; Routes.upload_status := "queued" |}).
    vm_compute. reflexivity.
  - apply (Hprocessed 1 (Samples.w_job "queued") (Samples.job "queued")); reflexivity.
Defined.

(** ** Further properties of the service *)

(** *** Where a file name lives *)

Lemma splitroot_rooted (s : string) :
  PyStr.startswith_char "/" s = true ->
  String.eqb (Pathlib.splitroot s) "" = false.
Proof.
  destruct s as [| c s]; [discriminate |].
  simpl. intros Hc. apply Ascii.eqb_eq in Hc. subst c.
  destruct s as [| c2 s]; [reflexivity |].
  destruct (Ascii.eqb c2 "/") eqn:Hc2.
  - apply Ascii.eqb_eq in Hc2. subst c2.
    destruct s as [| c3 s]; [reflexivity |].
    destruct c3 as [[] [] [] [] [] [] [] []]; reflexivity.
  - destruct c2 as [[] [] [] [] [] [] [] []]; try reflexivity; discriminate Hc2.
Qed.

Lemma splitroot_not_rooted (s : string) :
  PyStr.startswith_char "/" s = false -> Pathlib.splitroot s = "".
Proof.
  destruct s as [| c s]; [reflexivity |].
  simpl. intros Hc. apply splitroot_unrooted. exact Hc.
Qed.

(** The path of [dir + "/" + s], for a directory name that is one plain
    word, is the directory joined with [s] the way pathlib joins. *)
Lemma Path_of_joined_string (dir s : string) :
  PyStr.has_char "/" dir = false ->
  Pathlib.keep_component dir = true ->
  PyStr.startswith_char "/" s = false ->
  Pathlib.Path (dir +:+ "/" +:+ s) = Pathlib.joinpath (Pathlib.Path dir) s.
Proof.
  intros Hno Hkeep Hs.
  unfold Pathlib.joinpath.
  rewrite (Path_of_component dir Hno Hkeep).
  unfold Pathlib.Path at 2. simpl Pathlib.root.
  rewrite (splitroot_not_rooted s Hs). simpl String.eqb. cbv iota.
  unfold Pathlib.Path. simpl Pathlib.parts.
  assert (Hsplit : forall a, PyStr.has_char "/" a = false ->
            PyStr.split "/" (a +:+ "/" +:+ s) =
            match PyStr.split "/" s with
            | rest => a :: rest
            end).
  { induction a as [| c a IH]; intros Ha; [reflexivity |].
    simpl in Ha. apply orb_false_elim in Ha as [Hc Ha].
    simpl. rewrite Hc. rewrite (IH Ha). reflexivity. }
  rewrite (Hsplit dir Hno). simpl List.filter. rewrite Hkeep.
  f_equal.
  destruct dir as [| c dir]; [discriminate Hkeep |].
  simpl in Hno. apply orb_false_elim in Hno as [Hc _].
  simpl String.append. apply splitroot_unrooted. exact Hc.
Qed.

(** [os.path.join(dir, s)], for a directory name that is one plain word
    without a trailing slash, parses to the directory joined with [s]: a
    name that starts with a slash replaces the directory in both. *)
Lemma Path_of_os_path_join (dir s : string) :
  PyStr.has_char "/" dir = false ->
  Pathlib.keep_component dir = true ->
  (String.eqb dir "" || String.eqb (PyStr.drop (String.length dir - 1) dir) "/")%bool
  = false ->
  Pathlib.Path (os_path_join dir s) = Pathlib.joinpath (Pathlib.Path dir) s.
Proof.
  intros Hno Hkeep Hplain. unfold os_path_join.
  destruct (PyStr.startswith_char "/" s) eqn:Hs.
  - unfold Pathlib.joinpath. unfold Pathlib.Path at 2. simpl Pathlib.root.
    rewrite (splitroot_rooted s Hs). reflexivity.
  - rewrite Hplain. apply Path_of_joined_string; assumption.
Qed.

Lemma worker_upload_path (s : string) :
  Pathlib.Path (os_path_join Processor.UPLOAD_DIR s) = Pathlib.joinpath Routes.UPLOAD_DIR s.
Proof. apply Path_of_os_path_join; reflexivity. Qed.

Lemma worker_processed_path (s : string) :
  Pathlib.Path (os_path_join Processor.PROCESSED_DIR s)
  = Pathlib.joinpath Routes.PROCESSED_DIR s.
Proof. apply Path_of_os_path_join; reflexivity. Qed.

(** X1: for every file name, the path string the worker builds with
    [os.path.join] names the very path under which the upload route stores
    a file of that name with pathlib's [/] (also for names with slashes,
    empty names and names that start with a slash); the same holds for the
    directory of converted files. *)
Theorem worker_and_routes_agree_on_paths (s : string) :
  Pathlib.Path (os_path_join Processor.UPLOAD_DIR s) = Pathlib.joinpath Routes.UPLOAD_DIR s
  /\ Pathlib.Path (os_path_join Processor.PROCESSED_DIR s)
     = Pathlib.joinpath Routes.PROCESSED_DIR s.
Proof.
  split.
  - unfold Processor.UPLOAD_DIR, Routes.UPLOAD_DIR.
    apply Path_of_os_path_join; reflexivity.
  - unfold Processor.PROCESSED_DIR, Routes.PROCESSED_DIR.
    apply Path_of_os_path_join; reflexivity.
Qed.

(** *** Submissions and the files they leave *)

(** A submission that is no archive and could be stored: rejected on its
    suffix, or handed to the last block under its own name. *)
Lemma upload_video_plain
    (env : Env) (file : Routes.UploadFile) (name : string) (w : World) (u : User) :
  db_up env = true ->
  user_named (db w) name = Some u ->
  writable env (tmp_path_of file) ->
  names_archive file = false ->
  Routes.upload_video env file name w
  = if Routes.allowed_suffix (tmp_path_of file)
    then Routes.persist_and_enqueue env u (Routes.uf_filename file) name
           (upload_stored file w)
    else (inl (HTTPException 400 "Unsupported video format"), upload_stored file w).
Proof.
  intros Hdb Huser Hopen Hzip.
  rewrite (upload_video_blocks env file name w u Hdb Huser Hopen).
  unfold Routes.validate_upload. fold (names_archive file). rewrite Hzip.
  destruct (Routes.allowed_suffix (tmp_path_of file)); reflexivity.
Qed.

(** An archive rejected before anything is extracted is removed from the
    upload directory, and nothing else changes. *)
Lemma validate_upload_removes_rejected_archive
    (env : Env) (file : Routes.UploadFile) (w : World) :
  names_archive file = true ->
  fs w !! tmp_path_of file = Some (Routes.uf_content file) ->
  (forall entries member,
     Routes.uf_content file = ZipArchive entries ->
     first_video_member entries = Some member ->
     member_state env member = BadHeader) ->
  fs (snd (Routes.validate_upload env (Routes.uf_filename file) (tmp_path_of file) w))
  = delete (tmp_path_of file) (fs w).
Proof.
  intros Hzip Htmp Hheader.
  unfold Routes.validate_upload. fold (names_archive file). rewrite Hzip.
  unfold Routes.extract_first_video. unfold_collaborators. unfold_monad.
  rewrite Htmp.
  destruct (Routes.uf_content file) as [data | entries]; cbn.
  - rewrite Htmp. cbn. rewrite Htmp. reflexivity.
  - specialize (Hheader entries). unfold first_video_member in Hheader.
    destruct (List.filter _ (namelist entries)) as [| m rest]; cbn.
    + rewrite Htmp. cbn. rewrite Htmp. reflexivity.
    + unfold member_refusal. rewrite (Hheader m eq_refl eq_refl). cbn.
      rewrite Htmp. cbn. rewrite Htmp. reflexivity.
Qed.

(** An archive rejected on the checksum of its first video is removed
    from the upload directory, and the part of the member that was copied
    stays under the extraction target. *)
Lemma validate_upload_keeps_copied_part
    (env : Env) (file : Routes.UploadFile) (w : World)
    (entries : list (string * Blob)) (member copied : string) :
  names_archive file = true ->
  fs w !! tmp_path_of file = Some (ZipArchive entries) ->
  first_video_member entries = Some member ->
  member_state env member = BadChecksum copied ->
  writable env (Routes.extraction_target member) ->
  fs (snd (Routes.validate_upload env (Routes.uf_filename file) (tmp_path_of file) w))
  = delete (tmp_path_of file)
      (<[Routes.extraction_target member := Raw copied]> (fs w)).
Proof.
  intros Hzip Htmp Hfirst Hstate Htarget.
  destruct (first_video_member_entry entries member Hfirst)
    as (Hallowed & data & Hdata & _).
  pose proof (extraction_target_is_not_tmp file member Hzip Hallowed) as Hne.
  unfold Routes.validate_upload. fold (names_archive file). rewrite Hzip.
  unfold Routes.extract_first_video. unfold_collaborators. unfold_monad.
  rewrite Htmp. unfold first_video_member in Hfirst.
  destruct (List.filter _ (namelist entries)) as [| m rest]; [discriminate Hfirst |].
  injection Hfirst as ->. cbn.
  unfold member_refusal, copy_refusal, copied_part. rewrite Hstate. cbn.
  rewrite Hdata. cbn. unfold writable in Htarget. rewrite Htarget. cbn.
  rewrite (lookup_insert_ne _ _ _ _ Hne), Htmp. cbn.
  rewrite (lookup_insert_ne _ _ _ _ Hne), Htmp. reflexivity.
Qed.

(** X2: a submission that is no archive, whose suffix is allowed and which
    could be stored under its name keeps its own file name: the job row
    carries it, the bytes stay in the upload directory, and the path the
    worker will build from the row's file name holds exactly these bytes;
    the upload itself is the only file written. When [open] refuses the
    name, the call raises its exception and writes neither file nor row. *)
Theorem accepted_file_is_what_the_worker_reads
    (env : Env) (file : Routes.UploadFile) (name : string) (w : World) (u : User) :
  db_up env = true ->
  user_named (db w) name = Some u ->
  names_archive file = false ->
  Routes.allowed_suffix (tmp_path_of file) = true ->
  let run := Routes.upload_video env file name w in
  (writable env (tmp_path_of file) ->
   videos (db (snd run)) !! video_seq (db w)
   = Some {| filename := Routes.uf_filename file; video_user_id := user_id u;
             status := "queued" |}
   /\ fs (snd run) !! Pathlib.Path (os_path_join Processor.UPLOAD_DIR
                                      (Routes.uf_filename file))
      = Some (Routes.uf_content file)
   /\ (exists t, trace (snd run) = trace w ++ t
                 /\ Trace.files_written t = [tmp_path_of file])
   /\ (queue_up env = true ->
       fst run = inr {| Routes.video_id := video_seq (db w);
                        Routes.upload_status := "queued" |}))
  /\ (forall e, open_refusal env (tmp_path_of file) = Some e -> run = (inl e, w)).
Proof.
  intros Hdb Huser Hzip Hallowed. cbv zeta. split.
  2: { intros e Hopen. exact (upload_video_open_refused env file name w u e Hdb Huser Hopen). }
  intros Hopen.
  rewrite (upload_video_plain env file name w u Hdb Huser Hopen Hzip), Hallowed.
  destruct (persist_and_enqueue_run env u (Routes.uf_filename file) name
              (upload_stored file w) Hdb)
    as (Hvideos & Hfs & (t & Htrace & Hwritten) & Hresult).
  destruct (Routes.persist_and_enqueue env u (Routes.uf_filename file) name
              (upload_stored file w)) as [result w'].
  simpl in Hvideos, Hfs, Htrace, Hresult. simpl fst. simpl snd.
  split; [rewrite Hvideos; apply lookup_insert_eq |].
  split.
  { rewrite Hfs, (worker_upload_path (Routes.uf_filename file)).
    apply lookup_insert_eq. }
  split.
  { exists (EvFileWrite (tmp_path_of file) :: t).
    split; [rewrite Htrace; suffix_of_trace; reflexivity |].
    unfold Trace.files_written in *. cbn. rewrite Hwritten. reflexivity. }
  intros Hqueue. rewrite Hresult, Hqueue. reflexivity.
Qed.

Lemma accepted_file_is_what_the_worker_reads_witness :
  let run := Routes.upload_video Samples.env_converts Samples.mp4_upload "alice"
               Samples.w_empty in
  videos (db (snd run)) !! 1
  = Some {| filename := "clip.mp4"; video_user_id := 1; status := "queued" |}
  /\ fs (snd run) !! Pathlib.Path (os_path_join Processor.UPLOAD_DIR "clip.mp4")
     = Some (Raw "source bytes")
  /\ (exists t, trace (snd run) = trace Samples.w_empty ++ t
                /\ Trace.files_written t = [tmp_path_of Samples.mp4_upload])
  /\ (queue_up Samples.env_converts = true ->
      fst run = inr {| Routes.video_id := 1; Routes.upload_status := "queued" |}).
Proof.
  exact (proj1 (accepted_file_is_what_the_worker_reads
                  Samples.env_converts Samples.mp4_upload "alice" Samples.w_empty
                  Samples.alice eq_refl eq_refl eq_refl eq_refl) eq_refl).
Defined.

(** X3: what a refused submission leaves on disk, once the upload was
    stored under its name. A refused archive (no readable archive, no
    member with an allowed extension, or a first video with a bad header
    or a bad checksum) is removed from the upload directory again; a
    refused file that is no archive stays where the route stored it. No
    other path changes, but for one: when the first video fails its
    checksum, the part of it that was copied stays under the extraction
    target. *)
Theorem refused_upload_on_disk
    (env : Env) (file : Routes.UploadFile) (name : string) (w : World) (u : User) :
  db_up env = true ->
  user_named (db w) name = Some u ->
  writable env (tmp_path_of file) ->
  Rejection env file ->
  let run := Routes.upload_video env file name w in
  let partly_copied (member copied : string) :=
    names_archive file = true
    /\ first_video_member (members_of (Routes.uf_content file)) = Some member
    /\ member_state env member = BadChecksum copied in
  fs (snd run) !! tmp_path_of file
  = (if names_archive file then None else Some (Routes.uf_content file))
  /\ (forall member copied,
      partly_copied member copied ->
      fs (snd run) !! Routes.extraction_target member = Some (Raw copied))
  /\ (forall p,
      p <> tmp_path_of file ->
      (forall member copied,
         partly_copied member copied -> p <> Routes.extraction_target member) ->
      fs (snd run) !! p = fs w !! p).
Proof.
  intros Hdb Huser Hopen Hrejected. cbv zeta.
  assert (Hstored : fs (upload_stored file w) !! tmp_path_of file
                    = Some (Routes.uf_content file))
    by apply lookup_insert_eq.
  assert (Hother : forall p, p <> tmp_path_of file ->
                   delete (tmp_path_of file) (fs (upload_stored file w)) !! p = fs w !! p).
  { intros p Hp. rewrite lookup_delete_ne by (intros Heq; apply Hp; symmetry; exact Heq).
    apply lookup_insert_ne. intros Heq; apply Hp; symmetry; exact Heq. }
  destruct (names_archive file) eqn:Hzip.
  - pose proof (validate_upload_verdict env file (upload_stored file w) Hstored)
      as Hverdict.
    pose proof (rejection_verdict env file Hrejected) as Hinvalid.
    rewrite <- Hverdict in Hinvalid.
    assert (Hearly :
              (forall entries member,
                 Routes.uf_content file = ZipArchive entries ->
                 first_video_member entries = Some member ->
                 member_state env member = BadHeader) ->
              fs (snd (Routes.upload_video env file name w)) !! tmp_path_of file = None
              /\ (forall p, p <> tmp_path_of file ->
                            fs (snd (Routes.upload_video env file name w)) !! p
                            = fs w !! p)
              /\ (forall member copied,
                     first_video_member (members_of (Routes.uf_content file))
                     = Some member ->
                     member_state env member <> BadChecksum copied)).
    { intros Hheader.
      rewrite (upload_video_blocks env file name w u Hdb Huser Hopen).
      pose proof (validate_upload_removes_rejected_archive env file
                    (upload_stored file w) Hzip Hstored Hheader) as Hfs.
      destruct (Routes.validate_upload _ _ _ (upload_stored file w)) as [[e | fn] w2];
        simpl in Hinvalid, Hfs; [| discriminate Hinvalid].
      simpl snd. rewrite Hfs.
      split; [apply lookup_delete_eq |]. split; [exact Hother |].
      intros member copied Hmember Hstate.
      destruct (Routes.uf_content file) as [data | entries]; [discriminate Hmember |].
      simpl in Hmember. rewrite (Hheader entries member eq_refl Hmember) in Hstate.
      discriminate Hstate. }
    destruct Hrejected
      as [data _ Hraw | entries _ Harchive Hnone
          | entries member _ Harchive Hfirst Hstate
          | entries member copied _ Harchive Hfirst Hstate Htarget
          | Hno _];
      [| | | | congruence].
    1-3: (destruct Hearly as (Htmp & Hrest & Hnever);
          [intros entries0 member0 Hentries Hmember; rewrite Hentries in *;
           try discriminate; try (injection Harchive as <-); congruence |];
          split; [exact Htmp |]; split;
          [intros member0 copied0 (_ & Hmember & Hstate0);
           exfalso; exact (Hnever member0 copied0 Hmember Hstate0)
          | intros p Hp _; exact (Hrest p Hp)]).
    clear Hearly.
    rewrite (upload_video_blocks env file name w u Hdb Huser Hopen).
    assert (Hstored' : fs (upload_stored file w) !! tmp_path_of file
                       = Some (ZipArchive entries))
      by (rewrite <- Harchive; exact Hstored).
    pose proof (validate_upload_keeps_copied_part env file (upload_stored file w)
                  entries member copied Hzip Hstored' Hfirst Hstate Htarget) as Hfs.
    destruct (first_video_member_entry entries member Hfirst) as (Hallowed & _).
    pose proof (extraction_target_is_not_tmp file member Hzip Hallowed) as Hne.
    destruct (Routes.validate_upload _ _ _ (upload_stored file w)) as [[e | fn] w2];
      simpl in Hinvalid, Hfs; [| discriminate Hinvalid].
    simpl snd. rewrite Hfs. rewrite Harchive. simpl members_of.
    split; [apply lookup_delete_eq |]. split.
    + intros member0 copied0 (_ & Hmember & Hstate0).
      rewrite Hfirst in Hmember. injection Hmember as <-.
      rewrite Hstate in Hstate0. injection Hstate0 as <-.
      rewrite lookup_delete_ne by (intros Heq; apply Hne; symmetry; exact Heq).
      apply lookup_insert_eq.
    + intros p Hp Hnot.
      rewrite lookup_delete_ne by (intros Heq; apply Hp; symmetry; exact Heq).
      rewrite lookup_insert_ne
        by (intros Heq; apply (Hnot member copied); [repeat split; assumption |];
            symmetry; exact Heq).
      apply lookup_insert_ne. intros Heq; apply Hp; symmetry; exact Heq.
  - rewrite (upload_video_plain env file name w u Hdb Huser Hopen Hzip).
    assert (Hsuffix : Routes.allowed_suffix (tmp_path_of file) = false).
    { destruct Hrejected as [data Hyes _ | entries Hyes _ _ | entries member Hyes _ _ _
                             | entries member copied Hyes _ _ _ _ | _ Hsuffix];
        try (rewrite Hzip in Hyes; discriminate Hyes). exact Hsuffix. }
    rewrite Hsuffix. simpl snd. simpl fs.
    split; [apply lookup_insert_eq |]. split.
    + intros member copied (Hyes & _). discriminate Hyes.
    + intros p Hp _. apply lookup_insert_ne. intros Heq; apply Hp; symmetry; exact Heq.
Qed.

Lemma refused_upload_on_disk_witness :
  (fs (snd (Routes.upload_video Samples.env_converts Samples.zip_without_video "alice"
              Samples.w_empty)) !! tmp_path_of Samples.zip_without_video = None)
  /\ (fs (snd (Routes.upload_video Samples.env_bad_checksum
                 Samples.zip_with_damaged_video "alice" Samples.w_empty))
      !! Routes.extraction_target "clip.mp4" = Some (Raw "")).
Proof.
  split.
  - exact (proj1 (refused_upload_on_disk Samples.env_converts Samples.zip_without_video
                    "alice" Samples.w_empty Samples.alice eq_refl eq_refl eq_refl
                    (archive_without_video Samples.env_converts Samples.zip_without_video
                       [("text.txt", Raw "just text")] eq_refl eq_refl eq_refl))).
  - exact (proj1 (proj2 (refused_upload_on_disk Samples.env_bad_checksum
                    Samples.zip_with_damaged_video
                    "alice" Samples.w_empty Samples.alice eq_refl eq_refl eq_refl
                    (member_with_bad_checksum Samples.env_bad_checksum
                       Samples.zip_with_damaged_video
                       [("clip.mp4", Raw "damaged video")] "clip.mp4" ""
                       eq_refl eq_refl eq_refl eq_refl eq_refl)))
             "clip.mp4" "" (conj eq_refl (conj eq_refl eq_refl))).
Defined.

(** A returning submission that is no archive went through the last block
    under its own file name. *)
Lemma upload_video_plain_success
    (env : Env) (file : Routes.UploadFile) (name : string) (w w' : World)
    (r : Routes.UploadResponse) :
  Routes.upload_video env file name w = (inr r, w') ->
  names_archive file = false ->
  exists u,
    user_named (db w) name = Some u
    /\ Routes.persist_and_enqueue env u (Routes.uf_filename file) name
         (upload_stored file w) = (inr r, w').
Proof.
  intros Hrun Hzip.
  destruct (upload_video_returns_writable env file name w w' r Hrun)
    as (Hdb & Hopen & u & Huser).
  rewrite (upload_video_plain env file name w u Hdb Huser Hopen Hzip) in Hrun.
  destruct (Routes.allowed_suffix (tmp_path_of file)); [| discriminate Hrun].
  exists u. split; [exact Huser | exact Hrun].
Qed.

(** X4: sources are kept under the client's file name alone. When two
    submissions that are no archives carry the same file name (whoever
    sends them), both get a job of their own, and the path the worker
    builds for the first job holds the bytes of the second submission. *)
Theorem same_name_upload_replaces_the_source
    (env1 env2 : Env) (file1 file2 : Routes.UploadFile) (name1 name2 : string)
    (w w1 w2 : World) (r1 r2 : Routes.UploadResponse) :
  Routes.upload_video env1 file1 name1 w = (inr r1, w1) ->
  Routes.upload_video env2 file2 name2 w1 = (inr r2, w2) ->
  names_archive file1 = false ->
  names_archive file2 = false ->
  Routes.uf_filename file1 = Routes.uf_filename file2 ->
  exists v1,
    videos (db w2) !! Routes.video_id r1 = Some v1
    /\ filename v1 = Routes.uf_filename file1
    /\ Routes.video_id r2 <> Routes.video_id r1
    /\ fs w2 !! Pathlib.Path (os_path_join Processor.UPLOAD_DIR (filename v1))
       = Some (Routes.uf_content file2).
Proof.
  intros Hrun1 Hrun2 Hzip1 Hzip2 Hsame.
  destruct (upload_video_plain_success env1 file1 name1 w w1 r1 Hrun1 Hzip1)
    as (u1 & _ & Hlast1).
  destruct (upload_video_plain_success env2 file2 name2 w1 w2 r2 Hrun2 Hzip2)
    as (u2 & _ & Hlast2).
  destruct (persist_and_enqueue_success env1 u1 _ name1 _ w1 r1 Hlast1)
    as (Hr1 & Hdb1 & _ & _ & _).
  destruct (persist_and_enqueue_success env2 u2 _ name2 _ w2 r2 Hlast2)
    as (Hr2 & Hdb2 & Hfs2 & _ & _).
  simpl in Hr1, Hdb1, Hr2, Hdb2, Hfs2.
  subst r1 r2. simpl Routes.video_id.
  rewrite Hdb1 in Hdb2. simpl in Hdb2.
  eexists. split.
  { rewrite Hdb2. simpl videos.
    rewrite lookup_insert_ne by lia. apply lookup_insert_eq. }
  simpl filename. split; [reflexivity |].
  split; [rewrite Hdb1; simpl; lia |].
  rewrite Hfs2. rewrite Hsame.
  rewrite (worker_upload_path (Routes.uf_filename file2)). apply lookup_insert_eq.
Qed.

Lemma same_name_upload_replaces_the_source_witness :
  let second := Routes.mkUploadFile "clip.mp4" (Raw "bytes of bob") in
  let w1 := snd (Routes.upload_video Samples.env_converts Samples.mp4_upload "alice"
                   Samples.w_empty) in
  let w2 := snd (Routes.upload_video Samples.env_converts second "bob" w1) in
  exists v1,
    videos (db w2) !! 1 = Some v1
    /\ filename v1 = "clip.mp4"
    /\ 2 <> 1
    /\ fs w2 !! Pathlib.Path (os_path_join Processor.UPLOAD_DIR (filename v1))
       = Some (Raw "bytes of bob").
Proof.
  cbv zeta.
  apply (same_name_upload_replaces_the_source
           Samples.env_converts Samples.env_converts Samples.mp4_upload
           (Routes.mkUploadFile "clip.mp4" (Raw "bytes of bob")) "alice" "bob"
           Samples.w_empty
           (snd (Routes.upload_video Samples.env_converts Samples.mp4_upload "alice"
                   Samples.w_empty))
           (snd (Routes.upload_video Samples.env_converts
                   (Routes.mkUploadFile "clip.mp4" (Raw "bytes of bob")) "bob"
                   (snd (Routes.upload_video Samples.env_converts Samples.mp4_upload
                           "alice" Samples.w_empty))))
           {| Routes.video_id := 1; Routes.upload_status := "queued" |}
           {| Routes.video_id := 2; Routes.upload_status := "queued" |});
    vm_compute; reflexivity.
Defined.

(** X5: for a principal without a row in the user table the submission is
    refused before anything is stored: the call raises "User not found"
    (or the database error when the database is unreachable) and leaves
    files, rows, cache and queue as they were. *)
Theorem unknown_principal_stores_nothing
    (env : Env) (file : Routes.UploadFile) (name : string) (w : World) :
  user_named (db w) name = None ->
  Routes.upload_video env file name w
  = (inl (if db_up env then HTTPException 404 "User not found" else OperationalError), w).
Proof.
  intros Huser. unfold user_named in Huser.
  unfold Routes.upload_video, query_user_by_name, db_execute. unfold_monad.
  destruct (db_up env); [rewrite Huser |]; reflexivity.
Qed.

Lemma unknown_principal_stores_nothing_witness :
  Routes.upload_video Samples.env_converts Samples.mp4_upload "carol" Samples.w_empty
  = (inl (HTTPException 404 "User not found"), Samples.w_empty).
Proof.
  apply (unknown_principal_stores_nothing Samples.env_converts Samples.mp4_upload
           "carol" Samples.w_empty).
  reflexivity.
Defined.

(** The first effect of a submission by a known principal whose upload
    could be stored is the write of the upload under its temporary path. *)
Lemma upload_video_first_write
    (env : Env) (file : Routes.UploadFile) (name : string) (w : World) (u : User) :
  db_up env = true ->
  user_named (db w) name = Some u ->
  writable env (tmp_path_of file) ->
  exists t,
    trace (snd (Routes.upload_video env file name w))
    = trace w ++ EvFileWrite (tmp_path_of file) :: t.
Proof.
  intros Hdb Huser Hopen.
  rewrite (upload_video_blocks env file name w u Hdb Huser Hopen).
  destruct (validate_upload_frame env (Routes.uf_filename file) (tmp_path_of file)
              (upload_stored file w)) as (_ & _ & t & Htrace2 & _).
  destruct (Routes.validate_upload _ _ _ (upload_stored file w))
    as [[e | final_filename] w2]; simpl in Htrace2.
  - exists t. simpl snd. rewrite Htrace2. suffix_of_trace. reflexivity.
  - destruct (persist_and_enqueue_run env u final_filename name w2 Hdb)
      as (_ & _ & (t3 & Htrace3 & _) & _).
    exists (t ++ t3). rewrite Htrace3, Htrace2. simpl trace.
    rewrite <- !app_assoc. reflexivity.
Qed.

(** X6: the upload's own file name is joined to the upload directory as the
    client sent it. A plain name gives an entry of the upload directory; a
    name that starts with a slash replaces the directory, so the submission
    of a known principal opens that absolute path, outside the upload
    directory: when [open] accepts the path, the first effect of the call
    is the write there; when it refuses, the call raises the exception of
    [open] and nothing is done. *)
Theorem upload_name_is_joined_as_sent (file : Routes.UploadFile) :
  (plain_component (Routes.uf_filename file) = true ->
   directly_inside Routes.UPLOAD_DIR (tmp_path_of file) = true)
  /\ (PyStr.startswith_char "/" (Routes.uf_filename file) = true ->
      tmp_path_of file = Pathlib.Path (Routes.uf_filename file)
      /\ directly_inside Routes.UPLOAD_DIR (tmp_path_of file) = false
      /\ forall (env : Env) (name : string) (w : World) (u : User),
           db_up env = true ->
           user_named (db w) name = Some u ->
           match open_refusal env (Pathlib.Path (Routes.uf_filename file)) with
           | Some e => Routes.upload_video env file name w = (inl e, w)
           | None =>
               exists t,
                 trace (snd (Routes.upload_video env file name w))
                 = trace w ++ EvFileWrite (Pathlib.Path (Routes.uf_filename file)) :: t
           end).
Proof.
  split.
  - intros Hplain. destruct (plain_component_kept _ Hplain) as [Hno Hkeep].
    unfold tmp_path_of.
    rewrite (joinpath_component Routes.UPLOAD_DIR _ Hno Hkeep).
    unfold directly_inside. simpl. rewrite Hplain. reflexivity.
  - intros Hrooted.
    assert (Htmp : tmp_path_of file = Pathlib.Path (Routes.uf_filename file)).
    { unfold tmp_path_of, Pathlib.joinpath. unfold Pathlib.Path at 1. simpl Pathlib.root.
      rewrite (splitroot_rooted _ Hrooted). reflexivity. }
    split; [exact Htmp |]. split.
    + rewrite Htmp. unfold directly_inside.
      destruct (List.rev (Pathlib.parts (Pathlib.Path (Routes.uf_filename file))))
        as [| n rest]; [reflexivity |].
      simpl Pathlib.root.
      change (Pathlib.root Routes.UPLOAD_DIR) with "".
      rewrite (splitroot_rooted _ Hrooted).
      rewrite andb_false_r. reflexivity.
    + intros env name w u Hdb Huser. rewrite <- Htmp.
      destruct (open_refusal env (tmp_path_of file)) as [e |] eqn:Hopen.
      * exact (upload_video_open_refused env file name w u e Hdb Huser Hopen).
      * exact (upload_video_first_write env file name w u Hdb Huser Hopen).
Qed.

Lemma upload_name_is_joined_as_sent_witness :
  directly_inside Routes.UPLOAD_DIR (tmp_path_of Samples.mp4_upload) = true
  /\ tmp_path_of (Routes.mkUploadFile "/srv/app/main.mp4" (Raw "x"))
     = {| Pathlib.root := "/"; Pathlib.parts := ["srv"; "app"; "main.mp4"] |}
  /\ exists t,
       trace (snd (Routes.upload_video Samples.env_converts
                     (Routes.mkUploadFile "/srv/app/main.mp4" (Raw "x")) "alice"
                     Samples.w_empty))
       = trace Samples.w_empty
         ++ EvFileWrite (Pathlib.Path "/srv/app/main.mp4") :: t.
Proof.
  split; [| split].
  - apply (proj1 (upload_name_is_joined_as_sent Samples.mp4_upload)). reflexivity.
  - apply (proj2 (upload_name_is_joined_as_sent
                    (Routes.mkUploadFile "/srv/app/main.mp4" (Raw "x")))).
    reflexivity.
  - exact (proj2 (proj2 (proj2 (upload_name_is_joined_as_sent
                                  (Routes.mkUploadFile "/srv/app/main.mp4" (Raw "x")))
                           eq_refl))
             Samples.env_converts "alice" Samples.w_empty Samples.alice
             eq_refl eq_refl).
Defined.

(** *** Status reads *)

Lemma get_status_hit (env : Env) (name : string) (w : World) (e : CacheEntry) :
  cache_up env = true ->
  cache w !! Routes._status_cache_key name = Some e ->
  Routes.get_status env name w = (inr (cached_value e), w).
Proof.
  intros Hcache Hentry.
  unfold Routes.get_status, Routes._get_cached_status. unfold_collaborators. unfold_monad.
  rewrite Hcache, Hentry. reflexivity.
Qed.

Lemma get_status_miss (env : Env) (name : string) (w : World) (u : User) :
  db_up env = true ->
  (cache_up env = true -> cache w !! Routes._status_cache_key name = None) ->
  user_named (db w) name = Some u ->
  Routes.get_status env name w
  = (inr (store_summaries (db w) u),
     if cache_up env
     then {| db := db w;
             cache := <[Routes._status_cache_key name :=
                          mkCacheEntry 120 (store_summaries (db w) u)]> (cache w);
             fs := fs w;
             trace := trace w ++ [EvCacheSet (Routes._status_cache_key name)] |}
     else w).
Proof.
  intros Hdb Hmiss Huser. unfold user_named in Huser.
  unfold Routes.get_status, Routes._get_cached_status, Routes._set_cached_status,
    store_summaries.
  unfold_collaborators. unfold_monad.
  destruct (cache_up env).
  - rewrite (Hmiss eq_refl), Hdb, Huser. reflexivity.
  - rewrite Hdb, Huser. reflexivity.
Qed.

Lemma store_summaries_in (d : Database) (u : User) (id : Z) (v : Video) :
  videos d !! id = Some v ->
  video_user_id v = user_id u ->
  In (summary_of id v) (store_summaries d u).
Proof.
  intros Hv Hown. unfold store_summaries, summary_of.
  apply in_map_iff. exists (id, v). split; [reflexivity |].
  apply filter_In. split.
  - apply list_elem_of_In. apply elem_of_map_to_list. exact Hv.
  - simpl. rewrite Hown. apply Z.eqb_refl.
Qed.

Lemma store_summaries_only (d : Database) (u : User) (s : Summary) :
  In s (store_summaries d u) ->
  exists v, videos d !! s_id s = Some v /\ video_user_id v = user_id u
            /\ s = summary_of (s_id s) v.
Proof.
  unfold store_summaries. intros Hin.
  apply in_map_iff in Hin as [[id v] [Hs Hin]].
  apply filter_In in Hin as [Hin Hown]. simpl in Hown, Hs.
  apply list_elem_of_In, elem_of_map_to_list in Hin.
  subst s. simpl. exists v. split; [exact Hin |].
  split; [apply Z.eqb_eq; exact Hown | reflexivity].
Qed.

(** X7: a status read that finds an entry in the cache returns the cached
    list as it is and touches nothing else: it reads no row (it answers
    even when the database is unreachable, and whatever the rows say by
    now) and leaves the world unchanged. *)
Theorem cached_status_is_served_without_the_store
    (env : Env) (name : string) (w : World) (e : CacheEntry) :
  cache_up env = true ->
  cache w !! Routes._status_cache_key name = Some e ->
  Routes.get_status env name w = (inr (cached_value e), w)
  /\ Routes.get_status (mkEnv false true (queue_up env) (bus_up env) (ffmpeg_outcome env))
       name w = (inr (cached_value e), w).
Proof.
  intros Hcache Hentry. split.
  - apply get_status_hit; assumption.
  - apply get_status_hit; [reflexivity | assumption].
Qed.

Lemma cached_status_is_served_without_the_store_witness :
  Routes.get_status Samples.env_converts "alice" (Samples.w_job "queued")
  = (inr [mkSummary 1 "clip.mp4" "queued"], Samples.w_job "queued")
  /\ Routes.get_status (mkEnv false true true true (inr "converted bytes")) "alice"
       (Samples.w_job "queued")
     = (inr [mkSummary 1 "clip.mp4" "queued"], Samples.w_job "queued").
Proof.
  apply (cached_status_is_served_without_the_store Samples.env_converts "alice"
           (Samples.w_job "queued") (mkCacheEntry 120 [mkSummary 1 "clip.mp4" "queued"]));
    reflexivity.
Defined.

(** X8: a status read that misses the cache answers from the store (every
    row of the principal and only those, each with its id, file name and
    state), stores this answer under the principal's key with a time to
    live of 120 seconds, and the next read is served this very answer from
    the cache. *)
Theorem status_miss_fills_the_cache
    (env : Env) (name : string) (w : World) (u : User) :
  db_up env = true ->
  cache_up env = true ->
  cache w !! Routes._status_cache_key name = None ->
  user_named (db w) name = Some u ->
  exists resp w',
    Routes.get_status env name w = (inr resp, w')
    /\ (forall s, In s resp <->
                  exists v, videos (db w) !! s_id s = Some v
                            /\ video_user_id v = user_id u
                            /\ s = summary_of (s_id s) v)
    /\ db w' = db w
    /\ cache w' !! Routes._status_cache_key name = Some (mkCacheEntry 120 resp)
    /\ forall env', cache_up env' = true ->
                    Routes.get_status env' name w' = (inr resp, w').
Proof.
  intros Hdb Hcache Hmiss Huser.
  pose proof (get_status_miss env name w u Hdb (fun _ => Hmiss) Huser) as Hrun.
  rewrite Hcache in Hrun.
  eexists. eexists. split; [exact Hrun |].
  split.
  { intros s. split; [apply store_summaries_only |].
    intros (v & Hv & Hown & ->). apply store_summaries_in; assumption. }
  split; [reflexivity |].
  split; [apply lookup_insert_eq |].
  intros env' Hcache'.
  apply (get_status_hit env' name _ (mkCacheEntry 120 (store_summaries (db w) u)) Hcache').
  apply lookup_insert_eq.
Qed.

Lemma status_miss_fills_the_cache_witness :
  exists resp w',
    Routes.get_status Samples.env_converts "bob" (Samples.w_job "queued") = (inr resp, w')
    /\ (forall s, In s resp <->
                  exists v, videos (db (Samples.w_job "queued")) !! s_id s = Some v
                            /\ video_user_id v = user_id Samples.bob
                            /\ s = summary_of (s_id s) v)
    /\ db w' = db (Samples.w_job "queued")
    /\ cache w' !! Routes._status_cache_key "bob" = Some (mkCacheEntry 120 resp)
    /\ forall env', cache_up env' = true ->
                    Routes.get_status env' "bob" w' = (inr resp, w').
Proof.
  apply (status_miss_fills_the_cache Samples.env_converts "bob" (Samples.w_job "queued")
           Samples.bob); reflexivity.
Defined.

(** X9: for a known principal who owns no job, a status read that misses
    the cache answers the empty list (no error), and with Redis up the
    empty list is cached like any other answer: the next read is a hit. *)
Theorem status_of_principal_without_jobs_is_empty
    (env : Env) (name : string) (w : World) (u : User) :
  db_up env = true ->
  (cache_up env = true -> cache w !! Routes._status_cache_key name = None) ->
  user_named (db w) name = Some u ->
  (forall id v, videos (db w) !! id = Some v -> video_user_id v <> user_id u) ->
  fst (Routes.get_status env name w) = inr []
  /\ (cache_up env = true ->
      Routes.get_status env name (snd (Routes.get_status env name w))
      = (inr [], snd (Routes.get_status env name w))).
Proof.
  intros Hdb Hmiss Huser Hnone.
  assert (Hempty : store_summaries (db w) u = []).
  { destruct (store_summaries (db w) u) as [| s rest] eqn:Hs; [reflexivity |].
    assert (Hin : In s (store_summaries (db w) u)) by (rewrite Hs; left; reflexivity).
    apply store_summaries_only in Hin as (v & Hv & Hown & _).
    exfalso. exact (Hnone _ _ Hv Hown). }
  rewrite (get_status_miss env name w u Hdb Hmiss Huser), Hempty.
  split; [reflexivity |].
  intros Hcache. rewrite Hcache. simpl snd.
  apply (get_status_hit env name _ (mkCacheEntry 120 []) Hcache).
  apply lookup_insert_eq.
Qed.

Lemma status_of_principal_without_jobs_is_empty_witness :
  fst (Routes.get_status Samples.env_converts "bob" (Samples.w_job "queued")) = inr []
  /\ (cache_up Samples.env_converts = true ->
      Routes.get_status Samples.env_converts "bob"
        (snd (Routes.get_status Samples.env_converts "bob" (Samples.w_job "queued")))
      = (inr [], snd (Routes.get_status Samples.env_converts "bob"
                        (Samples.w_job "queued")))).
Proof.
  apply (status_of_principal_without_jobs_is_empty Samples.env_converts "bob"
           (Samples.w_job "queued") Samples.bob); try reflexivity.
  intros id v Hv Hown.
  destruct (decide (id = 1)) as [-> | Hne].
  - vm_compute in Hv. injection Hv as <-. discriminate Hown.
  - unfold Samples.w_job in Hv. simpl in Hv.
    rewrite lookup_singleton_ne in Hv by (intros Heq; apply Hne; symmetry; exact Heq).
    discriminate Hv.
Defined.

(** X10: for a principal whose token is valid but who has no row in the
    user table, a status read that misses the cache is no empty answer: the
    route reads [user.id] of no user and raises; nothing is cached. *)
Theorem status_of_unknown_principal_raises
    (env : Env) (name : string) (w : World) :
  db_up env = true ->
  (cache_up env = true -> cache w !! Routes._status_cache_key name = None) ->
  user_named (db w) name = None ->
  Routes.get_status env name w = (inl AttributeError, w).
Proof.
  intros Hdb Hmiss Huser. unfold user_named in Huser.
  unfold Routes.get_status, Routes._get_cached_status. unfold_collaborators. unfold_monad.
  destruct (cache_up env).
  - rewrite (Hmiss eq_refl), Hdb, Huser. reflexivity.
  - rewrite Hdb, Huser. reflexivity.
Qed.

Lemma status_of_unknown_principal_raises_witness :
  Routes.get_status Samples.env_converts "carol" Samples.w_empty
  = (inl AttributeError, Samples.w_empty).
Proof.
  apply (status_of_unknown_principal_raises Samples.env_converts "carol" Samples.w_empty);
    reflexivity.
Defined.

(** X11: after a submission that returned while Redis answered, the next
    status read of the submitting principal (with the database up, whether
    Redis answers then or not) contains the new job with its id, its file
    name and the state [queued]. *)
Theorem status_after_submission_shows_the_job
    (env env' : Env) (file : Routes.UploadFile) (name : string) (w w' : World)
    (r : Routes.UploadResponse) :
  Routes.upload_video env file name w = (inr r, w') ->
  cache_up env = true ->
  db_up env' = true ->
  exists v resp,
    videos (db w') !! Routes.video_id r = Some v
    /\ status v = "queued"
    /\ fst (Routes.get_status env' name w') = inr resp
    /\ In (summary_of (Routes.video_id r) v) resp.
Proof.
  intros Hrun Hcache Hdb'.
  destruct (upload_video_success env file name w w' r Hrun)
    as (u & final_filename & w2 & files & Huser & Hdb2 & _ & _ & _ & Hlast).
  destruct (persist_and_enqueue_success env u final_filename name w2 w' r Hlast)
    as (Hr & Hdbw' & _ & Hcachew' & _).
  rewrite Hcache in Hcachew'. rewrite Hdb2 in Hr, Hdbw'. subst r. simpl Routes.video_id.
  assert (Huser' : user_named (db w') name = Some u)
    by (unfold user_named; rewrite Hdbw'; exact Huser).
  assert (Hmiss : cache_up env' = true -> cache w' !! Routes._status_cache_key name = None)
    by (intros _; rewrite Hcachew'; apply lookup_delete_eq).
  rewrite (get_status_miss env' name w' u Hdb' Hmiss Huser').
  eexists. eexists.
  split; [rewrite Hdbw'; simpl videos; apply lookup_insert_eq |].
  split; [reflexivity |]. split; [reflexivity |].
  apply store_summaries_in; [| reflexivity].
  rewrite Hdbw'. simpl videos. apply lookup_insert_eq.
Qed.

Lemma status_after_submission_shows_the_job_witness :
  exists v resp,
    videos (db (snd (Routes.upload_video Samples.env_converts Samples.mp4_upload "alice"
                       Samples.w_empty))) !! 1 = Some v
    /\ status v = "queued"
    /\ fst (Routes.get_status Samples.env_converts "alice"
              (snd (Routes.upload_video Samples.env_converts Samples.mp4_upload "alice"
                      Samples.w_empty))) = inr resp
    /\ In (summary_of 1 v) resp.
Proof.
  apply (status_after_submission_shows_the_job
           Samples.env_converts Samples.env_converts Samples.mp4_upload "alice"
           Samples.w_empty
           (snd (Routes.upload_video Samples.env_converts Samples.mp4_upload "alice"
                   Samples.w_empty))
           {| Routes.video_id := 1; Routes.upload_status := "queued" |});
    vm_compute; reflexivity.
Defined.

(** X12: an invalidation lost to a Redis outage is not made up for. When a
    submission returns while Redis is unreachable and the principal's entry
    is still in the cache, the next status read with Redis back returns the
    list cached before the submission, as it was. When that entry was
    written by a status read of the principal just before the submission,
    on a store whose ids lie below the sequence, no job of the returned
    list has the id of the new job, although the store holds the new job
    for the principal. *)
Theorem lost_invalidation_leaves_the_old_answer
    (env env' : Env) (file : Routes.UploadFile) (name : string) (w w' : World)
    (r : Routes.UploadResponse) (e : CacheEntry) :
  Routes.upload_video env file name w = (inr r, w') ->
  cache_up env = false ->
  cache w !! Routes._status_cache_key name = Some e ->
  cache_up env' = true ->
  Routes.get_status env' name w' = (inr (cached_value e), w')
  /\ (forall (env0 : Env) (w0 : World),
        db_up env0 = true ->
        cache_up env0 = true ->
        cache w0 !! Routes._status_cache_key name = None ->
        seq_fresh (db w0) ->
        w = snd (Routes.get_status env0 name w0) ->
        (forall s, In s (cached_value e) -> s_id s <> Routes.video_id r)
        /\ exists u v,
             user_named (db w') name = Some u
             /\ videos (db w') !! Routes.video_id r = Some v
             /\ video_user_id v = user_id u).
Proof.
  intros Hrun Hcache Hentry Hcache'.
  destruct (upload_video_success env file name w w' r Hrun)
    as (u & final_filename & w2 & files & Huser & Hdb2 & Hcache2 & _ & _ & Hlast).
  destruct (persist_and_enqueue_success env u final_filename name w2 w' r Hlast)
    as (Hr & Hdbw' & _ & Hcachew' & _).
  rewrite Hcache, Hcache2 in Hcachew'. rewrite Hdb2 in Hr, Hdbw'.
  split.
  - apply (get_status_hit env' name w' e Hcache'). rewrite Hcachew'. exact Hentry.
  - intros env0 w0 Hdb0 Hcache0 Hmiss Hfresh Hread.
    destruct (user_named (db w0) name) as [u0 |] eqn:Huser0.
    + rewrite (get_status_miss env0 name w0 u0 Hdb0 (fun _ => Hmiss) Huser0) in Hread.
      rewrite Hcache0 in Hread. simpl in Hread. subst w.
      simpl in Hentry, Huser, Hr, Hdbw'.
      rewrite lookup_insert_eq in Hentry. injection Hentry as <-. simpl cached_value.
      split.
      * intros s Hs Heq.
        destruct (store_summaries_only (db w0) u0 s Hs) as (v & Hv & _).
        pose proof (Hfresh (s_id s) v Hv) as Hbelow.
        rewrite Heq, Hr in Hbelow. simpl in Hbelow. lia.
      * exists u. eexists.
        split; [unfold user_named; rewrite Hdbw'; exact Huser |].
        split; [rewrite Hdbw', Hr; simpl; apply lookup_insert_eq | reflexivity].
    + exfalso. unfold user_named in Huser0.
      unfold Routes.get_status, Routes._get_cached_status in Hread.
      unfold_collaborators. unfold_monad.
      rewrite Hcache0, Hmiss, Hdb0, Huser0 in Hread. simpl in Hread. subst w.
      rewrite Hmiss in Hentry. discriminate Hentry.
Qed.

Lemma lost_invalidation_leaves_the_old_answer_witness :
  let down := mkEnv true false true true (inr "converted bytes") in
  let second := Routes.mkUploadFile "other.mp4" (Raw "more bytes") in
  let w0 := {| db := db (Samples.w_job "queued"); cache := ∅;
               fs := fs (Samples.w_job "queued"); trace := [] |} in
  let w := snd (Routes.get_status Samples.env_converts "alice" w0) in
  let w' := snd (Routes.upload_video down second "alice" w) in
  Routes.get_status Samples.env_converts "alice" w'
  = (inr [mkSummary 1 "clip.mp4" "queued"], w')
  /\ (forall s, In s [mkSummary 1 "clip.mp4" "queued"] -> s_id s <> 2)
  /\ exists u v,
       user_named (db w') "alice" = Some u
       /\ videos (db w') !! 2 = Some v
       /\ video_user_id v = user_id u.
Proof.
  cbv zeta.
  set (w0 := {| db := db (Samples.w_job "queued"); cache := ∅;
                fs := fs (Samples.w_job "queued"); trace := [] |}).
  set (w := snd (Routes.get_status Samples.env_converts "alice" w0)).
  set (down := mkEnv true false true true (inr "converted bytes")).
  set (second := Routes.mkUploadFile "other.mp4" (Raw "more bytes")).
  assert (Hrun : Routes.upload_video down second "alice" w
                 = (inr {| Routes.video_id := 2; Routes.upload_status := "queued" |},
                    snd (Routes.upload_video down second "alice" w)))
    by (vm_compute; reflexivity).
  assert (Hentry : cache w !! Routes._status_cache_key "alice"
                   = Some (mkCacheEntry 120 [mkSummary 1 "clip.mp4" "queued"]))
    by (vm_compute; reflexivity).
  destruct (lost_invalidation_leaves_the_old_answer
              down Samples.env_converts second "alice" w _ _ _
              Hrun eq_refl Hentry eq_refl) as [Hread Hstale].
  split; [exact Hread |].
  apply (Hstale Samples.env_converts w0); try reflexivity.
  intros id v Hv.
  destruct (decide (id = 1)) as [-> | Hne]; [simpl; lia |].
  simpl in Hv.
  rewrite lookup_singleton_ne in Hv by (intros Heq; apply Hne; symmetry; exact Heq).
  discriminate Hv.
Defined.

(** *** What a run of the worker leaves behind *)

(** Files and cache after a run on a stored job: the converted file when
    the codec succeeds, nothing otherwise; the owner's entry deleted when
    the owner has a name and Redis answers. *)
Lemma process_video_files_and_cache (env : Env) (id : Z) (w : World) (v : Video) :
  db_up env = true ->
  videos (db w) !! id = Some v ->
  let w' := snd (Processor.process_video env id w) in
  fs w' = match ffmpeg_outcome env with
          | inr data =>
              <[Pathlib.Path (os_path_join Processor.PROCESSED_DIR
                                (pretty id +:+ "_converted.mp4")) := Raw data]> (fs w)
          | inl _ => fs w
          end
  /\ cache w' = match owner_of (db w) v with
                | Some u =>
                    if (negb (String.eqb (username u) "") && cache_up env)%bool
                    then delete (Routes._status_cache_key (username u)) (cache w)
                    else cache w
                | None => cache w
                end
  /\ Trace.files_written (trace w')
     = Trace.files_written (trace w)
       ++ match ffmpeg_outcome env with
          | inr _ => [Pathlib.Path (os_path_join Processor.PROCESSED_DIR
                                      (pretty id +:+ "_converted.mp4"))]
          | inl _ => []
          end.
Proof.
  intros Hdb Hv.
  unfold Processor.process_video, Processor._invalidate_status_cache,
    Processor.publish_video_event, owner_of, Routes._status_cache_key.
  unfold_collaborators. unfold_monad. rewrite Hdb, Hv. cbn.
  destruct (ffmpeg_outcome env) as [msg | data]; cbn;
    match goal with
    | |- context [List.find ?f ?l] => destruct (List.find f l) as [u |]
    end; cbn;
    try destruct (negb _); cbn;
    destruct (cache_up env); cbn;
    destruct (bus_up env); cbn;
    repeat split;
    unfold Trace.files_written; rewrite ?omap_app; cbn; rewrite ?app_nil_r; reflexivity.
Qed.

(** X13: after a run of the worker on a stored job whose owner has a name,
    with Redis answering during the run, the owner's next status read (with
    the database up, whether Redis answers then or not) shows the job in
    the state the run committed: the worker deletes the very key the
    status route reads. *)
Theorem status_after_processing_shows_the_outcome
    (env env' : Env) (id : Z) (w : World) (v : Video) (u : User) :
  db_up env = true ->
  cache_up env = true ->
  videos (db w) !! id = Some v ->
  owner_of (db w) v = Some u ->
  username u <> "" ->
  user_named (db w) (username u) = Some u ->
  db_up env' = true ->
  let w' := snd (Processor.process_video env id w) in
  cache w' !! Routes._status_cache_key (username u) = None
  /\ exists resp,
       fst (Routes.get_status env' (username u) w') = inr resp
       /\ In (mkSummary id (filename v) (outcome_status env)) resp.
Proof.
  intros Hdb Hcache Hv Hown Hname Huser Hdb'. cbv zeta.
  destruct (process_video_files_and_cache env id w v Hdb Hv) as (_ & Hcachew' & _).
  destruct (process_video_found env id w v Hdb Hv)
    as (w' & t & Hrun & _ & Hvid & Husers & _).
  rewrite Hrun in *. simpl snd in *.
  rewrite Hown, Hcache in Hcachew'.
  apply String.eqb_neq in Hname. rewrite Hname in Hcachew'. simpl in Hcachew'.
  assert (Hgone : cache w' !! Routes._status_cache_key (username u) = None)
    by (rewrite Hcachew'; apply lookup_delete_eq).
  split; [exact Hgone |].
  assert (Huser' : user_named (db w') (username u) = Some u)
    by (unfold user_named; rewrite Husers; exact Huser).
  rewrite (get_status_miss env' (username u) w' u Hdb' (fun _ => Hgone) Huser').
  eexists. split; [reflexivity |].
  apply (store_summaries_in (db w') u id (with_status v (outcome_status env))).
  - rewrite Hvid. apply lookup_insert_eq.
  - unfold owner_of in Hown. apply find_some in Hown as [_ Hid].
    apply Z.eqb_eq in Hid. simpl. symmetry. exact Hid.
Qed.

Lemma status_after_processing_shows_the_outcome_witness :
  let w' := snd (Processor.process_video Samples.env_converts 1 (Samples.w_job "queued")) in
  cache w' !! Routes._status_cache_key "alice" = None
  /\ exists resp,
       fst (Routes.get_status Samples.env_converts "alice" w') = inr resp
       /\ In (mkSummary 1 "clip.mp4" "completed") resp.
Proof.
  apply (status_after_processing_shows_the_outcome
           Samples.env_converts Samples.env_converts 1 (Samples.w_job "queued")
           (Samples.job "queued") Samples.alice); try reflexivity.
  discriminate.
Defined.

(** X14: a job converted by the worker can be downloaded by its owner: the
    route finds the converted file where the worker wrote it, writes the
    archive [processed/<id>.zip] with the single entry
    [<stem>_converted.mp4] holding the codec's output, and answers with
    that archive under the name [<stem>_converted.zip]. *)
Theorem converted_job_downloads_for_its_owner
    (env env' : Env) (id : Z) (w : World) (v : Video) (u : User) (data : string) :
  db_up env = true ->
  videos (db w) !! id = Some v ->
  owner_of (db w) v = Some u ->
  ffmpeg_outcome env = inr data ->
  db_up env' = true ->
  let w' := snd (Processor.process_video env id w) in
  let base_name := Pathlib.stem (Pathlib.Path (filename v)) in
  let zip_path := Pathlib.joinpath Routes.PROCESSED_DIR (pretty id +:+ ".zip") in
  exists w'',
    Routes.download_video env' id (username u) w'
    = (inr {| Routes.fr_path := Pathlib.to_str zip_path;
              Routes.fr_media_type := "application/zip";
              Routes.fr_filename := base_name +:+ "_converted.zip" |}, w'')
    /\ fs w'' !! zip_path
       = Some (ZipArchive [(base_name +:+ "_converted.mp4", Raw data)])
    /\ db w'' = db w' /\ cache w'' = cache w'.
Proof.
  intros Hdb Hv Hown Hok Hdb'. cbv zeta.
  destruct (process_video_files_and_cache env id w v Hdb Hv) as (Hfs & _ & _).
  destruct (process_video_found env id w v Hdb Hv)
    as (w' & t & Hrun & _ & Hvid & Husers & _).
  rewrite Hrun in *. simpl snd in *.
  unfold outcome_status in Hvid. rewrite Hok in Hfs, Hvid.
  rewrite (worker_processed_path (pretty id +:+ "_converted.mp4")) in Hfs.
  unfold Routes.download_video, Routes.not_downloadable.
  unfold_collaborators. unfold_monad.
  rewrite Hdb', Hvid, lookup_insert_eq. cbn.
  unfold owner_of in Hown. rewrite Husers, Hown.
  rewrite String.eqb_refl. cbn.
  rewrite Hfs, lookup_insert_eq.
  eexists. split; [reflexivity |]. cbn.
  split; [apply lookup_insert_eq |]. split; reflexivity.
Qed.

Lemma converted_job_downloads_for_its_owner_witness :
  let w' := snd (Processor.process_video Samples.env_converts 1 (Samples.w_job "queued")) in
  exists w'',
    Routes.download_video Samples.env_converts 1 "alice" w'
    = (inr {| Routes.fr_path :=
                Pathlib.to_str (Pathlib.joinpath Routes.PROCESSED_DIR (pretty 1 +:+ ".zip"));
              Routes.fr_media_type := "application/zip";
              Routes.fr_filename :=
                Pathlib.stem (Pathlib.Path "clip.mp4") +:+ "_converted.zip" |}, w'')
    /\ fs w'' !! Pathlib.joinpath Routes.PROCESSED_DIR (pretty 1 +:+ ".zip")
       = Some (ZipArchive [(Pathlib.stem (Pathlib.Path "clip.mp4") +:+ "_converted.mp4",
                            Raw "converted bytes")])
    /\ db w'' = db w' /\ cache w'' = cache w'.
Proof.
  apply (converted_job_downloads_for_its_owner
           Samples.env_converts Samples.env_converts 1 (Samples.w_job "queued")
           (Samples.job "queued") Samples.alice "converted bytes"); reflexivity.
Defined.

(** X15: for the owner of a job in state [completed] whose converted file
    is not on disk, the download is refused with "Converted file missing",
    a message of its own and not the uniform rejection, and nothing is
    written. *)
Theorem completed_job_without_file_is_reported_missing
    (env : Env) (id : Z) (w : World) (v : Video) (u : User) :
  db_up env = true ->
  videos (db w) !! id = Some v ->
  owner_of (db w) v = Some u ->
  status v = "completed" ->
  fs w !! Pathlib.joinpath Routes.PROCESSED_DIR (pretty id +:+ "_converted.mp4") = None ->
  Routes.download_video env id (username u) w
  = (inl (HTTPException 404 "Converted file missing"), w)
  /\ HTTPException 404 "Converted file missing" <> not_found_rejection.
Proof.
  intros Hdb Hv Hown Hdone Hmissing.
  split; [| discriminate].
  unfold Routes.download_video, Routes.not_downloadable.
  unfold_collaborators. unfold_monad.
  unfold owner_of in Hown.
  rewrite Hdb, Hv. cbn. rewrite Hown, String.eqb_refl, Hdone. cbn.
  rewrite Hmissing. reflexivity.
Qed.

Lemma completed_job_without_file_is_reported_missing_witness :
  Routes.download_video Samples.env_converts 1 "alice" (Samples.w_job "completed")
  = (inl (HTTPException 404 "Converted file missing"), Samples.w_job "completed")
  /\ HTTPException 404 "Converted file missing" <> not_found_rejection.
Proof.
  apply (completed_job_without_file_is_reported_missing
           Samples.env_converts 1 (Samples.w_job "completed")
           (Samples.job "completed") Samples.alice); reflexivity.
Defined.

(** X16: a run of the worker on a stored job changes that job's state and
    nothing else in the store: every other row is as before, the job keeps
    its file name and its owner, the user table and the sequence are as
    before; the run puts nothing on the queue and writes no file but the
    converted one. *)
Theorem processing_touches_one_state_only
    (env : Env) (id : Z) (w : World) (v : Video) :
  db_up env = true ->
  videos (db w) !! id = Some v ->
  let w' := snd (Processor.process_video env id w) in
  (forall id', id' <> id -> videos (db w') !! id' = videos (db w) !! id')
  /\ (exists v', videos (db w') !! id = Some v'
                 /\ filename v' = filename v /\ video_user_id v' = video_user_id v)
  /\ users (db w') = users (db w)
  /\ video_seq (db w') = video_seq (db w)
  /\ Trace.enqueued (trace w') = Trace.enqueued (trace w)
  /\ (forall p, In p (Trace.files_written (trace w')) ->
                In p (Trace.files_written (trace w))
                \/ p = Pathlib.joinpath Routes.PROCESSED_DIR
                         (pretty id +:+ "_converted.mp4")).
Proof.
  intros Hdb Hv. cbv zeta.
  destruct (process_video_files_and_cache env id w v Hdb Hv) as (_ & _ & Hwritten).
  destruct (process_video_found env id w v Hdb Hv)
    as (w' & t & Hrun & Ht & Hvid & Husers & Hseq & _ & _ & _ & _ & Henq).
  rewrite Hrun in *. simpl snd in *.
  split; [intros id' Hne; rewrite Hvid; apply lookup_insert_ne;
          intros Heq; apply Hne; symmetry; exact Heq |].
  split; [eexists; split; [rewrite Hvid; apply lookup_insert_eq | split; reflexivity] |].
  split; [exact Husers |]. split; [exact Hseq |].
  split.
  { rewrite Ht. unfold Trace.enqueued in *. rewrite omap_app, Henq. apply app_nil_r. }
  intros p Hp. rewrite Hwritten in Hp. apply in_app_or in Hp as [Hold | Hnew].
  - left. exact Hold.
  - right. destruct (ffmpeg_outcome env); [destruct Hnew |].
    destruct Hnew as [<- | []].
    apply worker_processed_path.
Qed.

Lemma processing_touches_one_state_only_witness :
  let w' := snd (Processor.process_video Samples.env_codec_fails 1 (Samples.w_job "queued")) in
  (forall id', id' <> 1 ->
               videos (db w') !! id' = videos (db (Samples.w_job "queued")) !! id')
  /\ (exists v', videos (db w') !! 1 = Some v'
                 /\ filename v' = "clip.mp4" /\ video_user_id v' = 1)
  /\ users (db w') = users (db (Samples.w_job "queued"))
  /\ video_seq (db w') = video_seq (db (Samples.w_job "queued"))
  /\ Trace.enqueued (trace w') = Trace.enqueued (trace (Samples.w_job "queued"))
  /\ (forall p, In p (Trace.files_written (trace w')) ->
                In p (Trace.files_written (trace (Samples.w_job "queued")))
                \/ p = Pathlib.joinpath Routes.PROCESSED_DIR
                         (pretty 1 +:+ "_converted.mp4")).
Proof.
  apply (processing_touches_one_state_only Samples.env_codec_fails 1
           (Samples.w_job "queued") (Samples.job "queued")); reflexivity.
Defined.

(** X17: the event of a run tells the state the run committed. A run on a
    stored job publishes at most one event; it carries the job id and the
    owner's id; its routing key is [video.completed] without error text
    exactly when the row was committed as [completed], and [video.error]
    with the codec's message exactly when it was committed as [error]. *)
Theorem event_tells_the_committed_state
    (env : Env) (id : Z) (w : World) (v : Video) :
  db_up env = true ->
  videos (db w) !! id = Some v ->
  exists w' t v',
    Processor.process_video env id w = (inr tt, w')
    /\ trace w' = trace w ++ t
    /\ videos (db w') !! id = Some v'
    /\ (length (Trace.published t) <= 1)%nat
    /\ (bus_up env = true -> length (Trace.published t) = 1%nat)
    /\ forall key body, In (key, body) (Trace.published t) ->
         ev_video_id body = id /\ ev_user_id body = video_user_id v
         /\ ((key = "video.completed" /\ ev_error body = None
              /\ status v' = "completed")
             \/ (key = "video.error" /\ status v' = "error"
                 /\ exists msg, ev_error body = Some msg
                                /\ ffmpeg_outcome env = inl msg)).
Proof.
  intros Hdb Hv.
  destruct (process_video_found env id w v Hdb Hv)
    as (w' & t & Hrun & Ht & Hvid & _ & _ & _ & _ & Hpub & _).
  exists w', t, (with_status v (outcome_status env)).
  split; [exact Hrun |]. split; [exact Ht |].
  split; [rewrite Hvid; apply lookup_insert_eq |].
  rewrite Hpub. unfold outcome_event, outcome_status.
  destruct (bus_up env); simpl.
  - split; [lia |]. split; [reflexivity |].
    intros key body [Heq | []].
    destruct (ffmpeg_outcome env) as [msg | data]; injection Heq as <- <-; simpl;
      (split; [reflexivity |]); (split; [reflexivity |]).
    + right. split; [reflexivity |]. split; [reflexivity |]. exists msg. split; reflexivity.
    + left. split; [reflexivity |]. split; reflexivity.
  - split; [lia |]. split; [discriminate |]. intros key body [].
Qed.

Lemma event_tells_the_committed_state_witness :
  exists w' t v',
    Processor.process_video Samples.env_codec_fails 1 (Samples.w_job "queued") = (inr tt, w')
    /\ trace w' = trace (Samples.w_job "queued") ++ t
    /\ videos (db w') !! 1 = Some v'
    /\ (length (Trace.published t) <= 1)%nat
    /\ (bus_up Samples.env_codec_fails = true -> length (Trace.published t) = 1%nat)
    /\ forall key body, In (key, body) (Trace.published t) ->
         ev_video_id body = 1 /\ ev_user_id body = video_user_id (Samples.job "queued")
         /\ ((key = "video.completed" /\ ev_error body = None
              /\ status v' = "completed")
             \/ (key = "video.error" /\ status v' = "error"
                 /\ exists msg, ev_error body = Some msg
                                /\ ffmpeg_outcome Samples.env_codec_fails = inl msg)).
Proof.
  apply (event_tells_the_committed_state Samples.env_codec_fails 1
           (Samples.w_job "queued") (Samples.job "queued")); reflexivity.
Defined.

(** *** Job ids *)

Lemma persist_and_enqueue_db
    (env : Env) (u : User) (final_filename name : string) (w : World) :
  db_up env = true ->
  db (snd (Routes.persist_and_enqueue env u final_filename name w))
  = {| users := users (db w);
       videos := <[video_seq (db w) :=
                     {| filename := final_filename; video_user_id := user_id u;
                        status := "queued" |}]> (videos (db w));
       video_seq := video_seq (db w) + 1 |}
  /\ (cache (snd (Routes.persist_and_enqueue env u final_filename name w)) = cache w
      \/ cache (snd (Routes.persist_and_enqueue env u final_filename name w))
         = delete (Routes._status_cache_key name) (cache w)).
Proof.
  intros Hdb.
  unfold Routes.persist_and_enqueue, Routes._invalidate_status_cache.
  unfold_collaborators. unfold_monad. rewrite Hdb.
  destruct (cache_up env); cbn; destruct (queue_up env); cbn;
    (split; [reflexivity |]); (left; reflexivity) || (right; reflexivity).
Qed.

(** The store and the cache after any submission: as before, or with one
    more row under the next key, and at most the principal's entry gone. *)
Lemma upload_video_store (env : Env) (file : Routes.UploadFile) (name : string) (w : World) :
  let w' := snd (Routes.upload_video env file name w) in
  (db w' = db w
   \/ exists v, db w' = {| users := users (db w);
                           videos := <[video_seq (db w) := v]> (videos (db w));
                           video_seq := video_seq (db w) + 1 |})
  /\ (cache w' = cache w
      \/ cache w' = delete (Routes._status_cache_key name) (cache w)).
Proof.
  cbv zeta.
  destruct (db_up env) eqn:Hdb.
  2: { unfold Routes.upload_video, query_user_by_name, db_execute. unfold_monad.
       rewrite Hdb. split; left; reflexivity. }
  destruct (user_named (db w) name) as [u |] eqn:Huser.
  2: { unfold Routes.upload_video, query_user_by_name, db_execute. unfold_monad.
       unfold user_named in Huser. rewrite Hdb, Huser. split; left; reflexivity. }
  destruct (open_refusal env (tmp_path_of file)) as [e |] eqn:Hopen.
  { rewrite (upload_video_open_refused env file name w u e Hdb Huser Hopen).
    split; left; reflexivity. }
  rewrite (upload_video_blocks env file name w u Hdb Huser Hopen).
  destruct (validate_upload_frame env (Routes.uf_filename file) (tmp_path_of file)
              (upload_stored file w)) as (Hdb2 & Hcache2 & _).
  destruct (Routes.validate_upload _ _ _ (upload_stored file w))
    as [[e | final_filename] w2]; simpl in Hdb2, Hcache2.
  - split; left; assumption.
  - destruct (persist_and_enqueue_db env u final_filename name w2 Hdb) as [Hdb3 Hcache3].
    rewrite Hdb2 in Hdb3. rewrite Hcache2 in Hcache3.
    split; [right; eexists; exact Hdb3 | exact Hcache3].
Qed.

Lemma process_video_store (env : Env) (id : Z) (w : World) :
  let w' := snd (Processor.process_video env id w) in
  db w' = db w
  \/ exists v, videos (db w) !! id = Some v
               /\ videos (db w') = <[id := with_status v (outcome_status env)]> (videos (db w))
               /\ video_seq (db w') = video_seq (db w).
Proof.
  cbv zeta.
  destruct (db_up env) eqn:Hdb;
    [| rewrite (process_video_db_down env id w Hdb); left; reflexivity].
  destruct (videos (db w) !! id) as [v |] eqn:Hv;
    [| rewrite (process_video_missing env id w Hdb Hv); left; reflexivity].
  destruct (process_video_found env id w v Hdb Hv)
    as (w' & t & Hrun & _ & Hvid & _ & Hseq & _).
  rewrite Hrun. right. exists v. split; [reflexivity |]. split; assumption.
Qed.

(** X18: every stored job id lies below the next value of the sequence,
    and every operation keeps it so: a submission and a run of the worker,
    whatever they return, lead from a store with this property to a store
    with it. In such a store a returning submission gets an id no job had
    before, and leaves every row that existed as it was. *)
Theorem job_ids_are_fresh (env : Env) (w : World) :
  seq_fresh (db w) ->
  (forall file name, seq_fresh (db (snd (Routes.upload_video env file name w))))
  /\ (forall id, seq_fresh (db (snd (Processor.process_video env id w))))
  /\ (forall file name r w',
         Routes.upload_video env file name w = (inr r, w') ->
         videos (db w) !! Routes.video_id r = None
         /\ forall id v, videos (db w) !! id = Some v -> videos (db w') !! id = Some v).
Proof.
  intros Hfresh. split; [| split].
  - intros file name.
    destruct (upload_video_store env file name w) as [[Hsame | [v Hnew]] _].
    + rewrite Hsame. exact Hfresh.
    + rewrite Hnew. intros id v' Hv'. simpl in Hv' |- *.
      destruct (decide (id = video_seq (db w))) as [-> | Hne]; [lia |].
      rewrite lookup_insert_ne in Hv' by (intros Heq; apply Hne; symmetry; exact Heq).
      specialize (Hfresh id v' Hv'). lia.
  - intros id.
    destruct (process_video_store env id w) as [Hsame | (v & Hv & Hvid & Hseq)].
    + rewrite Hsame. exact Hfresh.
    + intros id' v' Hv'. rewrite Hseq. rewrite Hvid in Hv'.
      destruct (decide (id' = id)) as [-> | Hne]; [exact (Hfresh id v Hv) |].
      rewrite lookup_insert_ne in Hv' by (intros Heq; apply Hne; symmetry; exact Heq).
      exact (Hfresh id' v' Hv').
  - intros file name r w' Hrun.
    destruct (upload_video_success env file name w w' r Hrun)
      as (u & final_filename & w2 & files & _ & Hdb2 & _ & _ & _ & Hlast).
    destruct (persist_and_enqueue_success env u final_filename name w2 w' r Hlast)
      as (Hr & Hdbw' & _).
    rewrite Hdb2 in Hr, Hdbw'. subst r. simpl Routes.video_id.
    assert (Hnone : videos (db w) !! video_seq (db w) = None).
    { destruct (videos (db w) !! video_seq (db w)) as [v |] eqn:Hv; [| reflexivity].
      specialize (Hfresh _ _ Hv). lia. }
    split; [exact Hnone |].
    intros id v Hv. rewrite Hdbw'. simpl videos.
    rewrite lookup_insert_ne; [exact Hv |].
    intros Heq. subst id. rewrite Hnone in Hv. discriminate Hv.
Qed.

Lemma job_ids_are_fresh_witness :
  (forall file name,
      seq_fresh (db (snd (Routes.upload_video Samples.env_converts file name
                            (Samples.w_job "queued")))))
  /\ (forall id,
         seq_fresh (db (snd (Processor.process_video Samples.env_converts id
                               (Samples.w_job "queued")))))
  /\ (forall file name r w',
         Routes.upload_video Samples.env_converts file name (Samples.w_job "queued")
         = (inr r, w') ->
         videos (db (Samples.w_job "queued")) !! Routes.video_id r = None
         /\ forall id v, videos (db (Samples.w_job "queued")) !! id = Some v ->
                         videos (db w') !! id = Some v).
Proof.
  apply (job_ids_are_fresh Samples.env_converts (Samples.w_job "queued")).
  intros id v Hv.
  destruct (decide (id = 1)) as [-> | Hne]; [simpl; lia |].
  unfold Samples.w_job in Hv. simpl in Hv.
  rewrite lookup_singleton_ne in Hv by (intros Heq; apply Hne; symmetry; exact Heq).
  discriminate Hv.
Defined.

(** *** The queue task *)

(** X19: what the queue task answers. With the database up it returns
    [{"status": "completed"}] for every job id, whether the job exists or
    not and whether its conversion succeeded or failed, and schedules no
    retry. With the database down it asks for a retry after 60 seconds as
    long as the request was retried fewer than three times, and after that
    raises the database error without scheduling anything. *)
Theorem task_outcome (env : Env) (retries : nat) (id : Z) (w : World) :
  (db_up env = true ->
   exists w' t,
     CeleryApp.process_video_task env retries id w
     = (inr (CeleryApp.mkTaskResult "completed" id), w')
     /\ trace w' = trace w ++ t /\ Trace.retries_scheduled t = [])
  /\ (db_up env = false -> (retries < 3)%nat ->
      CeleryApp.process_video_task env retries id w
      = (inl (Retry OperationalError 60),
         {| db := db w; cache := cache w; fs := fs w;
            trace := trace w ++ [EvRetry id 60] |}))
  /\ (db_up env = false -> (3 <= retries)%nat ->
      CeleryApp.process_video_task env retries id w = (inl OperationalError, w)).
Proof.
  split; [| split].
  - intros Hdb.
    destruct (videos (db w) !! id) as [v |] eqn:Hv.
    + destruct (process_video_found env id w v Hdb Hv)
        as (w' & t & Hrun & Ht & _ & _ & _ & _ & _ & _ & Hretry & _).
      exists w', t. split; [apply process_video_task_returns; exact Hrun |].
      split; assumption.
    + exists w, []. split.
      * apply process_video_task_returns. apply process_video_missing; assumption.
      * split; [rewrite app_nil_r |]; reflexivity.
  - intros Hdb Hlt.
    apply process_video_task_retries_when_routine_raises; [exact Hdb |].
    unfold CeleryApp.max_retries. exact Hlt.
  - intros Hdb Hge.
    unfold CeleryApp.process_video_task. unfold_monad.
    rewrite (process_video_db_down env id w Hdb).
    unfold CeleryApp.self_retry. unfold_monad.
    replace (Nat.ltb CeleryApp.max_retries (S retries)) with true; [reflexivity |].
    symmetry. apply Nat.ltb_lt. unfold CeleryApp.max_retries. lia.
Qed.

Lemma task_outcome_witness :
  (exists w' t,
      CeleryApp.process_video_task Samples.env_codec_fails 0 1 (Samples.w_job "queued")
      = (inr (CeleryApp.mkTaskResult "completed" 1), w')
      /\ trace w' = trace (Samples.w_job "queued") ++ t
      /\ Trace.retries_scheduled t = [])
  /\ CeleryApp.process_video_task (mkEnv false true true true (inr "")) 3 1
       (Samples.w_job "queued")
     = (inl OperationalError, Samples.w_job "queued").
Proof.
  split.
  - apply (proj1 (task_outcome Samples.env_codec_fails 0 1 (Samples.w_job "queued"))).
    reflexivity.
  - apply (proj2 (proj2 (task_outcome (mkEnv false true true true (inr "")) 3 1
                           (Samples.w_job "queued")))); [reflexivity | lia].
Defined.

(** *** Whose cache entry is deleted *)

Lemma status_cache_key_inj (a b : string) :
  Routes._status_cache_key a = Routes._status_cache_key b -> a = b.
Proof.
  unfold Routes._status_cache_key. intros Heq.
  apply (f_equal (PyStr.drop 14)) in Heq. exact Heq.
Qed.

(** X20: the cache is keyed by principal and an invalidation reaches one
    principal only. Two different names have different keys; a submission
    by one principal, whatever it returns, leaves the entry of every other
    principal as it is; so does a run of the worker on a job whose owner
    is someone else. *)
Theorem invalidation_reaches_one_principal (name other : string) :
  name <> other ->
  Routes._status_cache_key name <> Routes._status_cache_key other
  /\ (forall env file w,
         cache (snd (Routes.upload_video env file name w))
         !! Routes._status_cache_key other
         = cache w !! Routes._status_cache_key other)
  /\ (forall env id w v,
         db_up env = true ->
         videos (db w) !! id = Some v ->
         (forall u, owner_of (db w) v = Some u -> username u <> other) ->
         cache (snd (Processor.process_video env id w))
         !! Routes._status_cache_key other
         = cache w !! Routes._status_cache_key other).
Proof.
  intros Hne.
  assert (Hkeys : forall a, a <> other ->
            Routes._status_cache_key a <> Routes._status_cache_key other)
    by (intros a Ha Heq; apply Ha; apply status_cache_key_inj; exact Heq).
  split; [apply Hkeys; exact Hne |]. split.
  - intros env file w.
    destruct (upload_video_store env file name w) as [_ [Hsame | Hdeleted]].
    + rewrite Hsame. reflexivity.
    + rewrite Hdeleted. apply lookup_delete_ne. apply Hkeys. exact Hne.
  - intros env id w v Hdb Hv Howner.
    destruct (process_video_files_and_cache env id w v Hdb Hv) as (_ & Hcache & _).
    rewrite Hcache.
    destruct (owner_of (db w) v) as [u |]; [| reflexivity].
    destruct (negb (String.eqb (username u) "") && cache_up env)%bool; [| reflexivity].
    apply lookup_delete_ne. apply Hkeys. apply Howner. reflexivity.
Qed.

Lemma invalidation_reaches_one_principal_witness :
  Routes._status_cache_key "bob" <> Routes._status_cache_key "alice"
  /\ cache (snd (Routes.upload_video Samples.env_converts Samples.mp4_upload "bob"
                   (Samples.w_job "queued")))
     !! Routes._status_cache_key "alice"
     = cache (Samples.w_job "queued") !! Routes._status_cache_key "alice".
Proof.
  assert (Hne : "bob" <> "alice") by discriminate.
  destruct (invalidation_reaches_one_principal "bob" "alice" Hne) as (Hkeys & Hupload & _).
  split; [exact Hkeys | apply Hupload].
Defined.

(** *** Credentials *)

Section Credentials.

Variable verify_token : string -> option string.

Lemma get_current_user_valid (authorization : option string) (name : string) (w : World) :
  valid_token verify_token authorization name ->
  Endpoints.get_current_user verify_token authorization w = (inr name, w).
Proof.
  intros (token & -> & Htoken & Hname).
  unfold Endpoints.get_current_user, Endpoints.security. unfold_monad.
  rewrite Htoken. apply String.eqb_neq in Hname. rewrite Hname. reflexivity.
Qed.

Lemma get_current_user_invalid (authorization : option string) (w : World) :
  (forall name, ~ valid_token verify_token authorization name) ->
  exists code detail,
    Endpoints.get_current_user verify_token authorization w
    = (inl (HTTPException code detail), w)
    /\ code = refusal_code authorization.
Proof.
  intros Hinvalid.
  unfold Endpoints.get_current_user, Endpoints.security. unfold_monad.
  destruct authorization as [token |]; [| eexists; eexists; split; reflexivity].
  destruct (verify_token token) as [name |] eqn:Htoken;
    [| eexists; eexists; split; reflexivity].
  destruct (String.eqb name "") eqn:Hname; [eexists; eexists; split; reflexivity |].
  exfalso. apply (Hinvalid name). exists token.
  split; [reflexivity |]. split; [exact Htoken |]. apply String.eqb_neq. exact Hname.
Qed.

(** X21: the three routes of the video service run behind the credentials.
    Without a valid token (no header, a token that verifies to no name or
    to the empty name) each of them is refused with 403 or 401 and leaves
    the world untouched: no file, no row, no cache entry, no message. With
    a valid token each runs exactly as its body for the verified name. *)
Theorem routes_run_behind_credentials
    (env : Env) (authorization : option string) (w : World)
    (file : Routes.UploadFile) (id : Z) :
  ((forall name, ~ valid_token verify_token authorization name) ->
   exists code detail,
     code = refusal_code authorization
     /\ Endpoints.post_upload verify_token env authorization file w
        = (inl (HTTPException code detail), w)
     /\ Endpoints.get_status verify_token env authorization w
        = (inl (HTTPException code detail), w)
     /\ Endpoints.get_download verify_token env authorization id w
        = (inl (HTTPException code detail), w))
  /\ (forall name, valid_token verify_token authorization name ->
      Endpoints.post_upload verify_token env authorization file w
      = Routes.upload_video env file name w
      /\ Endpoints.get_status verify_token env authorization w
         = Routes.get_status env name w
      /\ Endpoints.get_download verify_token env authorization id w
         = Routes.download_video env id name w).
Proof.
  split.
  - intros Hinvalid.
    destruct (get_current_user_invalid authorization w Hinvalid)
      as (code & detail & Hrefused & Hcode).
    exists code, detail. split; [exact Hcode |].
    unfold Endpoints.post_upload, Endpoints.get_status, Endpoints.get_download.
    unfold_monad. rewrite Hrefused. repeat split.
  - intros name Hvalid.
    pose proof (get_current_user_valid authorization name w Hvalid) as Haccepted.
    unfold Endpoints.post_upload, Endpoints.get_status, Endpoints.get_download.
    unfold_monad. rewrite Haccepted. repeat split.
Qed.

End Credentials.

Lemma routes_run_behind_credentials_witness :
  let verify := fun token : string =>
                  if String.eqb token "token of alice" then Some "alice" else None in
  (exists code detail,
      code = 401
      /\ Endpoints.post_upload verify Samples.env_converts (Some "forged")
           Samples.mp4_upload Samples.w_empty
         = (inl (HTTPException code detail), Samples.w_empty)
      /\ Endpoints.get_status verify Samples.env_converts (Some "forged") Samples.w_empty
         = (inl (HTTPException code detail), Samples.w_empty)
      /\ Endpoints.get_download verify Samples.env_converts (Some "forged") 1
           Samples.w_empty
         = (inl (HTTPException code detail), Samples.w_empty))
  /\ Endpoints.get_status verify Samples.env_converts (Some "token of alice")
       Samples.w_empty
     = Routes.get_status Samples.env_converts "alice" Samples.w_empty.
Proof.
  cbv zeta.
  set (verify := fun token : string =>
                   if String.eqb token "token of alice" then Some "alice" else None).
  split.
  - apply (proj1 (routes_run_behind_credentials verify Samples.env_converts
                    (Some "forged") Samples.w_empty Samples.mp4_upload 1)).
    intros name (token & Htoken & Hverify & _).
    injection Htoken as <-. discriminate Hverify.
  - apply (proj2 (routes_run_behind_credentials verify Samples.env_converts
                    (Some "token of alice") Samples.w_empty Samples.mp4_upload 1) "alice").
    exists "token of alice". split; [reflexivity |]. split; [reflexivity | discriminate].
Defined.

(** *** The auth service *)

Section AuthFacts.

Import AuthService.

Variable get_password_hash : string -> string.
Variable verify_password : string -> string -> bool.
Variable create_access_token : string -> string.
Variable verify_token : string -> option string.

Lemma find_account_taken (d : AuthDb) (name : string) :
  name_taken d name <->
  exists a, List.find (fun a => String.eqb (account_username a) name) (accounts d) = Some a.
Proof.
  unfold name_taken. split.
  - intros Hin. apply in_map_iff in Hin as (a & Hname & Hin).
    destruct (List.find (fun a => String.eqb (account_username a) name) (accounts d))
      as [b |] eqn:Hfind; [exists b; reflexivity |].
    pose proof (find_none _ _ Hfind a Hin) as Hfalse. simpl in Hfalse.
    rewrite Hname, String.eqb_refl in Hfalse. discriminate Hfalse.
  - intros [a Hfind]. apply find_some in Hfind as [Hin Hname].
    apply String.eqb_eq in Hname. apply in_map_iff. exists a. split; assumption.
Qed.

Lemma find_account_free (d : AuthDb) (name : string) :
  ~ name_taken d name ->
  List.find (fun a => String.eqb (account_username a) name) (accounts d) = None.
Proof.
  intros Hfree.
  destruct (List.find (fun a => String.eqb (account_username a) name) (accounts d))
    as [a |] eqn:Hfind; [| reflexivity].
  exfalso. apply Hfree. apply find_account_taken. exists a. exact Hfind.
Qed.

(** X22: what a signup does. With the database up, a signup under a free
    name answers "User created" and appends one account with this name and
    the hash of the password (never the password itself unless the hash
    says so), leaving the other accounts as they are; under a taken name it
    is refused with "Username already registered" and the table is
    unchanged; with the database down nothing is written. *)
Theorem signup_creates_or_refuses (reachable : bool) (name password : string) (d : AuthDb) :
  (reachable = true -> ~ name_taken d name ->
   signup get_password_hash reachable name password d
   = (inr "User created",
      {| accounts := accounts d ++ [mkAccount (account_seq d) name
                                      (get_password_hash password)];
         account_seq := account_seq d + 1 |}))
  /\ (reachable = true -> name_taken d name ->
      signup get_password_hash reachable name password d
      = (inl (HTTPException 400 "Username already registered"), d))
  /\ (reachable = false ->
      signup get_password_hash reachable name password d = (inl OperationalError, d)).
Proof.
  unfold signup, find_account. split; [| split].
  - intros -> Hfree. rewrite (find_account_free d name Hfree). reflexivity.
  - intros -> Htaken. apply find_account_taken in Htaken as [a Hfind].
    rewrite Hfind. reflexivity.
  - intros ->. reflexivity.
Qed.

(** X23: signups keep the names unique: from a table in which no two
    accounts share a name, every signup, accepted or refused, leads to
    such a table again. *)
Theorem signup_keeps_names_unique (reachable : bool) (name password : string) (d : AuthDb) :
  usernames_unique d ->
  usernames_unique (snd (signup get_password_hash reachable name password d)).
Proof.
  intros Hunique. unfold signup, find_account.
  destruct reachable; [| exact Hunique].
  destruct (List.find (fun a => String.eqb (account_username a) name) (accounts d))
    as [a |] eqn:Hfind; [exact Hunique |].
  unfold usernames_unique in *. simpl. rewrite map_app. simpl.
  apply NoDup_app. split; [exact Hunique |].
  split; [| apply NoDup_singleton].
  intros x Hx Hx'. apply list_elem_of_singleton in Hx'. subst x.
  apply list_elem_of_In, in_map_iff in Hx as (b & Hname & Hin).
  pose proof (find_none _ _ Hfind b Hin) as Hfalse. simpl in Hfalse.
  rewrite Hname, String.eqb_refl in Hfalse. discriminate Hfalse.
Qed.

End AuthFacts.

Lemma signup_creates_or_refuses_witness :
  AuthService.signup AuthSamples.hash true "bob" "hunter2" AuthSamples.d_alice
  = (inr "User created",
     {| AuthService.accounts :=
          [AuthService.mkAccount 1 "alice" (AuthSamples.hash "secret");
           AuthService.mkAccount 2 "bob" (AuthSamples.hash "hunter2")];
        AuthService.account_seq := 3 |})
  /\ AuthService.signup AuthSamples.hash true "alice" "other" AuthSamples.d_alice
     = (inl (HTTPException 400 "Username already registered"), AuthSamples.d_alice).
Proof.
  destruct (signup_creates_or_refuses AuthSamples.hash true "bob" "hunter2"
              AuthSamples.d_alice) as (Hfree & _ & _).
  destruct (signup_creates_or_refuses AuthSamples.hash true "alice" "other"
              AuthSamples.d_alice) as (_ & Htaken & _).
  split.
  - apply Hfree; [reflexivity |].
    intros [Hin | []]. discriminate Hin.
  - apply Htaken; [reflexivity |]. left. reflexivity.
Defined.

Lemma signup_keeps_names_unique_witness :
  usernames_unique
    (snd (AuthService.signup AuthSamples.hash true "bob" "hunter2" AuthSamples.d_alice)).
Proof.
  apply (signup_keeps_names_unique AuthSamples.hash true "bob" "hunter2"
           AuthSamples.d_alice).
  unfold usernames_unique. simpl. apply NoDup_singleton.
Defined.

Section AuthFlows.

Import AuthService.

Variable get_password_hash : string -> string.
Variable verify_password : string -> string -> bool.
Variable create_access_token : string -> string.
Variable verify_token : string -> option string.

Lemma find_appended {T} (f : T -> bool) (l : list T) (x : T) :
  List.find f l = None -> f x = true -> List.find f (l ++ [x]) = Some x.
Proof.
  induction l as [| a l IH]; simpl; intros Hnone Hx; [rewrite Hx; reflexivity |].
  destruct (f a); [discriminate Hnone |]. apply IH; assumption.
Qed.

(** X24: a login is refused in one way only. With the database up, an
    unknown name and a wrong password for a known name raise the same
    "Invalid credentials" and leave the table unchanged, so the answer does
    not tell whether the name exists. *)
Theorem login_refusals_are_uniform (name password : string) (d : AuthDb) :
  (~ name_taken d name
   \/ exists a,
        List.find (fun a => String.eqb (account_username a) name) (accounts d) = Some a
        /\ verify_password password (hashed_password a) = false) ->
  login verify_password create_access_token true name password d
  = (inl (HTTPException 400 "Invalid credentials"), d).
Proof.
  unfold login, find_account.
  intros [Hfree | (a & Hfind & Hwrong)].
  - rewrite (find_account_free d name Hfree). reflexivity.
  - rewrite Hfind, Hwrong. reflexivity.
Qed.

(** X25: signup and login round trip. After a signup under a free name,
    a login with the same name and password is checked against the stored
    hash: it returns a bearer token made for that name when the password
    verifies against its own hash, and any password that does not verify
    against that hash is refused. *)
Theorem login_after_signup (name password : string) (d : AuthDb) :
  ~ name_taken d name ->
  let d' := snd (signup get_password_hash true name password d) in
  forall attempt,
    login verify_password create_access_token true name attempt d'
    = if verify_password attempt (get_password_hash password)
      then (inr {| access_token := create_access_token name; token_type := "bearer" |}, d')
      else (inl (HTTPException 400 "Invalid credentials"), d').
Proof.
  intros Hfree. cbv zeta. intros attempt.
  pose proof (find_account_free d name Hfree) as Hnone.
  unfold signup, find_account. rewrite Hnone. simpl snd.
  unfold login, find_account. simpl accounts.
  rewrite (find_appended _ (accounts d)
             (mkAccount (account_seq d) name (get_password_hash password)) Hnone)
    by (simpl; apply String.eqb_refl).
  simpl hashed_password.
  destruct (verify_password attempt (get_password_hash password)); reflexivity.
Qed.

(** X26: the token check is written twice, in the auth service
    ([verify_auth]) and in the video service ([get_current_user]), and the
    two agree on every token: one returns a name exactly when the other
    does, the same name, and both refuse with 401 otherwise. *)
Theorem both_services_verify_alike (token : string) (w : World) :
  (forall name,
      verify_auth verify_token token = inr name <->
      Endpoints.get_current_user verify_token (Some token) w = (inr name, w))
  /\ (verify_auth verify_token token = inl (HTTPException 401 "Invalid token") <->
      Endpoints.get_current_user verify_token (Some token) w
      = (inl (HTTPException 401 "Invalid token"), w))
  /\ (verify_auth verify_token token = inl (HTTPException 401 "Invalid token")
      \/ exists name, name <> "" /\ verify_auth verify_token token = inr name).
Proof.
  unfold verify_auth, Endpoints.get_current_user, Endpoints.security. unfold_monad.
  destruct (verify_token token) as [n |].
  - destruct (String.eqb n "") eqn:Hn.
    + split; [intros name; split; discriminate |].
      split; [split; reflexivity |]. left. reflexivity.
    + split.
      * intros name. split; intros Heq; injection Heq as <-; reflexivity.
      * split; [split; discriminate |].
        right. exists n. split; [apply String.eqb_neq; exact Hn | reflexivity].
  - split; [intros name; split; discriminate |].
    split; [split; reflexivity |]. left. reflexivity.
Qed.

(** X27: an account made by the auth service is a user of the video
    service. After a signup under a free, non-empty name, on every world
    whose user table is the table of the auth service, the token a login
    returns (when tokens verify to the name they were made for) opens the
    upload route for that name: the route runs as [upload_video] for it and
    finds the user row, whose id is the id the signup assigned, so that
    with the database up the result of the call is not the refusal
    "User not found". *)
Theorem signed_up_account_can_submit
    (name password : string) (d : AuthDb) (env : Env) (w : World)
    (file : Routes.UploadFile) :
  ~ name_taken d name ->
  name <> "" ->
  verify_token (create_access_token name) = Some name ->
  let d' := snd (signup get_password_hash true name password d) in
  users (db w) = List.map as_user (accounts d') ->
  user_named (db w) name = Some {| user_id := account_seq d; username := name |}
  /\ Endpoints.post_upload verify_token env (Some (create_access_token name)) file w
     = Routes.upload_video env file name w
  /\ (db_up env = true ->
      fst (Routes.upload_video env file name w)
      <> inl (HTTPException 404 "User not found")).
Proof.
  intros Hfree Hname Htoken. cbv zeta. intros Husers.
  pose proof (find_account_free d name Hfree) as Hnone.
  unfold signup, find_account in Husers. rewrite Hnone in Husers. simpl in Husers.
  assert (Huser : user_named (db w) name
                  = Some {| user_id := account_seq d; username := name |}).
  { unfold user_named. rewrite Husers, map_app. simpl.
    apply find_appended; [| simpl; apply String.eqb_refl].
    clear -Hnone. induction (accounts d) as [| a l IH]; [reflexivity |].
    simpl in Hnone |- *. destruct (String.eqb (account_username a) name);
      [discriminate Hnone | apply IH; exact Hnone]. }
  split; [exact Huser |]. split.
  - unfold Endpoints.post_upload.
    unfold_monad.
    rewrite (get_current_user_valid verify_token (Some (create_access_token name)) name w);
      [reflexivity |].
    exists (create_access_token name). split; [reflexivity |]. split; assumption.
  - intros Hdb.
    exact (upload_video_known_principal env file name w _ Hdb Huser "User not found").
Qed.

End AuthFlows.

Lemma login_refusals_are_uniform_witness :
  AuthService.login AuthSamples.check AuthSamples.token_for true "carol" "secret"
    AuthSamples.d_alice
  = (inl (HTTPException 400 "Invalid credentials"), AuthSamples.d_alice)
  /\ AuthService.login AuthSamples.check AuthSamples.token_for true "alice" "guess"
       AuthSamples.d_alice
     = (inl (HTTPException 400 "Invalid credentials"), AuthSamples.d_alice).
Proof.
  split.
  - apply (login_refusals_are_uniform AuthSamples.check AuthSamples.token_for
             "carol" "secret" AuthSamples.d_alice).
    left. intros [Hin | []]. discriminate Hin.
  - apply (login_refusals_are_uniform AuthSamples.check AuthSamples.token_for
             "alice" "guess" AuthSamples.d_alice).
    right. exists (AuthService.mkAccount 1 "alice" (AuthSamples.hash "secret")).
    split; reflexivity.
Defined.

Lemma login_after_signup_witness :
  let d' := snd (AuthService.signup AuthSamples.hash true "bob" "hunter2"
                   AuthSamples.d_alice) in
  AuthService.login AuthSamples.check AuthSamples.token_for true "bob" "hunter2" d'
  = (inr {| AuthService.access_token := "token of bob";
            AuthService.token_type := "bearer" |}, d')
  /\ AuthService.login AuthSamples.check AuthSamples.token_for true "bob" "hunter3" d'
     = (inl (HTTPException 400 "Invalid credentials"), d').
Proof.
  cbv zeta.
  assert (Hfree : ~ name_taken AuthSamples.d_alice "bob")
    by (intros [Hin | []]; discriminate Hin).
  split.
  - apply (login_after_signup AuthSamples.hash AuthSamples.check AuthSamples.token_for
             "bob" "hunter2" AuthSamples.d_alice Hfree "hunter2").
  - apply (login_after_signup AuthSamples.hash AuthSamples.check AuthSamples.token_for
             "bob" "hunter2" AuthSamples.d_alice Hfree "hunter3").
Defined.

Lemma signed_up_account_can_submit_witness :
  let w := {| db := {| users := [mkUser 1 "alice"; mkUser 2 "bob"]; videos := ∅;
                       video_seq := 1 |};
              cache := ∅; fs := ∅; trace := [] |} in
  user_named (db w) "bob" = Some (mkUser 2 "bob")
  /\ Endpoints.post_upload AuthSamples.name_of Samples.env_converts
       (Some (AuthSamples.token_for "bob")) Samples.mp4_upload w
     = Routes.upload_video Samples.env_converts Samples.mp4_upload "bob" w
  /\ (db_up Samples.env_converts = true ->
      fst (Routes.upload_video Samples.env_converts Samples.mp4_upload "bob" w)
      <> inl (HTTPException 404 "User not found")).
Proof.
  cbv zeta.
  apply (signed_up_account_can_submit AuthSamples.hash AuthSamples.token_for
           AuthSamples.name_of "bob" "hunter2" AuthSamples.d_alice Samples.env_converts
           _ Samples.mp4_upload).
  - intros [Hin | []]. discriminate Hin.
  - discriminate.
  - reflexivity.
  - reflexivity.
Defined.

(** *** Reads and the store *)

(** X28: the worker invalidates by the owner's name and skips the deletion
    when there is none. On a job whose owner row is missing or whose owner
    has the empty name, a run commits the new state and leaves the whole
    cache as it was, also when Redis answers. *)
Theorem worker_skips_invalidation_without_owner_name
    (env : Env) (id : Z) (w : World) (v : Video) :
  db_up env = true ->
  videos (db w) !! id = Some v ->
  (owner_of (db w) v = None
   \/ exists u, owner_of (db w) v = Some u /\ username u = "") ->
  let w' := snd (Processor.process_video env id w) in
  cache w' = cache w
  /\ videos (db w') !! id = Some (with_status v (outcome_status env)).
Proof.
  intros Hdb Hv Howner. cbv zeta.
  destruct (process_video_files_and_cache env id w v Hdb Hv) as (_ & Hcache & _).
  destruct (process_video_found env id w v Hdb Hv)
    as (w' & t & Hrun & _ & Hvid & _).
  rewrite Hrun in *. simpl snd in *.
  split; [| rewrite Hvid; apply lookup_insert_eq].
  rewrite Hcache.
  destruct Howner as [-> | (u & -> & ->)]; reflexivity.
Qed.

Lemma worker_skips_invalidation_without_owner_name_witness :
  let w := {| db := {| users := [mkUser 1 ""]; videos := {[ 1 := Samples.job "queued" ]};
                       video_seq := 2 |};
              cache := {[ "videos:status:" := mkCacheEntry 120 [mkSummary 1 "clip.mp4" "queued"] ]};
              fs := ∅; trace := [] |} in
  let w' := snd (Processor.process_video Samples.env_converts 1 w) in
  cache w' = cache w
  /\ videos (db w') !! 1 = Some (Samples.job "completed").
Proof.
  cbv zeta.
  apply (worker_skips_invalidation_without_owner_name Samples.env_converts 1 _
           (Samples.job "queued")); [reflexivity | reflexivity |].
  right. exists (mkUser 1 ""). split; reflexivity.
Defined.

(** X29: the read routes do not write to the store. A status read, in
    every outcome, leaves rows and files as they are and touches no cache
    entry but the caller's; a download, in every outcome, leaves rows and
    cache as they are and writes no file but [processed/<id>.zip]. *)
Theorem read_routes_leave_the_store (env : Env) (name : string) (id : Z) (w : World) :
  (let w' := snd (Routes.get_status env name w) in
   db w' = db w /\ fs w' = fs w
   /\ forall other, other <> name ->
        cache w' !! Routes._status_cache_key other
        = cache w !! Routes._status_cache_key other)
  /\ (let w' := snd (Routes.download_video env id name w) in
      db w' = db w /\ cache w' = cache w
      /\ forall p, p <> Pathlib.joinpath Routes.PROCESSED_DIR (pretty id +:+ ".zip") ->
           fs w' !! p = fs w !! p).
Proof.
  split; cbv zeta.
  - unfold Routes.get_status, Routes._get_cached_status, Routes._set_cached_status.
    unfold_collaborators. unfold_monad.
    destruct (cache_up env) eqn:Hcache; cbn.
    + destruct (cache w !! Routes._status_cache_key name) as [e |]; cbn;
        [repeat split |].
      destruct (db_up env); cbn; [| repeat split].
      destruct (List.find _ (users (db w))) as [u |]; cbn; [| repeat split].
      split; [reflexivity |]. split; [reflexivity |].
      intros other Hother. apply lookup_insert_ne.
      intros Heq. apply Hother. symmetry. apply status_cache_key_inj. exact Heq.
    + destruct (db_up env); cbn; [| repeat split].
      destruct (List.find _ (users (db w))) as [u |]; cbn; repeat split.
  - unfold Routes.download_video, Routes.not_downloadable.
    unfold_collaborators. unfold_monad.
    destruct (db_up env); cbn; [| repeat split].
    destruct (videos (db w) !! id) as [v |]; cbn; [| repeat split].
    destruct (List.find _ (users (db w))) as [u |]; cbn; [| repeat split].
    destruct (negb (String.eqb (username u) name) || negb (String.eqb (status v) "completed"))%bool;
      cbn; [repeat split |].
    destruct (fs w !! Pathlib.joinpath Routes.PROCESSED_DIR (pretty id +:+ "_converted.mp4"))
      as [converted |]; cbn; [| repeat split].
    split; [reflexivity |]. split; [reflexivity |].
    intros p Hp. apply lookup_insert_ne. intros Heq. apply Hp. symmetry. exact Heq.
Qed.

Lemma read_routes_leave_the_store_witness :
  db (snd (Routes.get_status Samples.env_converts "bob" (Samples.w_job "queued")))
  = db (Samples.w_job "queued")
  /\ cache (snd (Routes.get_status Samples.env_converts "bob" (Samples.w_job "queued")))
     !! Routes._status_cache_key "alice"
     = cache (Samples.w_job "queued") !! Routes._status_cache_key "alice"
  /\ fs (snd (Routes.download_video Samples.env_converts 1 "alice"
                (Samples.w_job "completed")))
     !! Pathlib.Path "uploads/clip.mp4"
     = fs (Samples.w_job "completed") !! Pathlib.Path "uploads/clip.mp4".
Proof.
  destruct (read_routes_leave_the_store Samples.env_converts "bob" 1
              (Samples.w_job "queued")) as [(Hdb & _ & Hcache) _].
  destruct (read_routes_leave_the_store Samples.env_converts "alice" 1
              (Samples.w_job "completed")) as [_ (_ & _ & Hfs)].
  split; [exact Hdb |]. split.
  - apply Hcache. discriminate.
  - apply Hfs. discriminate.
Defined.

Lemma both_services_verify_alike_witness :
  AuthService.verify_auth AuthSamples.name_of "token of alice" = inr "alice"
  /\ Endpoints.get_current_user AuthSamples.name_of (Some "token of alice") Samples.w_empty
     = (inr "alice", Samples.w_empty)
  /\ Endpoints.get_current_user AuthSamples.name_of (Some "token of ") Samples.w_empty
     = (inl (HTTPException 401 "Invalid token"), Samples.w_empty).
Proof.
  destruct (both_services_verify_alike AuthSamples.name_of "token of alice"
              Samples.w_empty) as (Hsame & _ & _).
  destruct (both_services_verify_alike AuthSamples.name_of "token of "
              Samples.w_empty) as (_ & Hrefused & _).
  assert (Hauth : AuthService.verify_auth AuthSamples.name_of "token of alice" = inr "alice")
    by reflexivity.
  split; [exact Hauth |]. split.
  - apply (proj1 (Hsame "alice")). exact Hauth.
  - apply (proj1 Hrefused). reflexivity.
Defined.
